(** * ORBIT orchestration core: a shallow embedding and its properties

    The development embeds the orchestration core of the ORBIT image
    pipeline (orbit_tools.py, orbit_agent.py, orbit_mcp_server.py):
    the result envelope, the retrying database executor, the transaction
    coordinator, the progress ledger, the health aggregation, the execution
    statistics and the top-level workflow driver.

    Conventions of the embedding:
    - Python values are [PyVal]; dict literals keep their insertion order as
      association lists, the mutable [workflow_stats] dict is a [gmap];
    - Python [int] is [Z]; a Python [float] is the rational ([Q]) it
      denotes. The arithmetic of durations and of the success rate is exact
      arithmetic on these rationals; the percentage of the progress report
      is computed as the code computes it, every operation rounded to the
      nearest double ([b64]);
    - asynchronous calls are sequential call-and-wait, so [async]/[await]
      is plain sequencing in a state-and-exception monad [M];
    - the outside world (HTTP services, the clock, uuid generation, the LLM
      agent and the tool calls it decides to make) is the interface [Env];
      the calls made are recorded in a trace;
    - logging calls are omitted. *)

From Stdlib Require Import ZArith QArith Qabs Qpower Ascii String List Lia Lqa.
From stdpp Require Import gmap strings list fin_maps pretty.

Open Scope string_scope.
Open Scope list_scope.
Open Scope Z_scope.

(** ** Python values *)

#[warnings="-register-all"]
Inductive PyVal : Type :=
| VNone
| VBool (b : bool)
| VInt (z : Z)
| VFloat (q : Q)
| VStr (s : string)
| VList (l : list PyVal)
| VDict (d : list (PyVal * PyVal)).

(** A dict with string keys, as every dict literal of the code is. *)
Definition sdict (d : list (string * PyVal)) : PyVal :=
  VDict (map (fun kv => (VStr (fst kv), snd kv)) d).

(** Truth value of an object, as used by [if x], [not x] and [x or y]. *)
Definition truthy (v : PyVal) : bool :=
  match v with
  | VNone => false
  | VBool b => b
  | VInt z => negb (z =? 0)
  | VFloat q => negb (Qeq_bool q 0)
  | VStr s => negb (String.eqb s "")
  | VList l => match l with [] => false | _ => true end
  | VDict d => match d with [] => false | _ => true end
  end.

(** [d.get(k)] for a string key [k]: the first entry under that key. *)
Fixpoint dict_get (k : string) (d : list (PyVal * PyVal)) : option PyVal :=
  match d with
  | [] => None
  | (VStr k', v) :: d' => if String.eqb k k' then Some v else dict_get k d'
  | _ :: d' => dict_get k d'
  end.

(** The same on a string-keyed association list. *)
Fixpoint assoc_get (k : string) (d : list (string * PyVal)) : option PyVal :=
  match d with
  | [] => None
  | (k', v) :: d' => if String.eqb k k' then Some v else assoc_get k d'
  end.

(** [None] or the string, as a value. *)
Definition opt_str (o : option string) : PyVal :=
  match o with None => VNone | Some s => VStr s end.

(** [str(x)] of an optional string inside an f-string. *)
Definition str_opt (o : option string) : string :=
  match o with None => "None" | Some s => s end.

(** [str(n)] for an int. *)
Definition str_int (z : Z) : string := pretty z.

(** [int(x)] for a float: truncation towards zero. *)
Definition int_of_float (q : Q) : Z := Z.quot (Qnum q) (Z.pos (Qden q)).

(** [needle in hay] for strings. *)
Fixpoint contains (needle hay : string) : bool :=
  String.prefix needle hay
  || match hay with
     | EmptyString => false
     | String _ rest => contains needle rest
     end.

(** [q[:100] + "..." if len(q) > 100 else q] *)
Definition truncate_query (q : string) : string :=
  if (100 <? String.length q)%nat then String.substring 0 100 q +:+ "..." else q.

(** ** Rounding

    [round(x, ndigits)] rounds to the nearest multiple of [10^-ndigits],
    ties to even. *)

Definition round_half_even (q : Q) : Z :=
  let n := Qnum q in
  let d := Z.pos (Qden q) in
  let f := n / d in
  let r := n mod d in
  match (2 * r) ?= d with
  | Lt => f
  | Gt => f + 1
  | Eq => if Z.even f then f else f + 1
  end.

Definition py_round (q : Q) (ndigits : nat) : Q :=
  let s := 10 ^ Z.of_nat ndigits in
  Qmake (round_half_even (q * inject_Z s)) (Z.to_pos s).

(** ** Double precision

    A Python [float] is an IEEE 754 binary64 number: [m * 2^e] with
    [|m| < 2^53] and [-1074 <= e]. Division and multiplication return the
    double nearest to the exact result, ties to even ([b64]); the numbers
    rounded in this development are far below the overflow threshold, which
    is left out. *)

(** [floor (log2 a)] for a positive [a]. *)
Definition floor_log2 (a : Q) : Z :=
  let k := Z.log2 (Qnum a) - Z.log2 (Z.pos (Qden a)) in
  if Qle_bool (2 ^ k) a then k else k - 1.

(** The exponent of the last place of the doubles around a positive [a]:
    53 significant bits, and no exponent below that of the subnormals. *)
Definition b64_exponent (a : Q) : Z := Z.max (floor_log2 a - 52) (-1074).

Definition b64_pos (a : Q) : Q :=
  let e := b64_exponent a in
  (inject_Z (round_half_even (a / 2 ^ e)) * 2 ^ e)%Q.

(** The double nearest to [q], ties to even. *)
Definition b64 (q : Q) : Q :=
  match Qnum q with
  | Z0 => 0
  | Zpos _ => b64_pos q
  | Zneg _ => - b64_pos (- q)
  end.

(** [round(x, ndigits)] on a float [x]: the double nearest to the decimal
    that is nearest to the value of [x], ties to even. *)
Definition float_round (x : Q) (ndigits : nat) : Q := b64 (py_round x ndigits).

(** ** The outside world *)

Inductive HttpMethod := GET | POST | HEAD | DELETE.

Record HttpRequest := {
  req_method : HttpMethod;
  req_url : string;
  req_body : PyVal
}.

(** A response: its status code, its text (also standing for the raw
    content), the outcome of [response.json()] ([inl] is the message of the
    decoding error) and its headers. *)
Record Response := {
  status_code : Z;
  text : string;
  json : string + PyVal;
  headers : list (string * string)
}.

(** What an HTTP call does: the transport raises (a timeout, a refused
    connection; [msg] is [str] of the exception), or a response arrives. *)
Inductive HttpOutcome :=
| Failed (msg : string)
| Responded (r : Response).

(** One reported tool invocation of the LLM agent. *)
Record ToolCall := {
  tool_name : string;
  arguments : string;               (* [str(call.arguments)] *)
  result_success : option bool
  (* [None]: the call has no [result] attribute; [Some b]: [b] is the truth
     value of [call.result.get('success', True)] *)
}.

(** What [asyncio.wait_for(agent.run(prompt), timeout)] does: the agent
    returns a result object ([tool_calls] is [None] when the object has no
    such attribute), the run raises, or the timeout fires. *)
Inductive AgentOutcome :=
| AgentReturned (value : PyVal) (tool_calls : option (list ToolCall))
| AgentRaised (msg : string)
| AgentTimedOut.

(** What the tools do in the world while the agent runs. The agent is an
    [LlmAgent] that holds every tool of [self.tools]; a tool the model
    decides to call sends requests, and a call of [database_query] enters
    [DatabaseTool._execute], which sleeps between its attempts. *)
Inductive ToolEffect :=
| FxHttp (r : HttpRequest)
| FxExecute (query : option string) (operation_type : string)
| FxSleep (seconds : Q).

Class Env := {
  (** outcome of the [n]-th HTTP request of the run *)
  respond : nat -> HttpRequest -> HttpOutcome;
  (** seconds the [n]-th HTTP request takes *)
  latency : nat -> Q;
  (** [str(uuid.uuid4())], the [n]-th one drawn *)
  uuid4 : nat -> string;
  (** [datetime.isoformat()] of an instant *)
  isoformat : Q -> string;
  (** [str(x)] of a value inside an f-string *)
  str_of : PyVal -> string;
  (** [len(json.dumps(x))] *)
  json_dumps_len : PyVal -> Z;
  (** [base64.b64decode(s)]: the decoded bytes, or the message of the fault *)
  b64decode : string -> string + string;
  (** [base64.b64encode(b).decode()] *)
  b64encode : string -> string;
  (** [int(s)]: the number, or the message of the [ValueError] *)
  int_of_str : string -> string + Z;
  (** [s.title()] *)
  str_title : string -> string;
  (** [asyncio.wait_for(agent.run(prompt), timeout)] *)
  agent_run : string -> AgentOutcome;
  (** seconds an agent run takes *)
  agent_latency : string -> Q;
  (** what the tools called during the run do, in order, when the run
      starts after [n] HTTP requests *)
  agent_effects : string -> nat -> list ToolEffect
}.

Inductive Event :=
| EvHttp (r : HttpRequest)
| EvExecute (query : option string) (operation_type : string)
    (* [DatabaseTool._execute] was entered *)
| EvSleep (seconds : Q)
| EvAgentRun (prompt : string).

Record World := {
  calls : nat;          (* HTTP requests made so far *)
  uuids : nat;          (* uuids drawn so far *)
  now : Q;              (* the clock, in seconds *)
  trace : list Event    (* what happened, oldest first *)
}.

Definition world0 : World :=
  {| calls := 0%nat; uuids := 0%nat; now := 0%Q; trace := [] |}.

(** ** The monad: state passing with Python exceptions *)

Inductive Res (A : Type) :=
| Ret (a : A)
| Raise (msg : string).
Arguments Ret {A} a.
Arguments Raise {A} msg.

Definition M (A : Type) : Type := World -> Res A * World.

Definition ret {A} (a : A) : M A := fun w => (Ret a, w).
Definition raise {A} (msg : string) : M A := fun w => (Raise msg, w).
Definition bind {A B} (m : M A) (k : A -> M B) : M B :=
  fun w => match m w with
           | (Ret a, w') => k a w'
           | (Raise e, w') => (Raise e, w')
           end.
(** [try: m  except Exception as error: h(str(error))] *)
Definition try_except {A} (m : M A) (h : string -> M A) : M A :=
  fun w => match m w with
           | (Ret a, w') => (Ret a, w')
           | (Raise e, w') => h e w'
           end.

Notation "'let!' x ':=' m 'in' k" := (bind m (fun x => k))
  (at level 10, x pattern, m at level 100, k at level 200).
Notation "'do!' m 'in' k" := (bind m (fun _ => k))
  (at level 10, m at level 100, k at level 200).

Definition effect_event (fx : ToolEffect) : Event :=
  match fx with
  | FxHttp r => EvHttp r
  | FxExecute query operation_type => EvExecute query operation_type
  | FxSleep seconds => EvSleep seconds
  end.

(** The HTTP requests among the effects of the tools. *)
Definition requests_of (effects : list ToolEffect) : nat :=
  length (omap (fun fx => match fx with FxHttp r => Some r | _ => None end)
               effects).

Definition log_event (e : Event) : M unit :=
  fun w => (Ret tt, {| calls := calls w; uuids := uuids w; now := now w;
                       trace := trace w ++ [e] |}).

Section Effects.
Context `{Env}.

(** [time.time()] and [datetime.utcnow()] read the same clock. *)
Definition time_time : M Q := fun w => (Ret (now w), w).
Definition utcnow_iso : M string := fun w => (Ret (isoformat (now w)), w).

Definition asyncio_sleep (seconds : Q) : M unit :=
  fun w => (Ret tt, {| calls := calls w; uuids := uuids w;
                       now := (now w + seconds)%Q;
                       trace := trace w ++ [EvSleep seconds] |}).

Definition new_uuid : M string :=
  fun w => (Ret (uuid4 (uuids w)),
            {| calls := calls w; uuids := S (uuids w); now := now w;
               trace := trace w |}).

(** One HTTP request: the world answers, time passes. *)
Definition http (r : HttpRequest) : M HttpOutcome :=
  fun w => (Ret (respond (calls w) r),
            {| calls := S (calls w); uuids := uuids w;
               now := (now w + latency (calls w))%Q;
               trace := trace w ++ [EvHttp r] |}).

(** [await client.request(...)]: a transport fault is raised. *)
Definition client_request (r : HttpRequest) : M Response :=
  let! o := http r in
  match o with
  | Failed msg => raise msg
  | Responded response => ret response
  end.

(** [response.json()] *)
Definition response_json (response : Response) : M PyVal :=
  match json response with inl msg => raise msg | inr v => ret v end.

(** The agent run under the wall-clock timeout. The run is recorded,
    followed by what the tools called during the run did; their requests
    are counted with those of the caller. *)
Definition run_agent (prompt : string) : M AgentOutcome :=
  fun w => let effects := agent_effects prompt (calls w) in
           (Ret (agent_run prompt),
            {| calls := (calls w + requests_of effects)%nat; uuids := uuids w;
               now := (now w + agent_latency prompt)%Q;
               trace := trace w ++ EvAgentRun prompt :: map effect_event effects |}).
End Effects.

(** ** ResultEnvelope: [ToolResult] (orbit_tools.py) *)

Record ToolResult := {
  success : bool;
  data : PyVal;
  error : option string;
  metadata : list (string * PyVal);
  timestamp : string
}.

Module Envelope.
Section Envelope.
Context `{Env}.

(** [ToolResult.__init__]: [metadata or {}], and the creation time. *)
Definition init (success : bool) (data : PyVal) (error : option string)
           (metadata : option (list (string * PyVal))) : M ToolResult :=
  let! ts := utcnow_iso in
  ret {| success := success; data := data; error := error;
         metadata := match metadata with
                     | Some (x :: d) => x :: d
                     | _ => []
                     end;
         timestamp := ts |}.

(** [ToolResult.to_dict] *)
Definition to_dict (r : ToolResult) : PyVal :=
  sdict [("success", VBool (success r));
         ("data", data r);
         ("error", opt_str (error r));
         ("metadata", sdict (metadata r));
         ("timestamp", VStr (timestamp r))].

(** [create_tool_result] of orbit_mcp_server.py builds the same envelope
    as a dict. *)
Definition create_tool_result (success : bool) (data : PyVal)
           (error : option string)
           (metadata : option (list (string * PyVal))) : M ToolResult :=
  let! ts := utcnow_iso in
  ret {| success := success; data := data; error := error;
         metadata := match metadata with
                     | Some (x :: d) => x :: d
                     | _ => []
                     end;
         timestamp := ts |}.
End Envelope.
End Envelope.

(** ** RetryingOperationExecutor and TransactionCoordinator:
       [DatabaseTool] (orbit_tools.py) *)

Module DatabaseTool.

Record t := {
  supabase_url : string;
  supabase_key : string;
  max_retries : Z
}.

(** One entry of [queries]: the dict keys [sql], [query] and [params]. *)
Record QueryData := {
  q_sql : option string;
  q_query : option string;
  q_params : option (list PyVal)
}.

(** How the retry loop was left. *)
Inductive LoopExit :=
  | Returned (r : ToolResult)
  | Exhausted (attempts : Z) (last_error : option string).

Section DatabaseTool.
Context `{Env}.
Variable self : t.

(** The [query] entry of the metadata; [len(None)] is a [TypeError]. *)
Definition query_meta (query : option string) : M PyVal :=
  match query with
  | None => raise "object of type 'NoneType' has no len()"
  | Some q => ret (VStr (truncate_query q))
  end.

Definition row_count (data : PyVal) : Z :=
  match data with
  | VList l => Z.of_nat (length l)
  | _ => 1
  end.

Definition rpc_request (query : option string) (params : option (list PyVal))
  : HttpRequest :=
  {| req_method := POST;
     req_url := supabase_url self +:+ "/rest/v1/rpc/execute_sql";
     req_body := sdict [("query", opt_str query);
                        ("params", VList (default [] params))] |}.

(** The body of the [try] of one loop iteration. *)
Definition attempt (query : option string) (params : option (list PyVal))
           (operation_type : string) (attempts : Z) : M ToolResult :=
  let! start_time := time_time in
  let! response := client_request (rpc_request query params) in
  let! end_time := time_time in
  let duration := (end_time - start_time)%Q in
  if negb (status_code response =? 200) then
    raise ("Database error: " +:+ str_int (status_code response)
           +:+ " - " +:+ text response)
  else
    let! data := response_json response in
    let! qm := query_meta query in
    Envelope.init true data None
      (Some [("query", qm);
             ("row_count", VInt (row_count data));
             ("duration_seconds", VFloat (py_round duration 3));
             ("attempts", VInt (attempts + 1));
             ("operation_type", VStr operation_type)]).

(** [while attempts < (self.max_retries if retry_on_error else 1)].
    [attempts] grows by one in every iteration that does not return, so
    the loop runs at most [limit - attempts] times; [n] counts the
    iterations that remain, and [n = 0] is the loop condition failing. *)
Fixpoint retry_loop (n : nat) (query : option string)
         (params : option (list PyVal)) (retry_on_error : bool)
         (operation_type : string) (attempts : Z)
         (last_error : option string) : M LoopExit :=
  match n with
  | O => ret (Exhausted attempts last_error)
  | S n' =>
      try_except
        (let! r := attempt query params operation_type attempts in
         ret (Returned r))
        (fun error =>
           let last_error := Some error in
           let attempts := attempts + 1 in
           do! (if (attempts <? max_retries self) && retry_on_error
                then asyncio_sleep (inject_Z (2 ^ attempts))
                else ret tt) in
           retry_loop n' query params retry_on_error operation_type
                      attempts last_error)
  end.

Definition loop_limit (retry_on_error : bool) : Z :=
  if retry_on_error then max_retries self else 1.

(** [str(last_error)]: [last_error] is still [None] when the loop body
    never ran. *)
Definition str_last_error (e : option string) : string :=
  match e with None => "None" | Some s => s end.

(** [DatabaseTool._execute] *)
Definition _execute (query : option string) (params : option (list PyVal))
           (retry_on_error : bool) (operation_type : string) : M ToolResult :=
  do! log_event (EvExecute query operation_type) in
  let! ex := retry_loop (Z.to_nat (loop_limit retry_on_error)) query params
                        retry_on_error operation_type 0 None in
  match ex with
  | Returned r => ret r
  | Exhausted attempts last_error =>
      let! qm := query_meta query in
      Envelope.init false VNone (Some (str_last_error last_error))
        (Some [("query", qm);
               ("attempts", VInt attempts);
               ("operation_type", VStr operation_type)])
  end.

(** [query_data.get('sql') or query_data.get('query')] *)
Definition query_of (qd : QueryData) : option string :=
  match q_sql qd with
  | Some s => if String.eqb s "" then q_query qd else Some s
  | None => q_query qd
  end.

(** The [for i, query_data in enumerate(queries)] loop; [i] is the index
    of the head of [queries], [results] the entries appended so far. *)
Fixpoint run_queries (queries : list QueryData) (i : Z)
         (results : list PyVal) : M (list PyVal) :=
  match queries with
  | [] => ret results
  | query_data :: rest =>
      let query := query_of query_data in
      let params := Some (default [] (q_params query_data)) in
      let! result := _execute query params false "query" in
      if negb (success result) then
        do! _execute (Some "ROLLBACK") None true "transaction_rollback" in
        raise ("Query " +:+ str_int (i + 1) +:+ " failed: "
               +:+ str_opt (error result))
      else
        run_queries rest (i + 1) (results ++ [Envelope.to_dict result])
  end.

(** [DatabaseTool.execute_transaction] *)
Definition execute_transaction (queries : list QueryData) : M ToolResult :=
  let! transaction_id := new_uuid in
  let! start_time := time_time in
  try_except
    (do! _execute (Some "BEGIN") None true "transaction_begin" in
     let! results := run_queries queries 0 [] in
     do! _execute (Some "COMMIT") None true "transaction_commit" in
     let! end_time := time_time in
     let duration := (end_time - start_time)%Q in
     Envelope.init true (VList results) None
       (Some [("transaction_id", VStr transaction_id);
              ("queries_executed", VInt (Z.of_nat (length queries)));
              ("duration_seconds", VFloat (py_round duration 3))]))
    (fun error =>
       do! try_except
             (do! _execute (Some "ROLLBACK") None true
                           "transaction_rollback" in
              ret tt)
             (fun _ => ret tt) in
       Envelope.init false VNone (Some error)
         (Some [("transaction_id", VStr transaction_id);
                ("queries_attempted", VInt (Z.of_nat (length queries)))])).
End DatabaseTool.
End DatabaseTool.

(** ** ProgressLedger: [ProgressTrackerTool] (orbit_tools.py) *)

Module ProgressTracker.

(** A todo item: the dict with keys [id], [content], [status],
    [created_at], [updated_at]. [content] and [status] are [None] when the
    caller passed none. *)
Record Todo := {
  tid : Z;
  content : option string;
  status : option string;
  created_at : string;
  updated_at : string
}.

Record t := {
  todos : list Todo;
  next_id : Z;
  workflow_stats : gmap string PyVal
}.

Definition fresh_stats : gmap string PyVal :=
  <["started_at" := VNone]>
    (<["orders_processed" := VInt 0]>
       (<["images_processed" := VInt 0]>
          (<["errors" := VInt 0]> ∅))).

(** [ProgressTrackerTool.__init__] *)
Definition init : t :=
  {| todos := []; next_id := 1; workflow_stats := fresh_stats |}.

Definition todo_dict (td : Todo) : PyVal :=
  sdict [("id", VInt (tid td));
         ("content", opt_str (content td));
         ("status", opt_str (status td));
         ("created_at", VStr (created_at td));
         ("updated_at", VStr (updated_at td))].

(** The stats dict as a value (the order of its keys is not modelled). *)
Definition stats_dict (m : gmap string PyVal) : PyVal :=
  sdict (map_to_list m).

(** [counts[status] = counts.get(status, 0) + 1] *)
Fixpoint bump (st : option string) (counts : list (option string * Z))
  : list (option string * Z) :=
  match counts with
  | [] => [(st, 1)]
  | (k, n) :: rest =>
      if decide (k = st) then (k, n + 1) :: rest else (k, n) :: bump st rest
  end.

(** [counts.get(status, 0)] *)
Fixpoint count_of (st : option string) (counts : list (option string * Z)) : Z :=
  match counts with
  | [] => 0
  | (k, n) :: rest => if decide (k = st) then n else count_of st rest
  end.

(** [ProgressTrackerTool._get_status_counts] *)
Definition _get_status_counts (self : t) : list (option string * Z) :=
  fold_left (fun counts todo => bump (status todo) counts) (todos self) [].

Definition counts_dict (counts : list (option string * Z)) : PyVal :=
  VDict (map (fun kn => (opt_str (fst kn), VInt (snd kn))) counts).

(** [next((t for t in self.todos if t["id"] == todo_id), None)] *)
Fixpoint find_todo (todo_id : option Z) (l : list Todo) : option Todo :=
  match l with
  | [] => None
  | td :: rest =>
      if decide (Some (tid td) = todo_id) then Some td
      else find_todo todo_id rest
  end.

(** The in-place update of the dict object found by [find_todo]: the first
    entry of the list with that id. *)
Fixpoint set_todo (todo_id : option Z) (st : option string) (ts : string)
         (l : list Todo) : list Todo :=
  match l with
  | [] => []
  | td :: rest =>
      if decide (Some (tid td) = todo_id)
      then {| tid := tid td; content := content td; status := st;
              created_at := created_at td; updated_at := ts |} :: rest
      else td :: set_todo todo_id st ts rest
  end.

(** [str(todo_id)] inside the f-string. *)
Definition str_todo_id (todo_id : option Z) : string :=
  match todo_id with None => "None" | Some z => str_int z end.

Section ProgressTracker.
Context `{Env}.

(** [_add_todo] *)
Definition _add_todo (self : t) (content : option string) (status : string)
  : M (ToolResult * t) :=
  let! created := utcnow_iso in
  let! updated := utcnow_iso in
  let todo := {| tid := next_id self; content := content;
                 status := Some status;
                 created_at := created; updated_at := updated |} in
  let self' := {| todos := todos self ++ [todo];
                  next_id := next_id self + 1;
                  workflow_stats := workflow_stats self |} in
  let! r := Envelope.init true (todo_dict todo) None
              (Some [("total_todos", VInt (Z.of_nat (length (todos self'))))]) in
  ret (r, self').

(** [_update_todo] *)
Definition _update_todo (self : t) (todo_id : option Z) (status : option string)
  : M (ToolResult * t) :=
  match find_todo todo_id (todos self) with
  | None =>
      let! r := Envelope.init false VNone
                  (Some ("Todo " +:+ str_todo_id todo_id +:+ " not found"))
                  None in
      ret (r, self)
  | Some todo =>
      let! ts := utcnow_iso in
      let self' := {| todos := set_todo todo_id status ts (todos self);
                      next_id := next_id self;
                      workflow_stats := workflow_stats self |} in
      let todo' := {| tid := tid todo; content := content todo;
                      status := status;
                      created_at := created_at todo; updated_at := ts |} in
      let! r := Envelope.init true (todo_dict todo') None
                  (Some [("total_todos", VInt (Z.of_nat (length (todos self'))))]) in
      ret (r, self')
  end.

(** [_list_todos] *)
Definition _list_todos (self : t) : M (ToolResult * t) :=
  let! r := Envelope.init true (VList (map todo_dict (todos self))) None
              (Some [("total_todos", VInt (Z.of_nat (length (todos self))));
                     ("by_status", counts_dict (_get_status_counts self))]) in
  ret (r, self).

(** The [percent_complete] entry:
    [round(completed / total * 100, 2) if total > 0 else 0]. The quotient of
    the two ints is a float, the product with 100 is a float, and [round]
    returns a float. *)
Definition percent_complete (completed total : Z) : PyVal :=
  if 0 <? total
  then VFloat (float_round
                 (b64 (b64 (inject_Z completed / inject_Z total) * 100)%Q) 2)
  else VInt 0.

(** [_get_progress] *)
Definition _get_progress (self : t) : M (ToolResult * t) :=
  let total := Z.of_nat (length (todos self)) in
  let status_counts := _get_status_counts self in
  let progress :=
    [("total_todos", VInt total);
     ("completed", VInt (count_of (Some "completed") status_counts));
     ("in_progress", VInt (count_of (Some "in_progress") status_counts));
     ("pending", VInt (count_of (Some "pending") status_counts));
     ("percent_complete",
      percent_complete (count_of (Some "completed") status_counts) total);
     ("workflow_stats", stats_dict (workflow_stats self))] in
  let! r := Envelope.init true (sdict progress) None None in
  ret (r, self).

(** [_update_stats]: [dict.update] lets the new entries win; reading
    [self.workflow_stats["started_at"]] raises [KeyError] on a missing
    key. *)
Definition _update_stats (self : t) (updates : gmap string PyVal)
  : M (ToolResult * t) :=
  let merged := updates ∪ workflow_stats self in
  let! stats :=
    match updates !! "started_at" with
    | Some _ =>
        match merged !! "started_at" with
        | None => raise "'started_at'"
        | Some v =>
            if negb (truthy v)
            then let! ts := utcnow_iso in
                 ret (<["started_at" := VStr ts]> merged)
            else ret merged
        end
    | None => ret merged
    end in
  let! r := Envelope.init true (stats_dict stats) None None in
  ret (r, {| todos := todos self; next_id := next_id self;
             workflow_stats := stats |}).

(** [_reset] *)
Definition _reset (self : t) : M (ToolResult * t) :=
  let! r := Envelope.init true (VStr "Reset complete") None None in
  ret (r, init).

(** [ProgressTrackerTool._execute]: the dispatch on [action]. A fault in
    an action is turned into a failure envelope; the ledger is then as the
    action found it (no action of this model raises after a mutation). *)
Definition _execute (self : t) (action : string) (content : option string)
           (todo_id : option Z) (status : option string)
           (stat_update : option (gmap string PyVal)) : M (ToolResult * t) :=
  try_except
    (if String.eqb action "add_todo" then
       _add_todo self content
         (match status with
          | Some s => if String.eqb s "" then "pending" else s
          | None => "pending"
          end)
     else if String.eqb action "update_todo" then
       _update_todo self todo_id status
     else if String.eqb action "list_todos" then _list_todos self
     else if String.eqb action "get_progress" then _get_progress self
     else if String.eqb action "update_stats" then
       _update_stats self (default ∅ stat_update)
     else if String.eqb action "reset" then _reset self
     else
       let! r := Envelope.init false VNone
                   (Some ("Unknown action: " +:+ action)) None in
       ret (r, self))
    (fun error =>
       let! r := Envelope.init false VNone (Some error) None in
       ret (r, self)).
End ProgressTracker.
End ProgressTracker.

(** ** Python helpers used by the adapters *)

Definition type_name (v : PyVal) : string :=
  match v with
  | VNone => "NoneType"
  | VBool _ => "bool"
  | VInt _ => "int"
  | VFloat _ => "float"
  | VStr _ => "str"
  | VList _ => "list"
  | VDict _ => "dict"
  end.

Definition attr_error (v : PyVal) (attr : string) : string :=
  "'" +:+ type_name v +:+ "' object has no attribute '" +:+ attr +:+ "'".

(** [v.get(k, dflt)] *)
Definition py_get (v : PyVal) (k : string) (dflt : PyVal) : M PyVal :=
  match v with
  | VDict d => ret (default dflt (dict_get k d))
  | _ => raise (attr_error v "get")
  end.

(** The elements a [for] loop over [v] visits. *)
Definition py_iter (v : PyVal) : M (list PyVal) :=
  match v with
  | VList l => ret l
  | VDict d => ret (map fst d)
  | VStr s => ret (map (fun c => VStr (String c EmptyString))
                       (list_ascii_of_string s))
  | _ => raise ("'" +:+ type_name v +:+ "' object is not iterable")
  end.

Definition startswith (s pre : string) : bool := String.prefix pre s.

Definition endswith (s suf : string) : bool :=
  let n := String.length s in
  let k := String.length suf in
  (k <=? n)%nat && String.eqb (String.substring (n - k) k s) suf.

(** [s.split(',', 1)] unpacked into two names: the text before and after
    the first comma, if there is one. *)
Fixpoint split_comma (s : string) : option (string * string) :=
  match s with
  | EmptyString => None
  | String c rest =>
      if Ascii.eqb c ","%char then Some (EmptyString, rest)
      else match split_comma rest with
           | Some (a, b) => Some (String c a, b)
           | None => None
           end
  end.

Fixpoint mapM {A B} (f : A -> M B) (l : list A) : M (list B) :=
  match l with
  | [] => ret []
  | x :: rest =>
      let! y := f x in
      let! ys := mapM f rest in
      ret (y :: ys)
  end.

Fixpoint filterM {A} (f : A -> M bool) (l : list A) : M (list A) :=
  match l with
  | [] => ret []
  | x :: rest =>
      let! keep := f x in
      let! ys := filterM f rest in
      ret (if keep then x :: ys else ys)
  end.

(** Truth value of an optional string argument. *)
Definition nonempty (o : option string) : bool :=
  match o with Some s => negb (String.eqb s "") | None => false end.

Fixpoint header_get (k : string) (h : list (string * string)) : option string :=
  match h with
  | [] => None
  | (k', v) :: h' => if String.eqb k k' then Some v else header_get k h'
  end.

(** ** Object storage adapter: [StorageTool] (orbit_tools.py) *)

Module StorageTool.

Record t := {
  supabase_url : string;
  supabase_key : string
}.

Section StorageTool.
Context `{Env}.
Variable self : t.

Definition request (m : HttpMethod) (url : string) (body : PyVal) : HttpRequest :=
  {| req_method := m; req_url := url; req_body := body |}.

(** The [endswith] filter of one listed file. *)
Definition has_extension (file_extension : string) (f : PyVal) : M bool :=
  let! name := py_get f "name" (VStr "") in
  match name with
  | VStr n => ret (endswith n file_extension)
  | _ => raise (attr_error name "endswith")
  end.

(** One entry of [processed_files]. *)
Definition process_file (folder_path : string) (file : PyVal) : M PyVal :=
  let! name := py_get file "name" VNone in
  let! md := py_get file "metadata" (VDict []) in
  let! size := py_get md "size" VNone in
  let! last_modified := py_get file "updated_at" VNone in
  let! name' := py_get file "name" VNone in
  let path := if negb (String.eqb folder_path "")
              then VStr (folder_path +:+ "/" +:+ str_of name')
              else name' in
  let! md' := py_get file "metadata" (VDict []) in
  let! mime_type := py_get md' "mimetype" VNone in
  ret (sdict [("name", name); ("size", size);
              ("last_modified", last_modified); ("path", path);
              ("mime_type", mime_type)]).

(** [_list_files] *)
Definition _list_files (bucket folder_path : string)
           (file_extension : option string) : M ToolResult :=
  let! response :=
    client_request
      (request GET (supabase_url self +:+ "/storage/v1/object/list/" +:+ bucket)
               (sdict [("prefix", VStr folder_path); ("limit", VInt 1000);
                       ("offset", VInt 0)])) in
  if negb (status_code response =? 200) then
    raise ("Storage list error: " +:+ str_int (status_code response)
           +:+ " - " +:+ text response)
  else
    let! files := response_json response in
    let! files :=
      (if nonempty file_extension
       then let! l := py_iter files in
            let! kept := filterM (has_extension (default "" file_extension)) l in
            ret (VList kept)
       else ret files) in
    let! l := py_iter files in
    let! processed_files := mapM (process_file folder_path) l in
    Envelope.init true (VList processed_files) None
      (Some [("bucket", VStr bucket);
             ("folder_path", VStr folder_path);
             ("file_count", VInt (Z.of_nat (length processed_files)));
             ("filter_extension", opt_str file_extension)]).

(** One round of the loop of [_create_signed_urls]. *)
Definition sign_one (bucket : string) (expires_in : Z) (file_path : string)
  : M PyVal :=
  let! response :=
    client_request
      (request POST (supabase_url self +:+ "/storage/v1/object/sign/"
                     +:+ bucket +:+ "/" +:+ file_path)
               (sdict [("expiresIn", VInt expires_in)])) in
  if status_code response =? 200 then
    let! data := response_json response in
    let! signed := py_get data "signedURL" VNone in
    let! t0 := time_time in
    ret (sdict [("path", VStr file_path); ("signed_url", signed);
                ("expires_at",
                 VStr (isoformat (t0 + inject_Z expires_in)%Q))])
  else
    ret (sdict [("path", VStr file_path);
                ("error", VStr ("Failed to create signed URL: "
                                +:+ str_int (status_code response)))]).

(** [_create_signed_urls] *)
Definition _create_signed_urls (bucket : string)
           (file_paths : option (list string)) (expires_in : Z) : M ToolResult :=
  match file_paths with
  | None => raise "'NoneType' object is not iterable"
  | Some paths =>
      let! urls := mapM (sign_one bucket expires_in) paths in
      Envelope.init true (VList urls) None
        (Some [("bucket", VStr bucket);
               ("url_count", VInt (Z.of_nat (length urls)));
               ("expires_in_seconds", VInt expires_in)])
  end.

(** The bytes to upload: the three forms of [content]. *)
Definition file_data_of (content : option string) : M string :=
  match content with
  | None => raise "'NoneType' object has no attribute 'startswith'"
  | Some c =>
      if startswith c "data:" then
        match split_comma c with
        | None => raise "not enough values to unpack (expected 2, got 1)"
        | Some (_, encoded) =>
            match b64decode encoded with
            | inl msg => raise msg
            | inr bytes => ret bytes
            end
        end
      else if startswith c "base64:" then
        match b64decode (String.substring 7 (String.length c - 7) c) with
        | inl msg => raise msg
        | inr bytes => ret bytes
        end
      else ret c
  end.

(** [_upload_file] *)
Definition _upload_file (bucket : string) (path content content_type : option string)
  : M ToolResult :=
  let! file_data := file_data_of content in
  let! response :=
    client_request
      (request POST (supabase_url self +:+ "/storage/v1/object/" +:+ bucket
                     +:+ "/" +:+ str_opt path)
               (VStr file_data)) in
  if negb ((status_code response =? 200) || (status_code response =? 201)) then
    raise ("Upload failed: " +:+ str_int (status_code response)
           +:+ " - " +:+ text response)
  else
    Envelope.init true
      (sdict [("path", opt_str path);
              ("size", VInt (Z.of_nat (String.length file_data)))])
      None
      (Some [("bucket", VStr bucket);
             ("content_type", opt_str content_type);
             ("file_size_bytes", VInt (Z.of_nat (String.length file_data)))]).

(** [_download_file] *)
Definition _download_file (bucket : string) (path : option string) : M ToolResult :=
  let! response :=
    client_request
      (request GET (supabase_url self +:+ "/storage/v1/object/" +:+ bucket
                    +:+ "/" +:+ str_opt path) VNone) in
  if negb (status_code response =? 200) then
    raise ("Download failed: " +:+ str_int (status_code response)
           +:+ " - " +:+ text response)
  else
    let content := b64encode (text response) in
    Envelope.init true
      (sdict [("content", VStr content);
              ("path", opt_str path);
              ("size", VInt (Z.of_nat (String.length (text response))));
              ("content_type",
               opt_str (header_get "content-type" (headers response)))])
      None
      (Some [("bucket", VStr bucket);
             ("file_size_bytes",
              VInt (Z.of_nat (String.length (text response))))]).

(** [_verify_file] *)
Definition _verify_file (bucket : string) (path : option string) : M ToolResult :=
  let! response :=
    client_request
      (request HEAD (supabase_url self +:+ "/storage/v1/object/" +:+ bucket
                     +:+ "/" +:+ str_opt path) VNone) in
  let exists_ := status_code response =? 200 in
  let! size :=
    (if exists_ then
       match header_get "content-length" (headers response) with
       | None => ret (VInt 0)
       | Some s => match int_of_str s with
                   | inl msg => raise msg
                   | inr n => ret (VInt n)
                   end
       end
     else ret VNone) in
  Envelope.init true
    (sdict [("exists", VBool exists_);
            ("path", opt_str path);
            ("size", size);
            ("last_modified",
             if exists_ then opt_str (header_get "last-modified" (headers response))
             else VNone);
            ("content_type",
             if exists_ then opt_str (header_get "content-type" (headers response))
             else VNone)])
    None
    (Some [("bucket", VStr bucket)]).

(** [_delete_file] *)
Definition _delete_file (bucket : string) (path : option string) : M ToolResult :=
  let! response :=
    client_request
      (request DELETE (supabase_url self +:+ "/storage/v1/object/" +:+ bucket
                       +:+ "/" +:+ str_opt path) VNone) in
  if negb (status_code response =? 200) then
    raise ("Delete failed: " +:+ str_int (status_code response)
           +:+ " - " +:+ text response)
  else
    Envelope.init true (sdict [("deleted", opt_str path)]) None
      (Some [("bucket", VStr bucket)]).

(** [StorageTool._execute] *)
Definition _execute (operation bucket : string)
           (path content content_type : option string)
           (file_paths : option (list string)) (expires_in : Z)
           (folder_path : string) (file_extension : option string)
  : M ToolResult :=
  try_except
    (if String.eqb operation "list_files" then
       _list_files bucket folder_path file_extension
     else if String.eqb operation "create_signed_urls" then
       _create_signed_urls bucket file_paths expires_in
     else if String.eqb operation "upload_file" then
       _upload_file bucket path content content_type
     else if String.eqb operation "download_file" then
       _download_file bucket path
     else if String.eqb operation "delete_file" then
       _delete_file bucket path
     else if String.eqb operation "verify_file" then
       _verify_file bucket path
     else
       Envelope.init false VNone
         (Some ("Unknown operation: " +:+ operation)) None)
    (fun error => Envelope.init false VNone (Some error) None).
End StorageTool.
End StorageTool.

(** ** Analysis service adapter: [AIAnalysisTool] (orbit_tools.py) *)

Module AIAnalysisTool.

Record t := {
  gemini_endpoint : option string;
  mock_mode : bool
}.

Section AIAnalysisTool.
Context `{Env}.
Variable self : t.

(** [_mock_analysis] *)
Definition _mock_analysis (image_url analysis_type : string) : M ToolResult :=
  do! asyncio_sleep (1 # 2) in
  let! ts := utcnow_iso in
  let product := String.eqb analysis_type "product" in
  let mock_data :=
    sdict
      [("analysis_type", VStr analysis_type);
       ("metadata",
        sdict
          [("title", VStr (str_title analysis_type +:+ " Image Analysis"));
           ("description",
            VStr ("Mock analysis for " +:+ analysis_type +:+ " image from "
                  +:+ image_url));
           ("tags", VList [VStr "mock"; VStr "test"; VStr analysis_type;
                           VStr "ai-generated"]);
           ("colors", VList [VStr "#FF5733"; VStr "#33FF57"; VStr "#3357FF";
                             VStr "#FFD700"]);
           ("objects",
            if product
            then VList [VStr "product"; VStr "packaging"; VStr "label";
                        VStr "brand"]
            else VList [VStr "person"; VStr "environment"; VStr "activity";
                        VStr "lifestyle"]);
           ("scene",
            sdict [("setting", VStr (if product then "studio" else "outdoor"));
                   ("lighting", VStr "professional");
                   ("mood", VStr "positive");
                   ("composition", VStr "centered")]);
           ("technical",
            sdict [("resolution", VStr "1920x1080");
                   ("quality", VStr "high");
                   ("format", VStr "JPEG")])]);
       ("confidence", VFloat (94 # 100));
       ("processing_time", VStr "0.5s");
       ("model_version", VStr "mock-v1.0");
       ("timestamp", VStr ts)] in
  Envelope.init true mock_data None
    (Some [("image_url", VStr image_url);
           ("analysis_type", VStr analysis_type);
           ("mock_mode", VBool true);
           ("duration_seconds", VFloat (1 # 2))]).

(** The URL argument of [client.post]; [None] is refused by the client. *)
Definition endpoint_url (endpoint : option string) : M string :=
  match endpoint with
  | Some u => ret u
  | None => raise "Invalid type for url.  Expected str or httpx.URL, got <class 'NoneType'>: None"
  end.

(** [AIAnalysisTool._execute] *)
Definition _execute (image_url analysis_type : string) : M ToolResult :=
  if mock_mode self then _mock_analysis image_url analysis_type
  else
    try_except
      (let! start_time := time_time in
       let! url := endpoint_url (gemini_endpoint self) in
       let! response :=
         client_request
           {| req_method := POST; req_url := url;
              req_body := sdict [("image_url", VStr image_url);
                                 ("analysis_type", VStr analysis_type)] |} in
       let! end_time := time_time in
       let duration := (end_time - start_time)%Q in
       if negb (status_code response =? 200) then
         raise ("AI analysis failed: " +:+ str_int (status_code response)
                +:+ " - " +:+ text response)
       else
         let! analysis_data := response_json response in
         Envelope.init true analysis_data None
           (Some [("image_url", VStr image_url);
                  ("analysis_type", VStr analysis_type);
                  ("duration_seconds", VFloat (py_round duration 3));
                  ("analysis_size_bytes", VInt (json_dumps_len analysis_data))]))
      (fun error =>
         Envelope.init false VNone (Some error)
           (Some [("image_url", VStr image_url);
                  ("analysis_type", VStr analysis_type)])).
End AIAnalysisTool.
End AIAnalysisTool.

(** ** Embedding service adapter: [MetadataEmbedTool] (orbit_tools.py) *)

Module MetadataEmbedTool.

Record t := {
  metadata_endpoint : option string;
  mock_mode : bool
}.

Section MetadataEmbedTool.
Context `{Env}.
Variable self : t.

(** [list(metadata.keys()) if metadata else []] *)
Definition embedded_fields (metadata : PyVal) : M PyVal :=
  if truthy metadata then
    match metadata with
    | VDict d => ret (VList (map fst d))
    | _ => raise (attr_error metadata "keys")
    end
  else ret (VList []).

(** [_mock_embed] *)
Definition _mock_embed (source_path output_path : string) (metadata : PyVal)
           (compression_quality : Z) : M ToolResult :=
  do! asyncio_sleep (3 # 10) in
  let! fields := embedded_fields metadata in
  let! ts := utcnow_iso in
  let mock_result :=
    sdict [("processed_path", VStr output_path);
           ("original_size", VInt 1024000);
           ("processed_size", VInt 1124000);
           ("metadata_size", VInt 100000);
           ("compression_quality", VInt compression_quality);
           ("format", VStr "JPEG");
           ("embedded_fields", fields);
           ("processing_time", VStr "0.3s");
           ("timestamp", VStr ts)] in
  Envelope.init true mock_result None
    (Some [("source_path", VStr source_path);
           ("output_path", VStr output_path);
           ("mock_mode", VBool true);
           ("duration_seconds", VFloat (3 # 10))]).

(** [MetadataEmbedTool._execute] *)
Definition _execute (source_path output_path : string) (metadata : PyVal)
           (compression_quality : Z) : M ToolResult :=
  if mock_mode self
  then _mock_embed source_path output_path metadata compression_quality
  else
    try_except
      (let! start_time := time_time in
       let! url := AIAnalysisTool.endpoint_url (metadata_endpoint self) in
       let! response :=
         client_request
           {| req_method := POST; req_url := url;
              req_body := sdict [("source_path", VStr source_path);
                                 ("output_path", VStr output_path);
                                 ("metadata", metadata);
                                 ("compression_quality",
                                  VInt compression_quality)] |} in
       let! end_time := time_time in
       let duration := (end_time - start_time)%Q in
       if negb (status_code response =? 200) then
         raise ("Metadata embedding failed: "
                +:+ str_int (status_code response) +:+ " - "
                +:+ text response)
       else
         let! result_data := response_json response in
         Envelope.init true result_data None
           (Some [("source_path", VStr source_path);
                  ("output_path", VStr output_path);
                  ("compression_quality", VInt compression_quality);
                  ("duration_seconds", VFloat (py_round duration 3));
                  ("metadata_size_bytes", VInt (json_dumps_len metadata))]))
      (fun error =>
         Envelope.init false VNone (Some error)
           (Some [("source_path", VStr source_path);
                  ("output_path", VStr output_path)])).
End MetadataEmbedTool.
End MetadataEmbedTool.

(** ** [MonitoringTool] (orbit_tools.py)

    Console output ([print]) is omitted. An action of this tool can fail
    after it has changed the tool's state, so an action returns the state
    together with its outcome: [Ret] an envelope, or [Raise] the fault that
    [_execute] catches. *)

Module MonitoringTool.

Inductive LogLevel := DEBUG | INFO | WARN | ERROR.

Definition level_value (l : LogLevel) : string :=
  match l with
  | DEBUG => "debug" | INFO => "info" | WARN => "warn" | ERROR => "error"
  end.

(** [LogLevel(level)] *)
Definition level_of (level : option string) : Res LogLevel :=
  match level with
  | None => Raise "None is not a valid LogLevel"
  | Some s =>
      if String.eqb s "debug" then Ret DEBUG
      else if String.eqb s "info" then Ret INFO
      else if String.eqb s "warn" then Ret WARN
      else if String.eqb s "error" then Ret ERROR
      else Raise ("'" +:+ s +:+ "' is not a valid LogLevel")
  end.

Record t := {
  log_level : LogLevel;
  logs : list PyVal;
  metrics : list (option string * list (option Q * PyVal));
      (* per metric name: the values recorded, each with its entry dict *)
  alerts : list PyVal;
  start_time : Q
}.

(** [self.metrics[name].append(entry)], creating the list when absent. *)
Fixpoint add_metric (name : option string) (e : option Q * PyVal)
         (ms : list (option string * list (option Q * PyVal)))
  : list (option string * list (option Q * PyVal)) :=
  match ms with
  | [] => [(name, [e])]
  | (k, l) :: rest =>
      if decide (k = name) then (k, l ++ [e]) :: rest
      else (k, l) :: add_metric name e rest
  end.

Fixpoint metric_entries (name : option string)
         (ms : list (option string * list (option Q * PyVal)))
  : list (option Q * PyVal) :=
  match ms with
  | [] => []
  | (k, l) :: rest => if decide (k = name) then l else metric_entries name rest
  end.

(** All the values of a metric when each is a number. *)
Fixpoint numbers (l : list (option Q * PyVal)) : option (list Q) :=
  match l with
  | [] => Some []
  | (Some q, _) :: rest =>
      match numbers rest with Some qs => Some (q :: qs) | None => None end
  | (None, _) :: _ => None
  end.

Definition qmin (a b : Q) : Q := if Qle_bool a b then a else b.
Definition qmax (a b : Q) : Q := if Qle_bool a b then b else a.
Definition qsum (l : list Q) : Q := fold_left Qplus l 0%Q.

(** The summary of one metric. With a [None] among the values, [min],
    [max] or [sum] raises a [TypeError]; which of them raises first, and
    so the text of the message, depends on the position of the [None]: the
    model gives the message of [sum]. *)
Definition summarize (name : option string) (l : list (option Q * PyVal))
  : Res (list (PyVal * PyVal)) :=
  match l with
  | [] => Ret []
  | e :: rest =>
      match numbers (e :: rest) with
      | None => Raise "unsupported operand type(s) for +: 'int' and 'NoneType'"
      | Some [] => Ret []
      | Some (q :: qs) =>
          Ret [(opt_str name,
                sdict [("count", VInt (Z.of_nat (length (q :: qs))));
                       ("min", VFloat (fold_left qmin qs q));
                       ("max", VFloat (fold_left qmax qs q));
                       ("avg", VFloat (qsum (q :: qs)
                                       / inject_Z (Z.of_nat (length (q :: qs))))%Q);
                       ("latest", snd (List.last rest e))])]
      end
  end.

Fixpoint summaries (ms : list (option string * list (option Q * PyVal)))
  : Res (list (PyVal * PyVal)) :=
  match ms with
  | [] => Ret []
  | (k, l) :: rest =>
      match summarize k l with
      | Raise e => Raise e
      | Ret s =>
          match summaries rest with
          | Raise e => Raise e
          | Ret ss => Ret (s ++ ss)
          end
      end
  end.

(** [counts[k] = counts.get(k, 0) + 1] over the values under [key]. *)
Fixpoint tally (key : string) (l : list PyVal) (acc : list (PyVal * Z))
  : list (PyVal * Z) :=
  match l with
  | [] => acc
  | VDict d :: rest =>
      let k := default VNone (dict_get key d) in
      let fix bump (acc : list (PyVal * Z)) :=
        match acc with
        | [] => [(k, 1)]
        | (k', n) :: acc' =>
            match k, k' with
            | VStr a, VStr b =>
                if String.eqb a b then (k', n + 1) :: acc'
                else (k', n) :: bump acc'
            | VNone, VNone => (k', n + 1) :: acc'
            | _, _ => (k', n) :: bump acc'
            end
        end in
      tally key rest (bump acc)
  | _ :: rest => tally key rest acc
  end.

Definition tally_dict (c : list (PyVal * Z)) : PyVal :=
  VDict (map (fun kn => (fst kn, VInt (snd kn))) c).

(** [l[-n:] if l else []] *)
Definition last_n {A} (n : nat) (l : list A) : list A :=
  skipn (length l - n) l.

Section MonitoringTool.
Context `{Env}.

(** [MonitoringTool.__init__] *)
Definition init (log_level : LogLevel) : M t :=
  let! t0 := time_time in
  ret {| log_level := log_level; logs := []; metrics := []; alerts := [];
         start_time := t0 |}.

(** [_log] *)
Definition _log (self : t) (level : LogLevel) (message : option string)
  : M (Res ToolResult * t) :=
  let! ts := utcnow_iso in
  let log_entry := sdict [("timestamp", VStr ts);
                          ("level", VStr (level_value level));
                          ("message", opt_str message)] in
  let self' := {| log_level := log_level self;
                  logs := logs self ++ [log_entry];
                  metrics := metrics self; alerts := alerts self;
                  start_time := start_time self |} in
  let! r := Envelope.init true log_entry None
              (Some [("total_logs", VInt (Z.of_nat (length (logs self'))))]) in
  ret (Ret r, self').

(** [_record_metric] *)
Definition _record_metric (self : t) (name : option string)
           (value : option Q) (unit : option string) : M (Res ToolResult * t) :=
  let! ts := utcnow_iso in
  let value_v := match value with Some q => VFloat q | None => VNone end in
  let metric_entry := [("timestamp", VStr ts); ("value", value_v);
                       ("unit", opt_str unit)] in
  let self' := {| log_level := log_level self; logs := logs self;
                  metrics := add_metric name (value, sdict metric_entry)
                                        (metrics self);
                  alerts := alerts self; start_time := start_time self |} in
  let! r := Envelope.init true
              (VDict ((VStr "metric", opt_str name)
                      :: map (fun kv => (VStr (fst kv), snd kv)) metric_entry))
              None
              (Some [("metric_count",
                      VInt (Z.of_nat (length (metric_entries name
                                                (metrics self')))))]) in
  ret (Ret r, self').

(** [_create_alert]: the alert is stored before [severity.upper()] is
    evaluated for the console line. *)
Definition _create_alert (self : t) (severity message : option string)
  : M (Res ToolResult * t) :=
  let! t0 := time_time in
  let! ts := utcnow_iso in
  let alert :=
    sdict [("id", VStr ("alert_" +:+ str_int (int_of_float (t0 * 1000))));
           ("timestamp", VStr ts);
           ("severity", opt_str severity);
           ("message", opt_str message)] in
  let self' := {| log_level := log_level self; logs := logs self;
                  metrics := metrics self;
                  alerts := alerts self ++ [alert];
                  start_time := start_time self |} in
  match severity with
  | None => ret (Raise "'NoneType' object has no attribute 'upper'", self')
  | Some _ =>
      let! r := Envelope.init true alert None
                  (Some [("total_alerts",
                          VInt (Z.of_nat (length (alerts self'))))]) in
      ret (Ret r, self')
  end.

(** [_generate_report] *)
Definition _generate_report (self : t) : M (Res ToolResult * t) :=
  let! t0 := time_time in
  let uptime := (t0 - start_time self)%Q in
  match summaries (metrics self) with
  | Raise e => ret (Raise e, self)
  | Ret metric_summaries =>
      let! ts := utcnow_iso in
      let report :=
        sdict
          [("timestamp", VStr ts);
           ("uptime_seconds", VFloat uptime);
           ("logs",
            sdict [("total", VInt (Z.of_nat (length (logs self))));
                   ("by_level", tally_dict (tally "level" (logs self) []));
                   ("recent", VList (last_n 10 (logs self)))]);
           ("metrics",
            sdict [("total_metrics",
                    VInt (Z.of_nat (length (metrics self))));
                   ("summaries", VDict metric_summaries)]);
           ("alerts",
            sdict [("total", VInt (Z.of_nat (length (alerts self))));
                   ("by_severity",
                    tally_dict (tally "severity" (alerts self) []));
                   ("recent", VList (last_n 5 (alerts self)))])] in
      let! r := Envelope.init true report None None in
      ret (Ret r, self)
  end.

(** [MonitoringTool._execute] *)
Definition _execute (self : t) (action : string)
           (level message metric_name : option string)
           (metric_value : option Q)
           (metric_unit alert_severity : option string) : M (ToolResult * t) :=
  let! (outcome, self') :=
    (if String.eqb action "log" then
       match level_of level with
       | Raise e => ret (Raise e, self)
       | Ret l => _log self l message
       end
     else if String.eqb action "metric" then
       _record_metric self metric_name metric_value metric_unit
     else if String.eqb action "alert" then
       _create_alert self alert_severity message
     else if String.eqb action "report" then _generate_report self
     else
       let! r := Envelope.init false VNone
                   (Some ("Unknown action: " +:+ action)) None in
       ret (Ret r, self)) in
  match outcome with
  | Ret r => ret (r, self')
  | Raise error =>
      let! r := Envelope.init false VNone (Some error) None in
      ret (r, self')
  end.
End MonitoringTool.
End MonitoringTool.

(** ** [ExecutionStats] (orbit_agent.py) *)

Module ExecutionStats.

Record t := {
  started_at : Q;
  ended_at : option Q;
  orders_processed : Z;
  images_processed : Z;
  errors_encountered : Z;
  phases_completed : list string;
  total_duration_seconds : Q;
  average_order_time : Q;
  average_image_time : Q;
  success_rate : Q
}.

(** [ExecutionStats(started_at=...)]: every other field at its default. *)
Definition make (started_at : Q) : t :=
  {| started_at := started_at; ended_at := None;
     orders_processed := 0; images_processed := 0; errors_encountered := 0;
     phases_completed := [];
     total_duration_seconds := 0; average_order_time := 0;
     average_image_time := 0; success_rate := 0 |}.

Definition set_ended_at (s : t) (e : Q) : t :=
  {| started_at := started_at s; ended_at := Some e;
     orders_processed := orders_processed s;
     images_processed := images_processed s;
     errors_encountered := errors_encountered s;
     phases_completed := phases_completed s;
     total_duration_seconds := total_duration_seconds s;
     average_order_time := average_order_time s;
     average_image_time := average_image_time s;
     success_rate := success_rate s |}.

Definition add_counts (s : t) (orders images errors : Z) : t :=
  {| started_at := started_at s; ended_at := ended_at s;
     orders_processed := orders_processed s + orders;
     images_processed := images_processed s + images;
     errors_encountered := errors_encountered s + errors;
     phases_completed := phases_completed s;
     total_duration_seconds := total_duration_seconds s;
     average_order_time := average_order_time s;
     average_image_time := average_image_time s;
     success_rate := success_rate s |}.

(** [ExecutionStats.update_completion] *)
Definition update_completion (s : t) : t :=
  match ended_at s with
  | None => s
  | Some ended =>
      let duration := (ended - started_at s)%Q in
      let total_operations := orders_processed s + images_processed s in
      {| started_at := started_at s; ended_at := ended_at s;
         orders_processed := orders_processed s;
         images_processed := images_processed s;
         errors_encountered := errors_encountered s;
         phases_completed := phases_completed s;
         total_duration_seconds := duration;
         average_order_time :=
           if 0 <? orders_processed s
           then (duration / inject_Z (orders_processed s))%Q
           else average_order_time s;
         average_image_time :=
           if 0 <? images_processed s
           then (duration / inject_Z (images_processed s))%Q
           else average_image_time s;
         success_rate :=
           if 0 <? total_operations
           then (inject_Z (total_operations - errors_encountered s)
                 / inject_Z total_operations * 100)%Q
           else success_rate s |}
  end.

Section ExecutionStats.
Context `{Env}.

(** [ExecutionStats.to_dict] *)
Definition to_dict (s : t) : PyVal :=
  sdict [("started_at", VStr (isoformat (started_at s)));
         ("ended_at", match ended_at s with
                      | Some e => VStr (isoformat e)
                      | None => VNone
                      end);
         ("orders_processed", VInt (orders_processed s));
         ("images_processed", VInt (images_processed s));
         ("errors_encountered", VInt (errors_encountered s));
         ("phases_completed", VList (map VStr (phases_completed s)));
         ("total_duration_seconds", VFloat (total_duration_seconds s));
         ("duration_minutes",
          VFloat (py_round (total_duration_seconds s / 60)%Q 2));
         ("average_order_time", VFloat (average_order_time s));
         ("average_image_time", VFloat (average_image_time s));
         ("success_rate", VFloat (py_round (success_rate s) 2))].
End ExecutionStats.
End ExecutionStats.

(** ** [WorkflowContext] (orbit_prompt.py) *)

Module WorkflowContext.

Record t := {
  pending_orders_count : PyVal;
  storage_accessible : bool;
  timestamp : string;
  error_message : option string;
  order_id : option string;
  user_id : option string;
  batch_id : option string;
  current_phase : string;
  completed_phases : list string
}.

Section WorkflowContext.
Context `{Env}.

(** The constructor with the keyword arguments the agent uses, and
    [__post_init__]: an empty [timestamp] is replaced by the current
    time. *)
Definition make (pending_orders_count : PyVal) (storage_accessible : bool)
           (timestamp : string) (error_message : option string)
           (current_phase : string) : M t :=
  let! ts := (if String.eqb timestamp "" then utcnow_iso else ret timestamp) in
  ret {| pending_orders_count := pending_orders_count;
         storage_accessible := storage_accessible;
         timestamp := ts;
         error_message := error_message;
         order_id := None; user_id := None; batch_id := None;
         current_phase := current_phase;
         completed_phases := [] |}.

(** [dataclasses.asdict] *)
Definition asdict (c : t) : PyVal :=
  sdict [("pending_orders_count", pending_orders_count c);
         ("storage_accessible", VBool (storage_accessible c));
         ("timestamp", VStr (timestamp c));
         ("error_message", opt_str (error_message c));
         ("order_id", opt_str (order_id c));
         ("user_id", opt_str (user_id c));
         ("batch_id", opt_str (batch_id c));
         ("current_phase", VStr (current_phase c));
         ("completed_phases", VList (map VStr (completed_phases c)))].
End WorkflowContext.
End WorkflowContext.

(** ** HealthAggregator and WorkflowOrchestrator: [ORBITAgent]
       (orbit_agent.py) *)

(** A probe's component status. *)
Definition status_of (ok : bool) : string :=
  if ok then "healthy" else "unhealthy".

Module ORBITAgent.

Record ORBITConfig := {
  supabase_url : string;
  supabase_service_key : string;
  gemini_endpoint : option string;
  metadata_endpoint : option string;
  max_retries : Z;
  mock_mode : bool;
  timeout_seconds : Z;
  storage_bucket : string
}.

(** The [health_status] dict. [components] and [details] keep the order in
    which their entries are assigned. *)
Record HealthStatus := {
  hs_timestamp : string;
  overall : string;
  components : list (string * string);
  details : list (string * PyVal);
  hs_error : option string
}.

Definition health_dict (h : HealthStatus) : PyVal :=
  sdict ([("timestamp", VStr (hs_timestamp h));
          ("overall", VStr (overall h));
          ("components",
           sdict (map (fun kv => (fst kv, VStr (snd kv))) (components h)));
          ("details", sdict (details h))]
         ++ match hs_error h with
            | Some e => [("error", VStr e)]
            | None => []
            end).

(** "Determine overall health": the [if all(...) / elif any(...) / else]
    over [list(health_status["components"].values())]. *)
Definition determine_overall (component_statuses : list string) : string :=
  if forallb (fun status => String.eqb status "healthy") component_statuses
  then "healthy"
  else if existsb (fun status => String.eqb status "healthy") component_statuses
  then "degraded"
  else "unhealthy".

Record t := {
  config : ORBITConfig;
  stats : ExecutionStats.t;
  context : WorkflowContext.t;
  progress : ProgressTracker.t;
  is_healthy : bool;
  current_session_id : option string
}.

Definition set_is_healthy (self : t) (b : bool) : t :=
  {| config := config self; stats := stats self; context := context self;
     progress := progress self; is_healthy := b;
     current_session_id := current_session_id self |}.

Definition set_context (self : t) (c : WorkflowContext.t) : t :=
  {| config := config self; stats := stats self; context := c;
     progress := progress self; is_healthy := is_healthy self;
     current_session_id := current_session_id self |}.

Definition set_progress (self : t) (p : ProgressTracker.t) : t :=
  {| config := config self; stats := stats self; context := context self;
     progress := p; is_healthy := is_healthy self;
     current_session_id := current_session_id self |}.

Definition set_stats (self : t) (s : ExecutionStats.t) : t :=
  {| config := config self; stats := s; context := context self;
     progress := progress self; is_healthy := is_healthy self;
     current_session_id := current_session_id self |}.

Definition set_session (self : t) (s : ExecutionStats.t) (sid : string) : t :=
  {| config := config self; stats := s; context := context self;
     progress := progress self; is_healthy := is_healthy self;
     current_session_id := Some sid |}.

(** The tools of [_initialize_tools]. *)
Definition database (c : ORBITConfig) : DatabaseTool.t :=
  {| DatabaseTool.supabase_url := supabase_url c;
     DatabaseTool.supabase_key := supabase_service_key c;
     DatabaseTool.max_retries := max_retries c |}.

Definition storage (c : ORBITConfig) : StorageTool.t :=
  {| StorageTool.supabase_url := supabase_url c;
     StorageTool.supabase_key := supabase_service_key c |}.

Definition ai_analysis (c : ORBITConfig) : AIAnalysisTool.t :=
  {| AIAnalysisTool.gemini_endpoint := gemini_endpoint c;
     AIAnalysisTool.mock_mode := mock_mode c |}.

Definition metadata_embed (c : ORBITConfig) : MetadataEmbedTool.t :=
  {| MetadataEmbedTool.metadata_endpoint := metadata_endpoint c;
     MetadataEmbedTool.mock_mode := mock_mode c |}.

Definition pending_query : string :=
  "
                SELECT COUNT(*) as count 
                FROM orders 
                WHERE processing_stage = 'pending' 
                AND payment_status = 'completed'
            ".

(** [x == 0] *)
Definition eq_zero (v : PyVal) : bool :=
  match v with
  | VInt z => z =? 0
  | VFloat q => Qeq_bool q 0
  | VBool b => negb b
  | _ => false
  end.

(** The counters after the loop over [result.tool_calls]. *)
Definition count_call (s : ExecutionStats.t) (call : ToolCall) : ExecutionStats.t :=
  let s1 :=
    if String.eqb (tool_name call) "database_query" then
      if contains "UPDATE orders SET processing_stage" (arguments call)
      then ExecutionStats.add_counts s 1 0 0
      else if contains "UPDATE images SET processing_status" (arguments call)
      then ExecutionStats.add_counts s 0 1 0
      else s
    else s in
  match result_success call with
  | Some false => ExecutionStats.add_counts s1 0 0 1
  | _ => s1
  end.

Section ORBITAgent.
Context `{Env}.
(** [ORBITPromptBuilder.build_workflow_prompt]: the text of the brief is
    outside the orchestration core. *)
Variable build_workflow_prompt : WorkflowContext.t -> string.

(** The storage probe of the health check and of the context builder. *)
Definition list_bucket (self : t) : M ToolResult :=
  StorageTool._execute (storage (config self)) "list_files"
    (storage_bucket (config self)) None None None None 3600 "" None.

(** The two optional probes: [(healthy, the entry added to details)]. *)
Definition probe_ai (self : t) : M (bool * list (string * PyVal)) :=
  if negb (mock_mode (config self)) && nonempty (gemini_endpoint (config self))
  then try_except
         (let! ai_result :=
            AIAnalysisTool._mock_analysis "test://health-check" "lifestyle" in
          ret (success ai_result, []))
         (fun e => ret (false, [("ai_analysis", VStr e)]))
  else ret (true, []).

Definition probe_metadata (self : t) : M (bool * list (string * PyVal)) :=
  if negb (mock_mode (config self)) && nonempty (metadata_endpoint (config self))
  then try_except
         (let! metadata_result :=
            MetadataEmbedTool._mock_embed "test://source" "test://output"
                                          (VDict []) 95 in
          ret (success metadata_result, []))
         (fun e => ret (false, [("metadata_embed", VStr e)]))
  else ret (true, []).

(** [ORBITAgent.health_check]. No probe lets a fault escape, so the
    outer handler is never entered; it is modelled without the entries
    assigned before the fault. *)
Definition health_check (self : t) : M (HealthStatus * t) :=
  let! ts := utcnow_iso in
  try_except
    (let! db_result :=
       DatabaseTool._execute (database (config self))
         (Some "SELECT 1 as health_check") None true "health_check" in
     let! storage_result := list_bucket self in
     let! (ai_healthy, ai_details) := probe_ai self in
     let! (metadata_healthy, metadata_details) := probe_metadata self in
     let components :=
       [("database", status_of (success db_result));
        ("storage", status_of (success storage_result));
        ("ai_analysis", status_of ai_healthy);
        ("metadata_embed", status_of metadata_healthy)] in
     let details :=
       [("database",
         if negb (success db_result) then opt_str (error db_result)
         else VStr "Connected");
        ("storage",
         if negb (success storage_result) then opt_str (error storage_result)
         else VStr ("Accessible (" +:+ str_of (data storage_result) +:+ ")"))]
       ++ ai_details ++ metadata_details in
     let overall := determine_overall (map snd components) in
     ret ({| hs_timestamp := ts; overall := overall;
             components := components; details := details;
             hs_error := None |},
          set_is_healthy self (String.eqb overall "healthy")))
    (fun error =>
       ret ({| hs_timestamp := ts; overall := "unhealthy";
               components := []; details := []; hs_error := Some error |},
            set_is_healthy self false)).

(** [ORBITAgent.prepare_workflow_context] *)
Definition prepare_workflow_context (self : t) : M (WorkflowContext.t * t) :=
  let! c :=
    try_except
      (let! db_result :=
         DatabaseTool._execute (database (config self)) (Some pending_query)
                               None true "query" in
       let! pending_count :=
         (if success db_result && truthy (data db_result) then
            match data db_result with
            | VList (first :: _) => py_get first "count" (VInt 0)
            | _ => ret (VInt 0)
            end
          else ret (VInt 0)) in
       let! storage_result := list_bucket self in
       let! ts := utcnow_iso in
       WorkflowContext.make pending_count (success storage_result) ts None
                            "initialization")
      (fun error =>
         WorkflowContext.make (VInt 0) false "" (Some error) "initialization") in
  ret (c, set_context self c).

(** [ORBITAgent._process_agent_result]; the ledger call raises nothing. *)
Definition _process_agent_result (self : t) (tool_calls : option (list ToolCall))
  : M t :=
  let stats' := fold_left count_call (default [] tool_calls) (stats self) in
  let! (_, progress') :=
    ProgressTracker._execute (progress self) "update_stats" None None None
      (Some (<["orders_processed" := VInt (ExecutionStats.orders_processed stats')]>
               (<["images_processed" := VInt (ExecutionStats.images_processed stats')]>
                  (<["errors" := VInt (ExecutionStats.errors_encountered stats')]>
                     ∅)))) in
  ret (set_progress (set_stats self stats') progress').

(** The [try] block of [execute_workflow]. The outcome is [inr] the dict
    it returns or [inl] the message of the fault it raises, together with
    the agent as it is at that point. *)
Definition workflow_body (self : t) : M ((string + PyVal) * t) :=
  let! (health_status, self) := health_check self in
  if String.eqb (overall health_status) "unhealthy" then
    ret (inl ("System health check failed: "
              +:+ str_of (health_dict health_status)), self)
  else
    let! (ctx, self) := prepare_workflow_context self in
    if eq_zero (WorkflowContext.pending_orders_count ctx) then
      ret (inr (sdict [("success", VBool true);
                       ("message", VStr "No pending orders to process");
                       ("stats", ExecutionStats.to_dict (stats self));
                       ("context", WorkflowContext.asdict ctx)]),
           self)
    else
      let! (_, progress') :=
        ProgressTracker._execute (progress self) "add_todo"
          (Some ("Process "
                 +:+ str_of (WorkflowContext.pending_orders_count ctx)
                 +:+ " pending orders"))
          None (Some "in_progress") None in
      let self := set_progress self progress' in
      let workflow_prompt := build_workflow_prompt ctx in
      let! outcome := run_agent workflow_prompt in
      match outcome with
      | AgentTimedOut =>
          ret (inl ("Workflow timed out after "
                    +:+ str_int (timeout_seconds (config self))
                    +:+ " seconds"), self)
      | AgentRaised msg => ret (inl msg, self)
      | AgentReturned result tool_calls =>
          let! self := _process_agent_result self tool_calls in
          let! t1 := time_time in
          let self :=
            set_stats self
              (ExecutionStats.update_completion
                 (ExecutionStats.set_ended_at (stats self) t1)) in
          ret (inr (sdict [("success", VBool true);
                           ("message", VStr "Workflow completed successfully");
                           ("stats", ExecutionStats.to_dict (stats self));
                           ("context", WorkflowContext.asdict (context self));
                           ("session_id", opt_str (current_session_id self));
                           ("agent_result", result)]),
               self)
      end.

(** [ORBITAgent.execute_workflow] *)
Definition execute_workflow (self : t) (specific_order_id : option string)
  : M (PyVal * t) :=
  let! t0 := time_time in
  let self :=
    set_session self (ExecutionStats.make t0)
                ("orbit_" +:+ str_int (int_of_float t0)) in
  let! (outcome, self) :=
    try_except (workflow_body self) (fun error => ret (inl error, self)) in
  match outcome with
  | inr result => ret (result, self)
  | inl error =>
      let! t1 := time_time in
      let self :=
        set_stats self
          (ExecutionStats.update_completion
             (ExecutionStats.add_counts
                (ExecutionStats.set_ended_at (stats self) t1) 0 0 1)) in
      ret (sdict [("success", VBool false);
                  ("error", VStr error);
                  ("stats", ExecutionStats.to_dict (stats self));
                  ("context", WorkflowContext.asdict (context self));
                  ("session_id", opt_str (current_session_id self))],
           self)
  end.
End ORBITAgent.
End ORBITAgent.

(** ** The protocol bridge: orbit_mcp_server.py *)



Module MCPServer.

Record t := {
  SUPABASE_URL : option string;
  SUPABASE_SERVICE_KEY : option string;
  SUPABASE_PROJECT_ID : option string
}.

(** "Determine overall health" of [workflow_health_check]. *)
Definition determine_overall (component_statuses : list string) : string :=
  if forallb (fun status => String.eqb status "healthy") component_statuses
  then "healthy"
  else if existsb (fun status => String.eqb status "healthy") component_statuses
  then "degraded"
  else "unhealthy".

Definition pending_query : string :=
  "
            SELECT COUNT(*) as count 
            FROM orders 
            WHERE processing_stage = 'pending' 
            AND payment_status = 'completed'
        ".


Section MCPServer.
Context `{Env}.
Variable self : t.

Definition url (path : string) : string := str_opt (SUPABASE_URL self) +:+ path.

(** [database_execute_sql] *)
Definition database_execute_sql (query : string) (params : option (list PyVal))
  : M ToolResult :=
  try_except
    (let! response :=
       client_request
         {| req_method := POST; req_url := url "/rest/v1/rpc/execute_sql";
            req_body := sdict [("query", VStr query);
                               ("params", VList (default [] params))] |} in
     if negb (status_code response =? 200) then
       Envelope.create_tool_result false VNone
         (Some ("Database error: " +:+ str_int (status_code response)
                +:+ " - " +:+ text response)) None
     else
       let! data := response_json response in
       Envelope.create_tool_result true data None
         (Some [("query", VStr (truncate_query query));
                ("row_count", VInt (DatabaseTool.row_count data));
                ("params_count",
                 VInt (Z.of_nat (length (default [] params))))]))
    (fun error =>
       Envelope.create_tool_result false VNone
         (Some ("SQL execution failed: " +:+ error)) None).

(** [storage_list_files]; an entry of [processed_files] is built as in
    [StorageTool._list_files]. *)
Definition storage_list_files (bucket_name folder_path : string)
           (file_extension : option string) : M ToolResult :=
  try_except
    (let! response :=
       client_request
         {| req_method := GET;
            req_url := url ("/storage/v1/object/list/" +:+ bucket_name);
            req_body := sdict [("prefix", VStr folder_path);
                               ("limit", VInt 1000); ("offset", VInt 0)] |} in
     if negb (status_code response =? 200) then
       Envelope.create_tool_result false VNone
         (Some ("Storage list error: " +:+ str_int (status_code response)
                +:+ " - " +:+ text response)) None
     else
       let! files := response_json response in
       let! files :=
         (if nonempty file_extension
          then let! l := py_iter files in
               let! kept :=
                 filterM (StorageTool.has_extension (default "" file_extension)) l in
               ret (VList kept)
          else ret files) in
       let! l := py_iter files in
       let! processed_files := mapM (StorageTool.process_file folder_path) l in
       Envelope.create_tool_result true (VList processed_files) None
         (Some [("bucket", VStr bucket_name);
                ("folder_path", VStr folder_path);
                ("file_count", VInt (Z.of_nat (length processed_files)));
                ("filter_extension", opt_str file_extension)]))
    (fun error =>
       Envelope.create_tool_result false VNone
         (Some ("Storage list failed: " +:+ error)) None).

(** One round of the loop of [storage_create_signed_urls]:
    the entry, and whether its [signed_url] is set. *)
Definition sign_one (bucket_name : string) (expires_in : Z) (file_path : string)
  : M (PyVal * bool) :=
  let! response :=
    client_request
      {| req_method := POST;
         req_url := url ("/storage/v1/object/sign/" +:+ bucket_name +:+ "/"
                         +:+ file_path);
         req_body := sdict [("expiresIn", VInt expires_in)] |} in
  if status_code response =? 200 then
    let! data := response_json response in
    let! signed := py_get data "signedURL" VNone in
    let! ts := utcnow_iso in
    ret (sdict [("path", VStr file_path); ("signed_url", signed);
                ("expires_at", VStr ts); ("expires_in", VInt expires_in)],
         truthy signed)
  else
    ret (sdict [("path", VStr file_path);
                ("error", VStr ("Failed to create signed URL: "
                                +:+ str_int (status_code response)));
                ("signed_url", VNone)],
         false).

(** [storage_create_signed_urls] *)
Definition storage_create_signed_urls (bucket_name : string)
           (file_paths : list string) (expires_in : Z) : M ToolResult :=
  try_except
    (let! urls := mapM (sign_one bucket_name expires_in) file_paths in
     Envelope.create_tool_result true (VList (map fst urls)) None
       (Some [("bucket", VStr bucket_name);
              ("url_count", VInt (Z.of_nat (length urls)));
              ("expires_in_seconds", VInt expires_in);
              ("successful_urls",
               VInt (Z.of_nat (length (filter (fun u => snd u = true) urls))))]))
    (fun error =>
       Envelope.create_tool_result false VNone
         (Some ("Signed URL creation failed: " +:+ error)) None).




(** The [components] dict of [workflow_health_check], in the order of
    its assignments; the edge-function entry is a constant. *)
Definition health_components : M (list (string * string)) :=
  let! database :=
    try_except
      (let! db_result := database_execute_sql "SELECT 1 as health_check" None in
       ret (status_of (success db_result)))
      (fun _ => ret "unhealthy") in
  let! storage :=
    try_except
      (let! storage_result := storage_list_files "orbit-images" "" None in
       ret (status_of (success storage_result)))
      (fun _ => ret "unhealthy") in
  let! edge_functions := try_except (ret "healthy") (fun _ => ret "unhealthy") in
  ret [("database", database); ("storage", storage);
       ("edge_functions", edge_functions)].

(** [workflow_health_check] *)
Definition workflow_health_check : M ToolResult :=
  try_except
    (let! ts := utcnow_iso in
     let! components := health_components in
     let overall := determine_overall (map snd components) in
     Envelope.create_tool_result true
       (sdict [("timestamp", VStr ts);
               ("overall", VStr overall);
               ("components",
                sdict (map (fun kv => (fst kv, VStr (snd kv))) components))])
       None
       (Some [("components_checked", VInt (Z.of_nat (length components)))]))
    (fun error =>
       Envelope.create_tool_result false VNone
         (Some ("Health check failed: " +:+ error)) None).

(** [get_workflow_context] *)
Definition get_workflow_context : M ToolResult :=
  try_except
    (let! db_result :=
       database_execute_sql pending_query None in
     if negb (success db_result) then ret db_result
     else
       let! pending_count :=
         (if truthy (data db_result) then
            match data db_result with
            | VList (first :: _) => py_get first "count" (VInt 0)
            | _ => ret (VInt 0)
            end
          else ret (VInt 0)) in
       let! storage_result := storage_list_files "orbit-images" "" None in
       let storage_accessible := success storage_result in
       let! ts := utcnow_iso in
       let! ready :=
         match pending_count with
         | VInt n => ret (VBool ((0 <? n) && storage_accessible))
         | VFloat q => ret (VBool (negb (Qle_bool q 0) && storage_accessible))
         | VBool b => ret (VBool (b && storage_accessible))
         | v => raise ("'>' not supported between instances of '"
                       +:+ type_name v +:+ "' and 'int'")
         end in
       Envelope.create_tool_result true
         (sdict [("pending_orders_count", pending_count);
                 ("storage_accessible", VBool storage_accessible);
                 ("timestamp", VStr ts);
                 ("system_ready", ready)])
         None
         (Some [("context_type", VStr "workflow_preparation")]))
    (fun error =>
       Envelope.create_tool_result false VNone
         (Some ("Context retrieval failed: " +:+ error)) None).

End MCPServer.
End MCPServer.

(** ** Scripted worlds

    A world whose [n]-th HTTP request is answered by the [n]-th entry of a
    script (a refused connection once the script is used up) and whose
    agent run has one fixed outcome; requests and runs take no time. *)

Definition show (v : PyVal) : string :=
  match v with
  | VNone => "None"
  | VBool true => "True"
  | VBool false => "False"
  | VInt z => str_int z
  | VStr s => s
  | VFloat _ => "<float>"
  | VList _ => "[...]"
  | VDict _ => "{...}"
  end.

Definition script_env (responses : list HttpOutcome) (agent : AgentOutcome) : Env :=
  {| respond := fun n _ => nth n responses (Failed "connection refused");
     latency := fun _ => 0%Q;
     uuid4 := fun n => "uuid-" +:+ pretty n;
     isoformat := fun q => "T+" +:+ str_int (int_of_float q);
     str_of := show;
     json_dumps_len := fun _ => 2;
     b64decode := fun s => inr s;
     b64encode := fun s => s;
     int_of_str := fun _ => inr 0;
     str_title := fun s => s;
     agent_run := fun _ => agent;
     agent_latency := fun _ => 0%Q;
     agent_effects := fun _ _ => [] |}.

(** The same world, with an agent whose tools do [effects] during the
    run. *)
Definition script_env_with (responses : list HttpOutcome) (agent : AgentOutcome)
           (effects : list ToolEffect) : Env :=
  {| respond := fun n _ => nth n responses (Failed "connection refused");
     latency := fun _ => 0%Q;
     uuid4 := fun n => "uuid-" +:+ pretty n;
     isoformat := fun q => "T+" +:+ str_int (int_of_float q);
     str_of := show;
     json_dumps_len := fun _ => 2;
     b64decode := fun s => inr s;
     b64encode := fun s => s;
     int_of_str := fun _ => inr 0;
     str_title := fun s => s;
     agent_run := fun _ => agent;
     agent_latency := fun _ => 0%Q;
     agent_effects := fun _ _ => effects |}.

Definition response_ok (data : PyVal) : HttpOutcome :=
  Responded {| status_code := 200; text := ""; json := inr data; headers := [] |}.

Definition response_error (status : Z) (body : string) : HttpOutcome :=
  Responded {| status_code := status; text := body;
               json := inl "Expecting value: line 1 column 1 (char 0)";
               headers := [] |}.

(** ** Reading a trace *)

Definition sleeps (tr : list Event) : list Q :=
  omap (fun e => match e with EvSleep s => Some s | _ => None end) tr.

(** The queries with which [DatabaseTool._execute] was entered. *)
Definition executed (tr : list Event) : list (option string) :=
  omap (fun e => match e with EvExecute q _ => Some q | _ => None end) tr.

Definition is_marker (q : option string) : bool :=
  match q with
  | Some s => String.eqb s "BEGIN" || String.eqb s "COMMIT"
              || String.eqb s "ROLLBACK"
  | None => false
  end.

Definition agent_runs (tr : list Event) : list string :=
  omap (fun e => match e with EvAgentRun p => Some p | _ => None end) tr.

(** The fault in which one attempt of [DatabaseTool._execute] ends on a
    given answer of the service, [None] when the attempt succeeds. *)
Definition fault_of (o : HttpOutcome) : option string :=
  match o with
  | Failed msg => Some msg
  | Responded r =>
      if negb (status_code r =? 200)
      then Some ("Database error: " +:+ str_int (status_code r) +:+ " - "
                 +:+ text r)
      else match json r with inl msg => Some msg | inr _ => None end
  end.

(** The rows with which an attempt succeeds. *)
Definition rows_of (o : HttpOutcome) : option PyVal :=
  match o with
  | Failed _ => None
  | Responded r =>
      if status_code r =? 200
      then match json r with inl _ => None | inr v => Some v end
      else None
  end.

(** * Specification vocabulary *)

(** ** Reasoning about computations *)

(** Every value a computation returns satisfies [P]. *)
Definition post {A} (m : M A) (P : A -> Prop) : Prop :=
  forall w a w', m w = (Ret a, w') -> P a.

(** A computation that leaves a view of the trace as it is, however it
    ends: with [agent_runs] it starts no agent run, with [executed] it does
    not enter [DatabaseTool._execute]. *)
Definition keeps {A X} (view : list Event -> X) (m : M A) : Prop :=
  forall w res w', m w = (res, w') -> view (trace w') = view (trace w).

(** A computation that lets no fault escape. *)
Definition total {A} (m : M A) : Prop :=
  forall w, exists a w', m w = (Ret a, w').

(** ** Envelopes *)





(** ** Progress ledger *)

(** The number of todos whose status is ["completed"]. *)
Definition completed_count (l : list ProgressTracker.Todo) : Z :=
  Z.of_nat (length (filter (fun td => ProgressTracker.status td = Some "completed") l)).

(** The [percent_complete] entry of a progress report. *)
Definition reported_percent (r : ToolResult) : option PyVal :=
  match data r with
  | VDict d => dict_get "percent_complete" d
  | _ => None
  end.

(** A reported value that is exactly [q]. *)
Definition is_number (v : PyVal) (q : Q) : Prop :=
  match v with
  | VFloat p => (p == q)%Q
  | VInt z => (inject_Z z == q)%Q
  | _ => False
  end.

(** [completed / total * 100], and 0 for an empty ledger. *)
Definition exact_percent (l : list ProgressTracker.Todo) : Q :=
  match l with
  | [] => 0
  | _ => inject_Z (completed_count l) / inject_Z (Z.of_nat (length l)) * 100
  end.

(** The claim that every ledger reports exactly [completed / total * 100],
    and 0 when it is empty. *)
Definition percent_is_exact_ratio : Prop :=
  forall (E : Env) (ledger : ProgressTracker.t) w r ledger' w',
    ProgressTracker._execute ledger "get_progress" None None None None w
    = (Ret (r, ledger'), w') ->
    exists v,
      reported_percent r = Some v
      /\ is_number v (exact_percent (ProgressTracker.todos ledger)).

(** The claim that the first [update_stats] call on a fresh ledger leaves a
    non-null [started_at], whatever fields it supplies. *)
Definition first_update_sets_started_at : Prop :=
  forall (E : Env) (updates : gmap string PyVal) w r ledger' w',
    ProgressTracker._execute ProgressTracker.init "update_stats" None None None
                             (Some updates) w = (Ret (r, ledger'), w') ->
    exists v, ProgressTracker.workflow_stats ledger' !! "started_at" = Some v
              /\ v <> VNone.

(** ** Execution statistics *)

(** The states of the statistics record in a run: it is created by
    [ExecutionStats(started_at=...)], and afterwards only counted up, given
    an end time, and completed. *)
Inductive stats_reachable : ExecutionStats.t -> Prop :=
  | reach_make t0 : stats_reachable (ExecutionStats.make t0)
  | reach_count s orders images errors :
    stats_reachable s -> 0 <= orders -> 0 <= images -> 0 <= errors ->
    stats_reachable (ExecutionStats.add_counts s orders images errors)
  | reach_end s t1 :
    stats_reachable s -> stats_reachable (ExecutionStats.set_ended_at s t1)
  | reach_complete s :
    stats_reachable s -> stats_reachable (ExecutionStats.update_completion s).

Definition total_operations (s : ExecutionStats.t) : Z :=
  ExecutionStats.orders_processed s + ExecutionStats.images_processed s.

(** ** Health aggregation *)

(** The component statuses of a set of named probe results. *)
Definition component_statuses (probes : list (string * ToolResult)) : list string :=
  map (fun p => status_of (success (snd p))) probes.

(** The reduction of component statuses to an overall status: all healthy
    is "healthy", none healthy is "unhealthy", and a mix is "degraded". *)
Definition reduces_to (statuses : list string) (overall : string) : Prop :=
  (Forall (fun status => status = "healthy") statuses -> overall = "healthy")
  /\ (statuses <> [] -> Forall (fun status => status <> "healthy") statuses ->
      overall = "unhealthy")
  /\ (Exists (fun status => status = "healthy") statuses ->
      Exists (fun status => status <> "healthy") statuses ->
      overall = "degraded").

(** ** Worked inputs *)

Definition demo_db : DatabaseTool.t :=
  {| DatabaseTool.supabase_url := "https://orbit.supabase.co";
     DatabaseTool.supabase_key := "service-role-key";
     DatabaseTool.max_retries := 3 |}.

Definition server_error : HttpOutcome := response_error 500 "Internal Server Error".

Definition one_row : HttpOutcome := response_ok (VList [sdict [("id", VInt 1)]]).

Definition no_agent : AgentOutcome := AgentRaised "agent unavailable".

Definition sql (text : string) : DatabaseTool.QueryData :=
  {| DatabaseTool.q_sql := Some text; DatabaseTool.q_query := None;
     DatabaseTool.q_params := Some [] |}.

Definition complete_order : DatabaseTool.QueryData :=
  sql "UPDATE orders SET processing_stage = 'completed' WHERE id = 1".

Definition insert_image : DatabaseTool.QueryData :=
  sql "INSERT INTO images (order_id) VALUES (1)".

(** BEGIN and the query succeed; every attempt of COMMIT is answered 500. *)
Definition commit_fails : Env :=
  script_env [one_row; one_row; server_error; server_error; server_error] no_agent.

(** BEGIN and the first query succeed, the second query is answered 500,
    whatever follows succeeds. *)
Definition second_fails : Env :=
  script_env [one_row; one_row; server_error; one_row; one_row] no_agent.

Definition commit_request : HttpRequest :=
  DatabaseTool.rpc_request demo_db (Some "COMMIT") None.




(** No service is reachable; used where no request is made. *)
Definition offline : Env := script_env [] no_agent.

(** The fields the agent reports after a run. *)
Definition test_update : gmap string PyVal :=
  <["orders_processed" := VInt 5]>
    (<["images_processed" := VInt 20]> (<["errors" := VInt 1]> ∅)).

Definition todo (i : Z) (st : string) : ProgressTracker.Todo :=
  {| ProgressTracker.tid := i; ProgressTracker.content := Some "work";
     ProgressTracker.status := Some st;
     ProgressTracker.created_at := "T+0"; ProgressTracker.updated_at := "T+0" |}.

Definition ledger_of (l : list ProgressTracker.Todo) : ProgressTracker.t :=
  {| ProgressTracker.todos := l;
     ProgressTracker.next_id := Z.of_nat (length l) + 1;
     ProgressTracker.workflow_stats := ProgressTracker.fresh_stats |}.

Definition four_todos : ProgressTracker.t :=
  ledger_of [todo 1 "completed"; todo 2 "completed"; todo 3 "pending";
             todo 4 "in_progress"].

Definition three_todos : ProgressTracker.t :=
  ledger_of [todo 1 "completed"; todo 2 "pending"; todo 3 "pending"].

(** An envelope as a probe returns it. *)
Definition envelope (ok : bool) : ToolResult :=
  {| success := ok; data := VNone;
     error := if ok then None else Some "unreachable";
     metadata := []; timestamp := "T+0" |}.

(** A run that started at 10 s, processed one order and three images with
    one error, and ended at 70 s. *)
Definition finished_run : ExecutionStats.t :=
  ExecutionStats.set_ended_at
    (ExecutionStats.add_counts (ExecutionStats.make 10) 1 3 1) 70.

Definition demo_config : ORBITAgent.ORBITConfig :=
  {| ORBITAgent.supabase_url := "https://orbit.supabase.co";
     ORBITAgent.supabase_service_key := "service-role-key";
     ORBITAgent.gemini_endpoint := None;
     ORBITAgent.metadata_endpoint := None;
     ORBITAgent.max_retries := 3;
     ORBITAgent.mock_mode := true;
     ORBITAgent.timeout_seconds := 300;
     ORBITAgent.storage_bucket := "orbit-images" |}.

Definition demo_agent : ORBITAgent.t :=
  {| ORBITAgent.config := demo_config;
     ORBITAgent.stats := ExecutionStats.make 0;
     ORBITAgent.context :=
       {| WorkflowContext.pending_orders_count := VInt 0;
          WorkflowContext.storage_accessible := false;
          WorkflowContext.timestamp := "T+0";
          WorkflowContext.error_message := None;
          WorkflowContext.order_id := None;
          WorkflowContext.user_id := None;
          WorkflowContext.batch_id := None;
          WorkflowContext.current_phase := "initialization";
          WorkflowContext.completed_phases := [] |};
     ORBITAgent.progress := ProgressTracker.init;
     ORBITAgent.is_healthy := false;
     ORBITAgent.current_session_id := None |}.

Definition demo_prompt (c : WorkflowContext.t) : string :=
  "Process " +:+ show (WorkflowContext.pending_orders_count c) +:+ " pending orders".

(** Every probe answers, and the pending-order query counts 0. *)
Definition nothing_pending : Env :=
  script_env [one_row; response_ok (VList []);
              response_ok (VList [sdict [("count", VInt 0)]]);
              response_ok (VList [])]
             (AgentReturned VNone None).

(** ** [ORBITConfig.validate] and [ORBITWorkflowExecutor] (orbit_agent.py) *)

Module Config.

(** [ORBITConfig.validate]: the list of configuration errors. *)
Definition validate (self : ORBITAgent.ORBITConfig) : list string :=
  (if String.eqb (ORBITAgent.supabase_url self) ""
   then ["SUPABASE_URL is required"] else [])
  ++ (if String.eqb (ORBITAgent.supabase_service_key self) ""
      then ["SUPABASE_SERVICE_ROLE_KEY is required"] else [])
  ++ (if negb (ORBITAgent.mock_mode self)
         && negb (nonempty (ORBITAgent.gemini_endpoint self))
      then ["GEMINI_ENDPOINT is required when not in mock mode"] else [])
  ++ (if negb (ORBITAgent.mock_mode self)
         && negb (nonempty (ORBITAgent.metadata_endpoint self))
      then ["METADATA_ENDPOINT is required when not in mock mode"] else []).

End Config.

Module ORBITWorkflowExecutor.

Record t := {
  config : ORBITAgent.ORBITConfig;
  agent : option ORBITAgent.t
}.

Section ORBITWorkflowExecutor.
Context `{Env}.
Variable build_workflow_prompt : WorkflowContext.t -> string.
(** [ORBITAgent(config)]: the constructor sets up logging, the tools and
    the LLM agent of the ADK, which are outside the orchestration core; it
    returns the agent or raises. *)
Variable new_agent : ORBITAgent.ORBITConfig -> M ORBITAgent.t.
(** [config.model_name], which only the reports mention. *)
Variable model_name : string.

(** [ORBITWorkflowExecutor.initialize] *)
Definition initialize (self : t) : M (PyVal * t) :=
  let config_errors := Config.validate (config self) in
  match config_errors with
  | _ :: _ =>
      ret (sdict [("success", VBool false);
                  ("error", VStr ("Configuration errors: "
                                  +:+ String.concat ", " config_errors));
                  ("config_errors", VList (map VStr config_errors))],
           self)
  | [] =>
      try_except
        (let! a := new_agent (config self) in
         let! (health_status, a) := ORBITAgent.health_check a in
         ret (sdict [("success", VBool true);
                     ("message", VStr "ORBIT Executor initialized successfully");
                     ("health_status", ORBITAgent.health_dict health_status);
                     ("config",
                      sdict [("model", VStr model_name);
                             ("mock_mode",
                              VBool (ORBITAgent.mock_mode (config self)));
                             ("timeout",
                              VInt (ORBITAgent.timeout_seconds (config self)))])],
              {| config := config self; agent := Some a |}))
        (fun error =>
           ret (sdict [("success", VBool false); ("error", VStr error)], self))
  end.

(** [init_result["success"]] is a bool in both results of [initialize]. *)
Definition init_succeeded (init_result : PyVal) : bool :=
  match init_result with
  | VDict d => match dict_get "success" d with
               | Some v => truthy v
               | None => false
               end
  | _ => false
  end.

(** [ORBITWorkflowExecutor.execute_full_workflow] *)
Definition execute_full_workflow (self : t) (order_id : option string)
  : M (PyVal * t) :=
  let! (refused, self) :=
    match agent self with
    | Some _ => ret (None, self)
    | None =>
        let! (init_result, self) := initialize self in
        if negb (init_succeeded init_result)
        then ret (Some init_result, self)
        else ret (None, self)
    end in
  match refused with
  | Some init_result => ret (init_result, self)
  | None =>
      try_except
        (match agent self with
         | Some a =>
             let! (result, a) :=
               ORBITAgent.execute_workflow build_workflow_prompt a order_id in
             ret (result, {| config := config self; agent := Some a |})
         | None => raise "'NoneType' object has no attribute 'execute_workflow'"
         end)
        (fun error =>
           ret (sdict [("success", VBool false); ("error", VStr error)], self))
  end.
End ORBITWorkflowExecutor.
End ORBITWorkflowExecutor.

(** ** Retry profile *)

(** The backoff sleeps that follow failed attempts number [a + 1] to
    [a + k]: [2 ^ (a + 1)], ..., [2 ^ (a + k)]. *)
Definition backoff_from (a : Z) (k : nat) : list Q :=
  map (fun i => inject_Z (2 ^ (a + Z.of_nat i))) (seq 1 k).

(** How a run of the retry loop ends, against how it started: after [k]
    failed attempts followed by a success, or after all [n] have failed. *)
Definition loop_profile (max_retries : Z) (n : nat) (attempts : Z)
           (last : option string) (w : World)
           (ex : DatabaseTool.LoopExit) (w' : World) : Prop :=
  match ex with
  | DatabaseTool.Returned r =>
      exists k, (k < n)%nat
                /\ calls w' = (calls w + S k)%nat
                /\ sleeps (trace w') = sleeps (trace w) ++ backoff_from attempts k
                /\ success r = true
                /\ assoc_get "attempts" (metadata r)
                   = Some (VInt (attempts + Z.of_nat k + 1))
  | DatabaseTool.Exhausted a l =>
      calls w' = (calls w + n)%nat
      /\ sleeps (trace w')
         = sleeps (trace w) ++ backoff_from attempts (pred n)
      /\ a = max_retries
      /\ match n with O => l = last | S _ => exists e, l = Some e end
  end.

(** ** Transactions *)

(** The steps [queries], run one after the other from the world [w] as
    [execute_transaction] runs them, all succeed: [rs] are their envelopes
    and [w'] is the world then reached. *)
Inductive steps_succeed `{Env} (tool : DatabaseTool.t)
  : list DatabaseTool.QueryData -> World -> list ToolResult -> World -> Prop :=
| steps_nil w : steps_succeed tool [] w [] w
| steps_cons qd rest text w r w1 rs w' :
    DatabaseTool.query_of qd = Some text ->
    DatabaseTool._execute tool (Some text)
      (Some (default [] (DatabaseTool.q_params qd))) false "query" w
    = (Ret r, w1) ->
    success r = true ->
    steps_succeed tool rest w1 rs w' ->
    steps_succeed tool (qd :: rest) w (r :: rs) w'.

(** A computation only appends to the trace. *)
Definition grows {A} (m : M A) : Prop :=
  forall w res w', m w = (res, w') -> exists tr, trace w' = trace w ++ tr.

(** ** Ledger vocabulary *)

(** The invariant of the ledger: [next_id] is positive and the ids of the
    todos are distinct, positive and below it. *)
Definition ledger_wf (ledger : ProgressTracker.t) : Prop :=
  1 <= ProgressTracker.next_id ledger
  /\ NoDup (map ProgressTracker.tid (ProgressTracker.todos ledger))
  /\ Forall (fun td => 1 <= ProgressTracker.tid td < ProgressTracker.next_id ledger)
            (ProgressTracker.todos ledger).

(** An integer entry of the dict an envelope carries. *)
Definition reported_int (key : string) (r : ToolResult) : option Z :=
  match data r with
  | VDict d => match dict_get key d with Some (VInt z) => Some z | _ => None end
  | _ => None
  end.

(** The three statuses the progress report counts. *)
Definition known_status (td : ProgressTracker.Todo) : Prop :=
  ProgressTracker.status td = Some "completed"
  \/ ProgressTracker.status td = Some "in_progress"
  \/ ProgressTracker.status td = Some "pending".

(** A todo with a new status and update time. *)
Definition restamp (td : ProgressTracker.Todo) (st : option string) (ts : string)
  : ProgressTracker.Todo :=
  {| ProgressTracker.tid := ProgressTracker.tid td;
     ProgressTracker.content := ProgressTracker.content td;
     ProgressTracker.status := st;
     ProgressTracker.created_at := ProgressTracker.created_at td;
     ProgressTracker.updated_at := ts |}.

(** ** Workflow vocabulary *)

(** An entry of a result dict. *)
Definition result_field (k : string) (v : PyVal) : option PyVal :=
  match v with VDict d => dict_get k d | _ => None end.

(** The calls of a run that go to the database tool, and those whose
    result reports a failure. *)
Definition database_calls (calls : list ToolCall) : list ToolCall :=
  filter (fun call => tool_name call = "database_query") calls.

Definition failed_calls (calls : list ToolCall) : list ToolCall :=
  filter (fun call => result_success call = Some false) calls.

(** How a run of [execute_workflow] that started at [w] with the
    statistics [s0] has ended, by the outcome of the agent run. *)
Definition run_outcome (timeout_seconds : Z) (s0 : ExecutionStats.t)
           (o : AgentOutcome) (result : PyVal) (s' : ExecutionStats.t)
           (t1 : Q) : Prop :=
  match o with
  | AgentReturned value tool_calls =>
      result_field "success" result = Some (VBool true)
      /\ result_field "message" result
         = Some (VStr "Workflow completed successfully")
      /\ result_field "agent_result" result = Some value
      /\ s' = ExecutionStats.update_completion
                (ExecutionStats.set_ended_at
                   (fold_left ORBITAgent.count_call (default [] tool_calls) s0) t1)
  | AgentRaised msg =>
      result_field "success" result = Some (VBool false)
      /\ result_field "error" result = Some (VStr msg)
      /\ s' = ExecutionStats.update_completion
                (ExecutionStats.add_counts (ExecutionStats.set_ended_at s0 t1) 0 0 1)
  | AgentTimedOut =>
      result_field "success" result = Some (VBool false)
      /\ result_field "error" result
         = Some (VStr ("Workflow timed out after " +:+ str_int timeout_seconds
                       +:+ " seconds"))
      /\ s' = ExecutionStats.update_completion
                (ExecutionStats.add_counts (ExecutionStats.set_ended_at s0 t1) 0 0 1)
  end.

(** The queries with which the tools of the agent entered
    [DatabaseTool._execute] during a run. *)
Definition tool_queries (effects : list ToolEffect) : list (option string) :=
  executed (map effect_event effects).

(** The queries that [execute_workflow] has added to a trace: the health
    query and the pending-order query, and after them those of the agent's
    tools when a run was started, which is when the stored context counts
    pending orders. *)
Definition workflow_queries `{Env} (prompt : string) (pending : PyVal)
           (added : list (option string)) : Prop :=
  exists later,
    added = [Some "SELECT 1 as health_check"; Some ORBITAgent.pending_query]
            ++ later
    /\ if ORBITAgent.eq_zero pending then later = []
       else exists requests, later = tool_queries (agent_effects prompt requests).

(** ** Requests *)

(** A computation that leaves the world as it is, however it ends. *)
Definition silent {A} (m : M A) : Prop :=
  forall w res w', m w = (res, w') -> w' = w.

(** The error with which [database_execute_sql] reports a fault of its one
    request: the bridge puts a prefix before every fault but the one it
    words itself. *)
Definition mcp_sql_error (o : HttpOutcome) : option string :=
  match o with
  | Failed msg => Some ("SQL execution failed: " +:+ msg)
  | Responded r =>
      if negb (status_code r =? 200)
      then Some ("Database error: " +:+ str_int (status_code r) +:+ " - "
                 +:+ text r)
      else match json r with
           | inl msg => Some ("SQL execution failed: " +:+ msg)
           | inr _ => None
           end
  end.

(** The one request of [database_execute_sql] and of
    [storage_list_files]. *)
Definition sql_request (srv : MCPServer.t) (query : string)
           (params : option (list PyVal)) : HttpRequest :=
  {| req_method := POST;
     req_url := MCPServer.url srv "/rest/v1/rpc/execute_sql";
     req_body := sdict [("query", VStr query);
                        ("params", VList (default [] params))] |}.

Definition list_request (srv : MCPServer.t) (bucket_name folder_path : string)
  : HttpRequest :=
  {| req_method := GET;
     req_url := MCPServer.url srv ("/storage/v1/object/list/" +:+ bucket_name);
     req_body := sdict [("prefix", VStr folder_path);
                        ("limit", VInt 1000); ("offset", VInt 0)] |}.

(** The one request of the storage operations that concern one object or
    one listing. *)
Definition storage_request (tool : StorageTool.t) (operation bucket : string)
           (path : option string) (folder_path : string) : option HttpRequest :=
  let object_url := StorageTool.supabase_url tool +:+ "/storage/v1/object/"
                    +:+ bucket +:+ "/" +:+ str_opt path in
  if String.eqb operation "list_files" then
    Some (StorageTool.request GET
            (StorageTool.supabase_url tool +:+ "/storage/v1/object/list/" +:+ bucket)
            (sdict [("prefix", VStr folder_path); ("limit", VInt 1000);
                    ("offset", VInt 0)]))
  else if String.eqb operation "download_file" then
    Some (StorageTool.request GET object_url VNone)
  else if String.eqb operation "delete_file" then
    Some (StorageTool.request DELETE object_url VNone)
  else if String.eqb operation "verify_file" then
    Some (StorageTool.request HEAD object_url VNone)
  else None.

(** ** Further worked inputs *)

(** The first request is answered 500, the second succeeds. *)
Definition flaky : Env := script_env [server_error; one_row] no_agent.

(** A database tool that is allowed no attempt. *)
Definition unretried_db : DatabaseTool.t :=
  {| DatabaseTool.supabase_url := "https://orbit.supabase.co";
     DatabaseTool.supabase_key := "service-role-key";
     DatabaseTool.max_retries := 0 |}.

(** Four requests are answered with a row. *)
Definition all_answered : Env :=
  script_env [one_row; one_row; one_row; one_row] no_agent.

(** A step that names no query. *)
Definition untitled : DatabaseTool.QueryData :=
  {| DatabaseTool.q_sql := None; DatabaseTool.q_query := None;
     DatabaseTool.q_params := None |}.

(** Both probes of the health check answer, two orders are pending, and
    the agent run raises. *)
Definition agent_down : Env :=
  script_env [one_row; response_ok (VList []);
              response_ok (VList [sdict [("count", VInt 2)]]);
              response_ok (VList [])]
             no_agent.

(** What the two tool calls of a run do that updates one order and then
    fetches one file: the update enters the database tool, whose first
    request is answered; the download is one request. *)
Definition update_and_download : list ToolEffect :=
  [FxExecute (Some "UPDATE orders SET processing_stage = 'completed' WHERE id = 1")
             "query";
   FxHttp (DatabaseTool.rpc_request (ORBITAgent.database demo_config)
             (Some "UPDATE orders SET processing_stage = 'completed' WHERE id = 1")
             None);
   FxHttp (StorageTool.request GET
             "https://orbit.supabase.co/storage/v1/object/orbit-images/a.jpg"
             VNone)].

(** The same, with an agent run that returns after one order update that
    succeeded and one download that was answered 500. *)
Definition agent_done : Env :=
  script_env_with
    [one_row; response_ok (VList []);
     response_ok (VList [sdict [("count", VInt 2)]]);
     response_ok (VList []);
     one_row; server_error]
    (AgentReturned (VStr "done")
       (Some [{| tool_name := "database_query";
                 arguments := "UPDATE orders SET processing_stage = 'completed' WHERE id = 1";
                 result_success := Some true |};
              {| tool_name := "storage_operations";
                 arguments := "download_file";
                 result_success := Some false |}]))
    update_and_download.

(** The world as it is when the run of [agent_done] starts: four requests
    were made. *)
Definition before_run : World :=
  {| calls := 4%nat; uuids := 0%nat; now := 0%Q; trace := [] |}.

(** Every attempt of the database is answered 500; the storage answers. *)
Definition database_down : Env :=
  script_env [server_error; server_error; server_error; response_ok (VList [])]
             no_agent.

Definition demo_srv : MCPServer.t :=
  {| MCPServer.SUPABASE_URL := Some "https://orbit.supabase.co";
     MCPServer.SUPABASE_SERVICE_KEY := Some "service-role-key";
     MCPServer.SUPABASE_PROJECT_ID := None |}.

(** The first signing request succeeds, the second is answered 500. *)
Definition signing : Env :=
  script_env [response_ok (sdict [("signedURL", VStr "https://signed/a")]);
              server_error]
             no_agent.

Definition demo_storage : StorageTool.t :=
  {| StorageTool.supabase_url := "https://orbit.supabase.co";
     StorageTool.supabase_key := "service-role-key" |}.

(** A configuration without the address of the service. *)
Definition unconfigured : ORBITAgent.ORBITConfig :=
  {| ORBITAgent.supabase_url := "";
     ORBITAgent.supabase_service_key := "service-role-key";
     ORBITAgent.gemini_endpoint := None;
     ORBITAgent.metadata_endpoint := None;
     ORBITAgent.max_retries := 3;
     ORBITAgent.mock_mode := false;
     ORBITAgent.timeout_seconds := 300;
     ORBITAgent.storage_bucket := "orbit-images" |}.

(** A constructor that builds the agent without a fault. *)
Definition demo_new_agent `{Env} (c : ORBITAgent.ORBITConfig) : M ORBITAgent.t :=
  let! t0 := time_time in
  ret {| ORBITAgent.config := c;
         ORBITAgent.stats := ExecutionStats.make t0;
         ORBITAgent.context := ORBITAgent.context demo_agent;
         ORBITAgent.progress := ProgressTracker.init;
         ORBITAgent.is_healthy := false;
         ORBITAgent.current_session_id := None |}.

(** Both health checks of a first run are answered, two orders are
    pending, and the agent run returns after the same two tool calls. *)
Definition first_run : Env :=
  script_env_with
    [one_row; response_ok (VList []);
     one_row; response_ok (VList []);
     response_ok (VList [sdict [("count", VInt 2)]]);
     response_ok (VList []);
     one_row; server_error]
    (AgentReturned (VStr "done")
       (Some [{| tool_name := "database_query";
                 arguments := "UPDATE orders SET processing_stage = 'completed' WHERE id = 1";
                 result_success := Some true |};
              {| tool_name := "storage_operations";
                 arguments := "download_file";
                 result_success := Some false |}]))
    update_and_download.

(** * Properties *)

(** ** Rules for [post], [keeps] and [total] *)

Lemma post_ret {A} (a : A) (P : A -> Prop) : P a -> post (ret a) P.
Proof. intros Ha w a' w' E. inversion E; subst. exact Ha. Qed.


Lemma post_bind {A B} (m : M A) (k : A -> M B) (P : A -> Prop) (Q : B -> Prop) :
  post m P -> (forall a, P a -> post (k a) Q) -> post (bind m k) Q.
Proof.
  intros Hm Hk w b w' E. unfold bind in E.
  destruct (m w) as [[a | e] w1] eqn:Em; [|discriminate].
  eapply Hk; [eapply Hm; exact Em | exact E].
Qed.

Lemma post_any {A} (m : M A) : post m (fun _ => True).
Proof. intros w a w' _. exact I. Qed.

Lemma post_bind_any {A B} (m : M A) (k : A -> M B) (Q : B -> Prop) :
  (forall a, post (k a) Q) -> post (bind m k) Q.
Proof.
  intros Hk. apply (post_bind m k (fun _ => True)); [apply post_any | auto].
Qed.

Lemma post_try {A} (m : M A) (h : string -> M A) (Q : A -> Prop) :
  post m Q -> (forall e, post (h e) Q) -> post (try_except m h) Q.
Proof.
  intros Hm Hh w a w' E. unfold try_except in E.
  destruct (m w) as [[a1 | e] w1] eqn:Em.
  - inversion E; subst. eapply Hm; exact Em.
  - eapply Hh; exact E.
Qed.

Lemma keeps_ret {A X} (view : list Event -> X) (a : A) : keeps view (ret a).
Proof. intros w res w' E. inversion E; reflexivity. Qed.

Lemma keeps_raise {A X} (view : list Event -> X) (e : string) :
  keeps view (@raise A e).
Proof. intros w res w' E. inversion E; reflexivity. Qed.

Lemma keeps_bind {A B X} (view : list Event -> X) (m : M A) (k : A -> M B) :
  keeps view m -> (forall a, keeps view (k a)) -> keeps view (bind m k).
Proof.
  intros Hm Hk w res w' E. unfold bind in E.
  destruct (m w) as [[a | e] w1] eqn:Em.
  - rewrite (Hk a _ _ _ E). exact (Hm _ _ _ Em).
  - inversion E; subst. exact (Hm _ _ _ Em).
Qed.

Lemma keeps_try {A X} (view : list Event -> X) (m : M A) (h : string -> M A) :
  keeps view m -> (forall e, keeps view (h e)) -> keeps view (try_except m h).
Proof.
  intros Hm Hh w res w' E. unfold try_except in E.
  destruct (m w) as [[a | e] w1] eqn:Em.
  - inversion E; subst. exact (Hm _ _ _ Em).
  - rewrite (Hh e _ _ _ E). exact (Hm _ _ _ Em).
Qed.

Lemma agent_runs_snoc tr e :
  (forall p, e <> EvAgentRun p) -> agent_runs (tr ++ [e]) = agent_runs tr.
Proof.
  intros He. unfold agent_runs. rewrite omap_app. simpl.
  destruct e; try (rewrite app_nil_r; reflexivity).
  exfalso. eapply He. reflexivity.
Qed.

Lemma executed_snoc tr e :
  (forall q op, e <> EvExecute q op) -> executed (tr ++ [e]) = executed tr.
Proof.
  intros He. unfold executed. rewrite omap_app. simpl.
  destruct e; try (rewrite app_nil_r; reflexivity).
  exfalso. eapply He. reflexivity.
Qed.

Lemma total_ret {A} (a : A) : total (ret a).
Proof. intros w. exists a, w. reflexivity. Qed.

Lemma total_bind {A B} (m : M A) (k : A -> M B) :
  total m -> (forall a, total (k a)) -> total (bind m k).
Proof.
  intros Hm Hk w. destruct (Hm w) as (a & w1 & E).
  destruct (Hk a w1) as (b & w2 & E2).
  exists b, w2. unfold bind. rewrite E. exact E2.
Qed.

Lemma total_try {A} (m : M A) (h : string -> M A) :
  (forall e, total (h e)) -> total (try_except m h).
Proof.
  intros Hh w. unfold try_except.
  destruct (m w) as [[a | e] w1] eqn:Em.
  - exists a, w1. reflexivity.
  - apply Hh.
Qed.

(** ** RetryingOperationExecutor *)

Section RetryProofs.
Context `{Env}.
Variable tool : DatabaseTool.t.
Variables (q : string) (params : option (list PyVal)) (op : string).

Local Abbreviation req := (DatabaseTool.rpc_request tool (Some q) params).

Lemma attempt_fault attempts w e :
  fault_of (respond (calls w) req) = Some e ->
  DatabaseTool.attempt tool (Some q) params op attempts w
  = (Raise e, snd (http req w)).
Proof.
  intros Hf. unfold DatabaseTool.attempt, bind, time_time, client_request, bind.
  simpl.
  destruct (respond (calls w) req) as [msg | r]; simpl in *.
  - inversion Hf. reflexivity.
  - destruct (status_code r =? 200); simpl in *.
    + unfold response_json. destruct (json r); [|discriminate].
      inversion Hf. reflexivity.
    + inversion Hf. reflexivity.
Qed.

Lemma attempt_rows attempts w rows :
  rows_of (respond (calls w) req) = Some rows ->
  exists r,
    DatabaseTool.attempt tool (Some q) params op attempts w
    = (Ret r, snd (http req w))
    /\ success r = true /\ error r = None /\ data r = rows
    /\ assoc_get "attempts" (metadata r) = Some (VInt (attempts + 1)).
Proof.
  intros Hr. unfold DatabaseTool.attempt, bind, time_time, client_request, bind.
  simpl.
  destruct (respond (calls w) req) as [msg | r]; simpl in *; [discriminate|].
  destruct (status_code r =? 200); simpl in *; [|discriminate].
  unfold response_json. destruct (json r); [discriminate|].
  inversion Hr; subst. simpl. eexists. split; [reflexivity|]. simpl. auto.
Qed.

(** C3. With [max_retries = 3] and retries allowed, an operation whose
    first two attempts fail and whose third succeeds yields a success
    envelope with [attempts = 3] in its metadata, after backoff sleeps of 2
    and then 4 between the attempts; an operation whose three attempts all
    fail yields a failure envelope carrying the last fault and
    [attempts = 3], after the same two sleeps. *)
Theorem retry_three_attempts (w : World) :
  DatabaseTool.max_retries tool = 3 ->
  (forall e1 e2 rows,
      fault_of (respond (calls w) req) = Some e1 ->
      fault_of (respond (S (calls w)) req) = Some e2 ->
      rows_of (respond (S (S (calls w))) req) = Some rows ->
      exists r w',
        DatabaseTool._execute tool (Some q) params true op w = (Ret r, w')
        /\ success r = true /\ error r = None /\ data r = rows
        /\ assoc_get "attempts" (metadata r) = Some (VInt 3)
        /\ trace w' = trace w ++ [EvExecute (Some q) op; EvHttp req;
                                  EvSleep 2; EvHttp req; EvSleep 4; EvHttp req]
        /\ sleeps (trace w') = sleeps (trace w) ++ [2%Q; 4%Q])
  /\ (forall e1 e2 e3,
      fault_of (respond (calls w) req) = Some e1 ->
      fault_of (respond (S (calls w)) req) = Some e2 ->
      fault_of (respond (S (S (calls w))) req) = Some e3 ->
      exists r w',
        DatabaseTool._execute tool (Some q) params true op w = (Ret r, w')
        /\ success r = false /\ error r = Some e3
        /\ assoc_get "attempts" (metadata r) = Some (VInt 3)
        /\ trace w' = trace w ++ [EvExecute (Some q) op; EvHttp req;
                                  EvSleep 2; EvHttp req; EvSleep 4; EvHttp req]
        /\ sleeps (trace w') = sleeps (trace w) ++ [2%Q; 4%Q]).
Proof.
  intros Hmax. split.
  - intros e1 e2 rows H1 H2 H3.
    unfold DatabaseTool._execute, DatabaseTool.loop_limit.
    rewrite Hmax. change (Z.to_nat 3) with 3%nat.
    unfold bind at 1. unfold log_event at 1.
    unfold bind at 1. simpl DatabaseTool.retry_loop.
    unfold try_except at 1. unfold bind at 1.
    erewrite attempt_fault by (simpl; exact H1).
    rewrite Hmax. simpl.
    unfold bind at 1. unfold asyncio_sleep at 1.
    unfold try_except at 1. unfold bind at 1.
    erewrite attempt_fault by (simpl; exact H2).
    simpl. unfold bind at 1. unfold asyncio_sleep at 1.
    unfold try_except at 1. unfold bind at 1.
    edestruct (attempt_rows 2) as (r & Hr & Hs & He & Hd & Ha); [|rewrite Hr].
    { simpl. exact H3. }
    simpl. exists r. eexists. split; [reflexivity|].
    repeat split; try assumption.
    + simpl. rewrite <- !app_assoc. reflexivity.
    + simpl. unfold sleeps. rewrite <- !app_assoc. rewrite omap_app. reflexivity.
  - intros e1 e2 e3 H1 H2 H3.
    unfold DatabaseTool._execute, DatabaseTool.loop_limit.
    rewrite Hmax. change (Z.to_nat 3) with 3%nat.
    unfold bind at 1. unfold log_event at 1.
    unfold bind at 1. simpl DatabaseTool.retry_loop.
    unfold try_except at 1. unfold bind at 1.
    erewrite attempt_fault by (simpl; exact H1).
    rewrite Hmax. simpl.
    unfold bind at 1. unfold asyncio_sleep at 1.
    unfold try_except at 1. unfold bind at 1.
    erewrite attempt_fault by (simpl; exact H2).
    simpl. unfold bind at 1. unfold asyncio_sleep at 1.
    unfold try_except at 1. unfold bind at 1.
    erewrite attempt_fault by (simpl; exact H3).
    simpl. eexists. eexists. split; [reflexivity|]. simpl.
    repeat split.
    + rewrite <- !app_assoc. reflexivity.
    + unfold sleeps. rewrite <- !app_assoc. rewrite omap_app. reflexivity.
Qed.
End RetryProofs.


(** C3, on a service that answers 500 twice and then returns a row, and on
    one that answers 500 three times. *)
Lemma retry_three_attempts_witness :
  (exists r w',
      @DatabaseTool._execute (script_env [server_error; server_error; one_row] no_agent)
        demo_db (Some "SELECT 1") None true "query" world0 = (Ret r, w')
      /\ success r = true
      /\ assoc_get "attempts" (metadata r) = Some (VInt 3)
      /\ sleeps (trace w') = [2%Q; 4%Q])
  /\ (exists r w',
      @DatabaseTool._execute
        (script_env [server_error; server_error; server_error] no_agent)
        demo_db (Some "SELECT 1") None true "query" world0 = (Ret r, w')
      /\ success r = false
      /\ error r = Some "Database error: 500 - Internal Server Error"
      /\ assoc_get "attempts" (metadata r) = Some (VInt 3)
      /\ sleeps (trace w') = [2%Q; 4%Q]).
Proof.
  split.
  - destruct (proj1 (@retry_three_attempts
                       (script_env [server_error; server_error; one_row] no_agent)
                       demo_db "SELECT 1" None "query" world0 eq_refl)
                    _ _ _ eq_refl eq_refl eq_refl)
      as (r & w' & E & Hs & _ & _ & Ha & _ & Hsl).
    exists r, w'. repeat split; assumption.
  - destruct (proj2 (@retry_three_attempts
                       (script_env [server_error; server_error; server_error] no_agent)
                       demo_db "SELECT 1" None "query" world0 eq_refl)
                    _ _ _ eq_refl eq_refl eq_refl)
      as (r & w' & E & Hs & He & Ha & _ & Hsl).
    exists r, w'. repeat split; assumption.
Defined.

(** ** TransactionCoordinator *)

(** C1. A transaction whose only step succeeds but whose COMMIT marker fails
    on every one of its three attempts is nevertheless reported as a
    success: the result of the COMMIT operation is not looked at. *)
Theorem commit_failure_reported_as_success :
  exists r w',
    @DatabaseTool.execute_transaction commit_fails demo_db [complete_order] world0
    = (Ret r, w')
    /\ success r = true
    /\ error r = None
    /\ executed (trace w')
       = [Some "BEGIN";
          Some "UPDATE orders SET processing_stage = 'completed' WHERE id = 1";
          Some "COMMIT"]
    /\ (forall n, (2 <= n < 5)%nat ->
                  fault_of (@respond commit_fails n commit_request)
                  = Some "Database error: 500 - Internal Server Error")
    /\ calls w' = 5%nat.
Proof.
  eexists. eexists. split; [vm_compute; reflexivity|].
  repeat split.
  intros n Hn. destruct n as [|[|[|[|[|n]]]]]; try lia; reflexivity.
Qed.

(** C2. A two-step transaction whose first step succeeds and whose second
    fails returns a failure envelope naming step 2 and its error and runs
    no third step, but the ROLLBACK marker operation is entered twice: once
    where the failure is detected and once more in the handler of the fault
    raised there. *)
Theorem second_step_failure_rolls_back_twice :
  exists r w',
    @DatabaseTool.execute_transaction second_fails demo_db
      [complete_order; insert_image] world0 = (Ret r, w')
    /\ success r = false
    /\ error r = Some "Query 2 failed: Database error: 500 - Internal Server Error"
    /\ executed (trace w')
       = [Some "BEGIN";
          Some "UPDATE orders SET processing_stage = 'completed' WHERE id = 1";
          Some "INSERT INTO images (order_id) VALUES (1)";
          Some "ROLLBACK"; Some "ROLLBACK"]
    /\ length (filter (fun q => q = Some "ROLLBACK") (executed (trace w'))) = 2%nat
    /\ length (filter (fun q => is_marker q = false) (executed (trace w'))) = 2%nat.
Proof.
  eexists. eexists. split; [vm_compute; reflexivity|].
  repeat split.
Qed.

(** ** ResultEnvelope *)

Section Envelopes.
Context `{Env}.




End Envelopes.


Section Ops.
Context `{Env}.




















End Ops.




(** ** ProgressLedger *)

Lemma count_of_bump st st' counts :
  ProgressTracker.count_of st (ProgressTracker.bump st' counts)
  = ProgressTracker.count_of st counts + (if decide (st' = st) then 1 else 0).
Proof.
  induction counts as [|[k n] rest IH]; simpl.
  - destruct (decide (st' = st)); reflexivity.
  - destruct (decide (k = st')) as [-> | Hne]; simpl.
    + destruct (decide (st' = st)); lia.
    + destruct (decide (k = st)) as [-> | Hne'].
      * destruct (decide (st' = st)); [congruence | lia].
      * exact IH.
Qed.

Lemma count_of_fold st l acc :
  ProgressTracker.count_of st
    (fold_left (fun counts td => ProgressTracker.bump (ProgressTracker.status td) counts)
               l acc)
  = ProgressTracker.count_of st acc
    + Z.of_nat (length (filter (fun td => ProgressTracker.status td = st) l)).
Proof.
  revert acc. induction l as [|td l IH]; intros acc; simpl.
  - lia.
  - rewrite IH, count_of_bump. rewrite filter_cons.
    destruct (decide (ProgressTracker.status td = st)); simpl; lia.
Qed.

Lemma completed_counted ledger :
  ProgressTracker.count_of (Some "completed") (ProgressTracker._get_status_counts ledger)
  = completed_count (ProgressTracker.todos ledger).
Proof.
  unfold ProgressTracker._get_status_counts, completed_count.
  rewrite count_of_fold. reflexivity.
Qed.

Lemma round_half_even_close q :
  (Qabs (inject_Z (round_half_even q) - q) <= 1 # 2)%Q.
Proof.
  destruct q as [n d]. unfold round_half_even. simpl Qnum. simpl Qden.
  pose proof (Z.div_mod n (Z.pos d) ltac:(lia)) as Hdm.
  pose proof (Z.mod_pos_bound n (Z.pos d) ltac:(lia)) as Hr.
  set (f := n / Z.pos d) in *. set (r := n mod Z.pos d) in *.
  apply Qabs_Qle_condition.
  assert (Hcases :
            forall z, (z = f /\ 2 * r <= Z.pos d) \/ (z = f + 1 /\ Z.pos d <= 2 * r) ->
                      (- (1 # 2) <= inject_Z z - (n # d) <= 1 # 2)%Q).
  { intros z Hz. unfold Qle, Qminus, Qplus, Qopp, inject_Z. simpl.
    destruct Hz as [[-> H1] | [-> H1]]; split; nia. }
  destruct (Z.compare_spec (2 * r) (Z.pos d)) as [Hc | Hc | Hc].
  - destruct (Z.even f); apply Hcases; [left; lia | right; lia].
  - apply Hcases. left. lia.
  - apply Hcases. right. lia.
Qed.

Lemma round_half_even_exact q z :
  (q == inject_Z z)%Q -> round_half_even q = z.
Proof.
  destruct q as [n d]. unfold Qeq, inject_Z. simpl. intros Hq.
  unfold round_half_even. simpl.
  assert (Hn : n = z * Z.pos d) by lia.
  rewrite Hn. rewrite Z.div_mul by lia. rewrite Z.mod_mul by lia.
  simpl. reflexivity.
Qed.

Lemma py_round_2_close q : (Qabs (py_round q 2 - q) <= 1 # 200)%Q.
Proof.
  unfold py_round. change (10 ^ Z.of_nat 2) with 100. change (Z.to_pos 100) with 100%positive.
  pose proof (round_half_even_close (q * inject_Z 100)) as Hc.
  set (z := round_half_even (q * inject_Z 100)) in *.
  apply Qabs_Qle_condition in Hc. apply Qabs_Qle_condition.
  destruct q as [n d]. unfold Qle, Qminus, Qplus, Qopp, Qmult, inject_Z in *.
  simpl in *. split; lia.
Qed.

Lemma round_half_even_range q lo hi :
  (inject_Z lo <= q)%Q -> (q <= inject_Z hi)%Q ->
  lo <= round_half_even q <= hi.
Proof.
  intros Hlo Hhi. pose proof (round_half_even_close q) as Hc.
  apply Qabs_Qle_condition in Hc. destruct Hc as [Hc1 Hc2].
  set (z := round_half_even q) in *.
  destruct q as [n d]. unfold Qle, Qminus, Qplus, Qopp, inject_Z in *.
  simpl in *. split; nia.
Qed.

(** *** Double precision *)

(** The double written [0.1] is 3602879701896397 / 2^55, and a tie goes
    to the even significand: 2^53 + 1 rounds to 2^53. *)
Example b64_one_tenth :
  (b64 (1 # 10) == 3602879701896397 # 36028797018963968)%Q
  /\ (b64 (inject_Z (2 ^ 53 + 1)) == inject_Z (2 ^ 53))%Q
  /\ (b64 (inject_Z (2 ^ 53 + 3)) == inject_Z (2 ^ 53 + 4))%Q.
Proof. split; [|split]; vm_compute; reflexivity. Qed.

Lemma two_pow_pos e : (0 < 2 ^ e)%Q.
Proof. apply Qpower_0_lt. reflexivity. Qed.

Lemma two_pow_inject k : 0 <= k -> (inject_Z (2 ^ k) == 2 ^ k)%Q.
Proof. intros Hk. rewrite Zpower_Qpower by exact Hk. reflexivity. Qed.

Lemma floor_log2_le a : (0 < a)%Q -> (2 ^ floor_log2 a <= a)%Q.
Proof.
  intros Ha. unfold floor_log2.
  set (k := Z.log2 (Qnum a) - Z.log2 (Z.pos (Qden a))).
  destruct (Qle_bool (2 ^ k) a) eqn:Ht.
  - apply Qle_bool_iff. exact Ht.
  - destruct a as [n d]. subst k. simpl Qnum. simpl Qden.
    assert (Hn : 0 < n) by (unfold Qlt in Ha; simpl in Ha; lia).
    pose proof (Z.log2_spec n Hn) as [Hn1 _].
    pose proof (Z.log2_spec (Z.pos d) ltac:(lia)) as [_ Hd2].
    rewrite <- Z.add_1_r in Hd2.
    pose proof (Z.log2_nonneg n) as Hln. pose proof (Z.log2_nonneg (Z.pos d)) as Hld.
    set (ln := Z.log2 n) in *. set (ld := Z.log2 (Z.pos d)) in *.
    replace (ln - ld - 1) with (ln + - (ld + 1)) by lia.
    rewrite Qpower_plus by discriminate. rewrite Qpower_opp.
    rewrite <- (two_pow_inject ln) by lia. rewrite <- (two_pow_inject (ld + 1)) by lia.
    assert (Hp : 0 < 2 ^ (ld + 1)) by (apply Z.pow_pos_nonneg; lia).
    set (P := 2 ^ (ld + 1)) in *. set (N := 2 ^ ln) in *.
    rewrite (Qmake_Qdiv n d).
    apply Qle_shift_div_l; [unfold Qlt; simpl; lia|].
    setoid_replace (inject_Z N * / inject_Z P * inject_Z (Z.pos d))%Q
      with (inject_Z N * (inject_Z (Z.pos d) / inject_Z P))%Q
      using relation Qeq by (unfold Qdiv; ring).
    apply Qle_trans with (inject_Z N * 1)%Q.
    + assert (HN : 0 < N) by (apply Z.pow_pos_nonneg; lia).
      apply Qmult_le_l; [unfold Qlt; simpl; lia|].
      apply Qle_shift_div_r; [unfold Qlt; simpl; lia|].
      rewrite Qmult_1_l. rewrite <- Zle_Qle. lia.
    + rewrite Qmult_1_r. rewrite <- Zle_Qle. exact Hn1.
Qed.

Lemma floor_log2_below a k : (0 < a)%Q -> (a < 2 ^ (k + 1))%Q -> floor_log2 a <= k.
Proof.
  intros Ha Hlt. destruct (Z_le_gt_dec (floor_log2 a) k) as [Hle | Hgt]; [exact Hle|].
  exfalso. apply (Qlt_irrefl a). eapply Qlt_le_trans; [exact Hlt|].
  eapply Qle_trans; [|apply floor_log2_le; exact Ha].
  apply Qpower_le_compat_l; [lia | discriminate].
Qed.

Lemma b64_pos_close a k :
  (0 < a)%Q -> (a < 2 ^ (k + 1))%Q -> -1022 <= k ->
  (Qabs (b64_pos a - a) <= 2 ^ (k - 53))%Q.
Proof.
  intros Ha Hlt Hk. unfold b64_pos.
  pose proof (floor_log2_below a k Ha Hlt) as Hfl.
  assert (He : b64_exponent a <= k - 52) by (unfold b64_exponent; lia).
  set (e := b64_exponent a) in *.
  pose proof (two_pow_pos e) as Hpe.
  pose proof (round_half_even_close (a / 2 ^ e)) as Hc.
  set (m := round_half_even (a / 2 ^ e)) in *.
  setoid_replace (inject_Z m * 2 ^ e - a)%Q
    with ((inject_Z m - a / 2 ^ e) * 2 ^ e)%Q
    using relation Qeq by (field; intros H0; rewrite H0 in Hpe; discriminate).
  rewrite Qabs_Qmult. rewrite (Qabs_pos (2 ^ e)) by (apply Qlt_le_weak; exact Hpe).
  apply Qle_trans with ((1 # 2) * 2 ^ e)%Q.
  - apply Qmult_le_compat_r; [exact Hc | apply Qlt_le_weak; exact Hpe].
  - replace (k - 53) with (-1 + (k - 52)) by lia.
    rewrite Qpower_plus by discriminate.
    change (2 ^ (-1))%Q with (1 # 2)%Q.
    apply Qmult_le_l; [reflexivity|].
    apply Qpower_le_compat_l; [exact He | discriminate].
Qed.

Lemma Qnum_pos q : (0 < q)%Q -> exists p, Qnum q = Z.pos p.
Proof.
  destruct q as [[|p|p] d]; unfold Qlt; simpl; intros Hq; try lia. eauto.
Qed.

Lemma Qnum_zero q : (q == 0)%Q -> Qnum q = 0.
Proof. destruct q as [n d]. unfold Qeq. simpl. lia. Qed.

Lemma b64_close q k :
  (0 <= q)%Q -> (q < 2 ^ (k + 1))%Q -> -1022 <= k ->
  (Qabs (b64 q - q) <= 2 ^ (k - 53))%Q.
Proof.
  intros Hq Hlt Hk. apply Qle_lt_or_eq in Hq. destruct Hq as [Hq | Hq].
  - destruct (Qnum_pos q Hq) as (p & Hp). unfold b64. rewrite Hp.
    apply b64_pos_close; assumption.
  - unfold b64. rewrite (Qnum_zero q) by (symmetry; exact Hq).
    rewrite <- Hq. apply Qlt_le_weak. apply two_pow_pos.
Qed.

(** Rounding to a double does not cross an integer below [2^53]. *)
Lemma b64_pos_range a B :
  (0 < a)%Q -> (a <= inject_Z B)%Q -> B < 2 ^ 53 ->
  (0 <= b64_pos a <= inject_Z B)%Q.
Proof.
  intros Ha HB Hlt. unfold b64_pos.
  assert (Hfl : floor_log2 a <= 52).
  { apply floor_log2_below; [exact Ha|].
    eapply Qle_lt_trans; [exact HB|]. change (52 + 1) with 53.
    rewrite <- two_pow_inject by lia. rewrite <- Zlt_Qlt. exact Hlt. }
  assert (He : b64_exponent a <= 0) by (unfold b64_exponent; lia).
  set (e := b64_exponent a) in *.
  pose proof (two_pow_pos e) as Hpe.
  assert (Hinv : (/ 2 ^ e == inject_Z (2 ^ (- e)))%Q).
  { rewrite two_pow_inject by lia. rewrite Qpower_opp. reflexivity. }
  assert (H0B : 0 <= B).
  { rewrite Zle_Qle. change (inject_Z 0) with 0%Q.
    apply Qlt_le_weak. apply Qlt_le_trans with a; assumption. }
  assert (Hs : 0 < 2 ^ (- e)) by (apply Z.pow_pos_nonneg; lia).
  pose proof (round_half_even_range (a / 2 ^ e) 0 (B * 2 ^ (- e))) as Hr.
  destruct Hr as [Hr1 Hr2].
  { apply Qlt_le_weak. apply Qlt_shift_div_l; [exact Hpe|]. rewrite Qmult_0_l. exact Ha. }
  { unfold Qdiv. rewrite Hinv. rewrite inject_Z_mult.
    apply Qmult_le_compat_r; [exact HB|]. rewrite <- (Zle_Qle 0). lia. }
  set (m := round_half_even (a / 2 ^ e)) in *.
  split.
  - apply Qmult_le_0_compat; [rewrite <- (Zle_Qle 0); exact Hr1 | apply Qlt_le_weak; exact Hpe].
  - apply Qle_trans with (inject_Z (B * 2 ^ (- e)) * 2 ^ e)%Q.
    + apply Qmult_le_compat_r; [rewrite <- Zle_Qle; exact Hr2 | apply Qlt_le_weak; exact Hpe].
    + rewrite inject_Z_mult. rewrite <- Hinv.
      setoid_replace (inject_Z B * / 2 ^ e * 2 ^ e)%Q with (inject_Z B)
        using relation Qeq by (field; intros H0; rewrite H0 in Hpe; discriminate).
      apply Qle_refl.
Qed.

Lemma b64_range q B :
  (0 <= q)%Q -> (q <= inject_Z B)%Q -> B < 2 ^ 53 ->
  (0 <= b64 q <= inject_Z B)%Q.
Proof.
  intros Hq HB Hlt.
  assert (H0B : (0 <= inject_Z B)%Q) by (eapply Qle_trans; eassumption).
  apply Qle_lt_or_eq in Hq. destruct Hq as [Hq | Hq].
  - destruct (Qnum_pos q Hq) as (p & Hp). unfold b64. rewrite Hp.
    apply b64_pos_range; assumption.
  - unfold b64. rewrite (Qnum_zero q) by (symmetry; exact Hq).
    split; [apply Qle_refl | exact H0B].
Qed.

(** The integers below [2^53] are doubles. *)
Lemma b64_integer q z :
  (q == inject_Z z)%Q -> 0 <= z < 2 ^ 53 -> (b64 q == inject_Z z)%Q.
Proof.
  intros Hq Hz.
  assert (Hq0 : (0 <= q)%Q) by (rewrite Hq; rewrite <- (Zle_Qle 0); lia).
  apply Qle_lt_or_eq in Hq0. destruct Hq0 as [Hpos | Hzero].
  - destruct (Qnum_pos q Hpos) as (p & Hp). unfold b64. rewrite Hp.
    unfold b64_pos.
    assert (Hfl : floor_log2 q <= 52).
    { apply floor_log2_below; [exact Hpos|]. rewrite Hq. change (52 + 1) with 53.
      rewrite <- two_pow_inject by lia. rewrite <- Zlt_Qlt. lia. }
    assert (He : b64_exponent q <= 0) by (unfold b64_exponent; lia).
    set (e := b64_exponent q) in *.
    pose proof (two_pow_pos e) as Hpe.
    assert (Hinv : (/ 2 ^ e == inject_Z (2 ^ (- e)))%Q).
    { rewrite two_pow_inject by lia. rewrite Qpower_opp. reflexivity. }
    rewrite (round_half_even_exact _ (z * 2 ^ (- e))).
    + rewrite inject_Z_mult. rewrite <- Hinv.
      field. intros H0. rewrite H0 in Hpe. discriminate.
    + unfold Qdiv. rewrite Hinv, Hq. rewrite inject_Z_mult. reflexivity.
  - unfold b64. rewrite (Qnum_zero q) by (symmetry; exact Hzero).
    rewrite <- Hq. exact Hzero.
Qed.

Lemma round_half_even_near q z :
  (Qabs (q - inject_Z z) < 1 # 2)%Q -> round_half_even q = z.
Proof.
  intros Hq. pose proof (round_half_even_close q) as Hc.
  set (m := round_half_even q) in *.
  apply Qabs_Qle_condition in Hc. apply Qabs_Qlt_condition in Hq.
  destruct q as [n d]. unfold Qle, Qlt, Qminus, Qplus, Qopp, inject_Z in *.
  simpl in *. nia.
Qed.

Lemma py_round_2_value q : (py_round q 2 == inject_Z (round_half_even (q * inject_Z 100)) / 100)%Q.
Proof.
  unfold py_round. change (10 ^ Z.of_nat 2) with 100. change (Z.to_pos 100) with 100%positive.
  rewrite Qmake_Qdiv. reflexivity.
Qed.

Lemma percent_double c t :
  0 <= c <= t -> 0 < t ->
  let p := float_round (b64 (b64 (inject_Z c / inject_Z t) * 100)%Q) 2 in
  (0 <= p <= 100
   /\ Qabs (p - inject_Z c / inject_Z t * 100) <= (1 # 200) + (1 # 35184372088832)
   /\ forall z, inject_Z c / inject_Z t * 100 == inject_Z z -> p == inject_Z z)%Q.
Proof.
  intros Hc Ht. cbv zeta. unfold float_round.
  set (r := (inject_Z c / inject_Z t)%Q).
  assert (Htq : (0 < inject_Z t)%Q) by (rewrite <- (Zlt_Qlt 0); exact Ht).
  assert (Hr : (0 <= r <= 1)%Q).
  { unfold r. split.
    - apply Qle_shift_div_l; [exact Htq|]. rewrite Qmult_0_l. rewrite <- (Zle_Qle 0). lia.
    - apply Qle_shift_div_r; [exact Htq|]. rewrite Qmult_1_l. rewrite <- Zle_Qle. lia. }
  destruct Hr as [Hr0 Hr1]. clearbody r.
  pose proof (b64_range r 1 Hr0 Hr1 ltac:(reflexivity)) as [Hx0 Hx1].
  pose proof (b64_close r 0 Hr0 ltac:(eapply Qle_lt_trans; [exact Hr1 | reflexivity])
                        ltac:(lia)) as Hxc.
  set (x1 := b64 r) in *. clearbody x1. change (inject_Z 1) with 1%Q in Hx1.
  assert (Hy : (0 <= x1 * 100 <= inject_Z 100)%Q).
  { change (inject_Z 100) with 100%Q. split; lra. }
  destruct Hy as [Hy0 Hy1].
  pose proof (b64_range _ 100 Hy0 Hy1 ltac:(reflexivity)) as [Hz0 Hz1].
  pose proof (b64_close (x1 * 100) 6 Hy0 ltac:(eapply Qle_lt_trans; [exact Hy1 | reflexivity])
                        ltac:(lia)) as Hzc.
  set (x2 := b64 (x1 * 100)) in *.
  pose proof (py_round_2_close x2) as Hpc.
  pose proof (py_round_2_value x2) as Hpv.
  pose proof (round_half_even_range (x2 * inject_Z 100) 0 10000) as [Hn0 Hn1].
  { change (inject_Z 0) with 0%Q. change (inject_Z 100) with 100%Q. lra. }
  { change (inject_Z 10000) with 10000%Q. change (inject_Z 100) with 100%Q.
    change (inject_Z 100) with 100%Q in Hz1. lra. }
  set (n := round_half_even (x2 * inject_Z 100)) in *.
  assert (Hndef : n = round_half_even (x2 * inject_Z 100)) by reflexivity.
  clearbody n.
  assert (Hw : (0 <= py_round x2 2 <= inject_Z 100)%Q).
  { rewrite Hpv. change (inject_Z 100) with 100%Q.
    rewrite (Zle_Qle 0) in Hn0. rewrite Zle_Qle in Hn1.
    change (inject_Z 0) with 0%Q in Hn0. change (inject_Z 10000) with 10000%Q in Hn1.
    split.
    - apply Qle_shift_div_l; [reflexivity | lra].
    - apply Qle_shift_div_r; [reflexivity | lra]. }
  destruct Hw as [Hw0 Hw1].
  pose proof (b64_range _ 100 Hw0 Hw1 ltac:(reflexivity)) as [Hp0 Hp1].
  pose proof (b64_close (py_round x2 2) 6 Hw0
                        ltac:(eapply Qle_lt_trans; [exact Hw1 | reflexivity])
                        ltac:(lia)) as Hpp.
  change (2 ^ (0 - 53))%Q with (1 # 9007199254740992)%Q in Hxc.
  change (2 ^ (6 - 53))%Q with (1 # 140737488355328)%Q in Hzc, Hpp.
  apply Qabs_Qle_condition in Hxc, Hzc, Hpc, Hpp.
  split; [split; [exact Hp0 | exact Hp1]|]. split.
  - set (y2 := py_round x2 2) in *. set (p := b64 y2) in *. clearbody p y2 x2.
    apply Qabs_Qle_condition. split; lra.
  - intros z Hz.
    assert (Hzr : 0 <= z <= 100).
    { rewrite !Zle_Qle. rewrite <- Hz. change (inject_Z 0) with 0%Q.
      change (inject_Z 100) with 100%Q. split; lra. }
    assert (Hn : n = 100 * z).
    { rewrite Hndef. apply round_half_even_near. rewrite inject_Z_mult.
      change (inject_Z 100) with 100%Q.
      apply Qabs_Qlt_condition. split; lra. }
    apply b64_integer; [|lia].
    rewrite Hpv, Hn, inject_Z_mult. change (inject_Z 100) with 100%Q. field.
Qed.

Section Ledger.
Context `{Env}.

Lemma find_todo_absent todo_id l :
  (forall td, In td l -> Some (ProgressTracker.tid td) <> todo_id) ->
  ProgressTracker.find_todo todo_id l = None.
Proof.
  induction l as [|td l IH]; intros Habs; simpl; [reflexivity|].
  destruct (decide (Some (ProgressTracker.tid td) = todo_id)) as [Heq|_].
  - exfalso. apply (Habs td); [left; reflexivity | exact Heq].
  - apply IH. intros td' Hin. apply Habs. right. exact Hin.
Qed.

(** C10. For every ledger and every todo id that no entry of the list
    carries, the [update_todo] action returns a failure envelope whose error
    names that id, and the ledger (the list and each of its entries, the
    next id and the workflow counters) is returned as it was. *)
Theorem update_todo_missing_id (ledger : ProgressTracker.t) (todo_id : option Z)
        (content status : option string) (stat_update : option (gmap string PyVal))
        (w : World) :
  (forall td, In td (ProgressTracker.todos ledger) ->
              Some (ProgressTracker.tid td) <> todo_id) ->
  exists r,
    ProgressTracker._execute ledger "update_todo" content todo_id status
                             stat_update w = (Ret (r, ledger), w)
    /\ success r = false
    /\ error r = Some ("Todo " +:+ ProgressTracker.str_todo_id todo_id +:+ " not found").
Proof.
  intros Habs.
  unfold ProgressTracker._execute, ProgressTracker._update_todo. simpl.
  rewrite (find_todo_absent _ _ Habs).
  eexists. split; [reflexivity|]. split; reflexivity.
Qed.

(** C5, as amended. [update_stats] merges the supplied fields into the
    counters and leaves the todos alone. [started_at] is stamped with the
    current time only when the call supplies a [started_at] entry whose
    value is unset (falsy); a supplied value that is set is kept, and a call
    that supplies no [started_at] entry leaves [started_at] as it was. *)
Theorem update_stats_started_at (ledger : ProgressTracker.t)
        (updates : gmap string PyVal) (w : World) :
  exists r ledger',
    ProgressTracker._execute ledger "update_stats" None None None (Some updates) w
    = (Ret (r, ledger'), w)
    /\ success r = true
    /\ ProgressTracker.todos ledger' = ProgressTracker.todos ledger
    /\ ProgressTracker.next_id ledger' = ProgressTracker.next_id ledger
    /\ (forall k, k <> "started_at" ->
                  ProgressTracker.workflow_stats ledger' !! k
                  = (updates ∪ ProgressTracker.workflow_stats ledger) !! k)
    /\ ProgressTracker.workflow_stats ledger' !! "started_at"
       = match updates !! "started_at" with
         | None => ProgressTracker.workflow_stats ledger !! "started_at"
         | Some v => Some (if truthy v then v else VStr (isoformat (now w)))
         end.
Proof.
  unfold ProgressTracker._execute, ProgressTracker._update_stats. simpl.
  unfold try_except, bind at 1.
  destruct (updates !! "started_at") as [v|] eqn:Hu.
  - assert (Hm : (updates ∪ ProgressTracker.workflow_stats ledger) !! "started_at"
                 = Some v) by (apply lookup_union_Some_l; exact Hu).
    rewrite Hm. destruct (truthy v) eqn:Ht; simpl.
    + eexists. eexists. split; [reflexivity|]. simpl.
      repeat split; auto.
    + eexists. eexists. split; [reflexivity|]. simpl.
      repeat split; auto.
      * intros k Hk. rewrite lookup_insert_ne by congruence. reflexivity.
      * rewrite lookup_insert_eq. reflexivity.
  - simpl. eexists. eexists. split; [reflexivity|]. simpl.
    repeat split; auto.
    rewrite lookup_union_r by exact Hu. reflexivity.
Qed.
End Ledger.

(** C5, as stated, fails: the first [update_stats] call on a fresh ledger,
    with the counters the agent reports, leaves [started_at] null. *)
Lemma started_at_stays_unset : ~ first_update_sets_started_at.
Proof.
  intros Hclaim.
  destruct (@ProgressTracker._execute offline ProgressTracker.init "update_stats"
              None None None (Some test_update) world0)
    as [[[r ledger'] | e] w'] eqn:E; [|vm_compute in E; discriminate].
  destruct (Hclaim offline test_update world0 r ledger' w' E) as (v & Hv & Hne).
  vm_compute in E. inversion E; subst; clear E.
  vm_compute in Hv. inversion Hv; subst. apply Hne. reflexivity.
Qed.

(** C5, as amended, on that call. *)
Lemma update_stats_started_at_witness :
  exists r ledger',
    @ProgressTracker._execute offline ProgressTracker.init "update_stats"
       None None None (Some test_update) world0 = (Ret (r, ledger'), world0)
    /\ ProgressTracker.workflow_stats ledger' !! "started_at" = Some VNone
    /\ ProgressTracker.workflow_stats ledger' !! "orders_processed" = Some (VInt 5).
Proof.
  destruct (@update_stats_started_at offline ProgressTracker.init test_update world0)
    as (r & ledger' & E & _ & _ & _ & Hk & Hst).
  exists r, ledger'. split; [exact E|]. split.
  - rewrite Hst. vm_compute. reflexivity.
  - rewrite Hk by discriminate. vm_compute. reflexivity.
Defined.

(** C10 on a ledger of two todos and the id 7. *)
Lemma update_todo_missing_id_witness :
  exists r,
    @ProgressTracker._execute offline (ledger_of [todo 1 "pending"; todo 2 "completed"])
       "update_todo" None (Some 7) (Some "completed") None world0
    = (Ret (r, ledger_of [todo 1 "pending"; todo 2 "completed"]), world0)
    /\ success r = false
    /\ error r = Some "Todo 7 not found".
Proof.
  apply (@update_todo_missing_id offline
           (ledger_of [todo 1 "pending"; todo 2 "completed"]) (Some 7) None
           (Some "completed") None world0).
  intros td [<- | [<- | []]]; simpl; discriminate.
Defined.

Section Progress.
Context `{Env}.

(** C8, as amended. [get_progress] leaves the ledger alone and reports
    [percent_complete] as 0 for an empty ledger and otherwise as
    [completed / total * 100] computed in double precision and rounded to
    two decimal places: the reported value is the double nearest to a
    number of two decimals, it is within 0.005 + 2^-45 of the ratio, and it
    is the ratio when the ratio is a whole number. *)
Theorem progress_percent_rounded (ledger : ProgressTracker.t) (w : World) :
  exists r,
    ProgressTracker._execute ledger "get_progress" None None None None w
    = (Ret (r, ledger), w)
    /\ success r = true
    /\ (ProgressTracker.todos ledger = [] -> reported_percent r = Some (VInt 0))
    /\ (ProgressTracker.todos ledger <> [] ->
        exists p,
          reported_percent r = Some (VFloat p)
          /\ p = float_round
                   (b64 (b64 (inject_Z (completed_count (ProgressTracker.todos ledger))
                              / inject_Z (Z.of_nat (length (ProgressTracker.todos ledger))))
                         * 100)%Q) 2
          /\ (exists n : Z, p = b64 (n # 100))
          /\ (Qabs (p - exact_percent (ProgressTracker.todos ledger))
               <= (1 # 200) + (1 # 35184372088832))%Q
          /\ (forall z, (exact_percent (ProgressTracker.todos ledger)
                         == inject_Z z)%Q ->
                        (p == inject_Z z)%Q)).
Proof.
  unfold ProgressTracker._execute, ProgressTracker._get_progress. simpl.
  eexists. split; [reflexivity|]. split; [reflexivity|].
  unfold reported_percent. simpl. rewrite completed_counted.
  unfold ProgressTracker.percent_complete.
  destruct (ProgressTracker.todos ledger) as [|td l] eqn:Hl.
  - split; [reflexivity | congruence].
  - split; [discriminate|]. intros _.
    assert (Hpos : (0 <? Z.of_nat (length (td :: l))) = true)
      by (apply Z.ltb_lt; simpl; lia).
    rewrite Hpos. eexists. split; [reflexivity|].
    split; [reflexivity|]. split; [eexists; reflexivity|].
    assert (Hc : 0 <= completed_count (td :: l) <= Z.of_nat (length (td :: l))).
    { unfold completed_count. split; [lia|]. apply inj_le. apply length_filter. }
    apply Z.ltb_lt in Hpos.
    pose proof (percent_double _ _ Hc Hpos) as Hd. cbv zeta in Hd.
    destruct Hd as (_ & Hclose & Hexact).
    split; [exact Hclose | exact Hexact].
Qed.
End Progress.

(** C8, as stated, fails: with one of three todos completed the report says
    33.33, which is not 100/3. *)
Lemma percent_of_one_in_three : ~ percent_is_exact_ratio.
Proof.
  intros Hclaim.
  destruct (@ProgressTracker._execute offline three_todos "get_progress"
              None None None None world0)
    as [[[r ledger'] | e] w'] eqn:E; [|vm_compute in E; discriminate].
  destruct (Hclaim offline three_todos world0 r ledger' w' E) as (v & Hv & Hnum).
  vm_compute in E. inversion E; subst; clear E.
  vm_compute in Hv. inversion Hv; subst; clear Hv.
  vm_compute in Hnum. discriminate Hnum.
Qed.

(** C8, as amended, on four todos of which two are completed: 50. *)
Lemma progress_percent_rounded_witness :
  exists r p,
    @ProgressTracker._execute offline four_todos "get_progress" None None None None
       world0 = (Ret (r, four_todos), world0)
    /\ reported_percent r = Some (VFloat p)
    /\ (p == 50)%Q.
Proof.
  destruct (@progress_percent_rounded offline four_todos world0)
    as (r & E & _ & _ & Hp).
  destruct Hp as (p & Hr & _ & _ & _ & Hexact); [discriminate|].
  exists r, p. split; [exact E|]. split; [exact Hr|].
  rewrite (Hexact 50) by reflexivity. reflexivity.
Defined.

(** C8 does not hold up to the rounding of the ratio to two decimals
    either: with 23 of 160 todos completed the ratio is 14.375, but the
    product computed in double precision lies below it, and the report says
    14.37 where the ratio rounds to 14.38. *)
Lemma percent_of_23_in_160 :
  exists p,
    ProgressTracker.percent_complete 23 160 = VFloat p
    /\ (p == b64 (1437 # 100))%Q
    /\ (inject_Z 23 / inject_Z 160 * 100 == 14375 # 1000)%Q
    /\ (py_round (inject_Z 23 / inject_Z 160 * 100) 2 == 1438 # 100)%Q.
Proof.
  eexists. split; [reflexivity|].
  split; [vm_compute; reflexivity|]. split; vm_compute; reflexivity.
Qed.

(** ** HealthAggregator *)

Section HealthChecks.
Context `{Env}.

(** The components of the MCP tool: three, the last a constant, so that
    their reduction never yields "unhealthy". *)
Lemma mcp_health_components srv :
  post (MCPServer.health_components srv)
       (fun components =>
          map fst components = ["database"; "storage"; "edge_functions"]
          /\ (exists db st, map snd components = [db; st; "healthy"])
          /\ MCPServer.determine_overall (map snd components) <> "unhealthy").
Proof.
  unfold MCPServer.health_components.
  apply post_bind_any. intros db. apply post_bind_any. intros st.
  change (try_except (ret "healthy") (fun _ => ret "unhealthy")) with (ret "healthy").
  eapply post_bind with (P := fun edge => edge = "healthy");
    [apply post_ret; reflexivity|].
  intros edge ->. apply post_ret.
  split; [reflexivity|]. split; [exists db, st; reflexivity|].
  unfold MCPServer.determine_overall. simpl.
  destruct (String.eqb db "healthy"), (String.eqb st "healthy"); simpl; discriminate.
Qed.
End HealthChecks.

(** ** ExecutionStats *)




(** ** WorkflowOrchestrator *)

Section Keeps.
Context `{Env}.
Context {X : Type}.
Variable view : list Event -> X.
Hypothesis view_http : forall tr r, view (tr ++ [EvHttp r]) = view tr.
Hypothesis view_sleep : forall tr s, view (tr ++ [EvSleep s]) = view tr.

Lemma keeps_time_time : keeps view time_time.
Proof. intros w res w' E. inversion E; reflexivity. Qed.

Lemma keeps_utcnow_iso : keeps view utcnow_iso.
Proof. intros w res w' E. inversion E; reflexivity. Qed.

Lemma keeps_new_uuid : keeps view new_uuid.
Proof. intros w res w' E. inversion E; reflexivity. Qed.

Lemma keeps_asyncio_sleep s : keeps view (asyncio_sleep s).
Proof. intros w res w' E. inversion E; subst; simpl. apply view_sleep. Qed.

Lemma keeps_http r : keeps view (http r).
Proof. intros w res w' E. inversion E; subst; simpl. apply view_http. Qed.

Lemma keeps_log_event e :
  (forall tr, view (tr ++ [e]) = view tr) -> keeps view (log_event e).
Proof. intros He w res w' E. inversion E; subst; simpl. apply He. Qed.
End Keeps.

Ltac keeps_step :=
  lazymatch goal with
  | |- keeps _ (bind _ _) => apply keeps_bind; [| intros ?]
  | |- keeps _ (try_except _ _) => apply keeps_try; [| intros ?]
  | |- keeps _ (ret _) => apply keeps_ret
  | |- keeps _ (raise _) => apply keeps_raise
  | |- keeps _ time_time => apply keeps_time_time
  | |- keeps _ utcnow_iso => apply keeps_utcnow_iso
  | |- keeps _ new_uuid => apply keeps_new_uuid
  | |- keeps _ (asyncio_sleep _) => apply keeps_asyncio_sleep; assumption
  | |- keeps _ (http _) => apply keeps_http; assumption
  | |- keeps _ (if ?b then _ else _) => destruct b
  | |- keeps _ (match ?x with _ => _ end) => destruct x
  | |- keeps _ (let (_, _) := ?x in _) => destruct x
  end.

Section KeepsOps.
Context `{Env}.
Context {X : Type}.
Variable view : list Event -> X.
Hypothesis view_http : forall tr r, view (tr ++ [EvHttp r]) = view tr.
Hypothesis view_sleep : forall tr s, view (tr ++ [EvSleep s]) = view tr.

Lemma keeps_client_request r : keeps view (client_request r).
Proof. unfold client_request. repeat keeps_step. Qed.

Lemma keeps_response_json r : keeps view (response_json r).
Proof. unfold response_json. repeat keeps_step. Qed.

Lemma keeps_init s d e m : keeps view (Envelope.init s d e m).
Proof. unfold Envelope.init. repeat keeps_step. Qed.

Lemma keeps_py_get v k d : keeps view (py_get v k d).
Proof. unfold py_get. repeat keeps_step. Qed.

Lemma keeps_py_iter v : keeps view (py_iter v).
Proof. unfold py_iter. repeat keeps_step. Qed.

Lemma keeps_mapM {A B} (f : A -> M B) l :
  (forall a, keeps view (f a)) -> keeps view (mapM f l).
Proof.
  intros Hf. induction l as [|a l IH]; simpl; [apply keeps_ret|].
  apply keeps_bind; [apply Hf|]. intros b.
  apply keeps_bind; [exact IH|]. intros bs. apply keeps_ret.
Qed.

Lemma keeps_filterM {A} (f : A -> M bool) l :
  (forall a, keeps view (f a)) -> keeps view (filterM f l).
Proof.
  intros Hf. induction l as [|a l IH]; simpl; [apply keeps_ret|].
  apply keeps_bind; [apply Hf|]. intros b.
  apply keeps_bind; [exact IH|]. intros bs. apply keeps_ret.
Qed.

Lemma keeps_query_meta q : keeps view (DatabaseTool.query_meta q).
Proof. unfold DatabaseTool.query_meta. repeat keeps_step. Qed.

Lemma keeps_attempt tool q p op attempts :
  keeps view (DatabaseTool.attempt tool q p op attempts).
Proof.
  unfold DatabaseTool.attempt.
  repeat first [ keeps_step | apply keeps_client_request | apply keeps_response_json
               | apply keeps_init | apply keeps_query_meta ].
Qed.

Lemma keeps_retry_loop tool n q p retry op attempts last :
  keeps view (DatabaseTool.retry_loop tool n q p retry op attempts last).
Proof.
  revert attempts last. induction n as [|n IH]; intros attempts last; simpl.
  - apply keeps_ret.
  - apply keeps_try.
    + apply keeps_bind; [apply keeps_attempt | intros r; apply keeps_ret].
    + intros e. apply keeps_bind; [|intros _; apply IH].
      destruct ((attempts + 1 <? DatabaseTool.max_retries tool) && retry);
        [apply keeps_asyncio_sleep; assumption | apply keeps_ret].
Qed.

Lemma keeps_has_extension ext f : keeps view (StorageTool.has_extension ext f).
Proof.
  unfold StorageTool.has_extension. repeat first [keeps_step | apply keeps_py_get].
Qed.

Lemma keeps_process_file folder f : keeps view (StorageTool.process_file folder f).
Proof.
  unfold StorageTool.process_file. repeat first [keeps_step | apply keeps_py_get].
Qed.

Lemma keeps_list_files tool b f e : keeps view (StorageTool._list_files tool b f e).
Proof.
  unfold StorageTool._list_files.
  repeat first [ keeps_step | apply keeps_client_request | apply keeps_response_json
               | apply keeps_init | apply keeps_py_iter
               | apply keeps_mapM; intros ?; apply keeps_process_file
               | apply keeps_filterM; intros ?; apply keeps_has_extension ].
Qed.

Lemma keeps_context_make p s t e c : keeps view (WorkflowContext.make p s t e c).
Proof. unfold WorkflowContext.make. repeat keeps_step. Qed.
End KeepsOps.

Section Quiet.
Context `{Env}.

Lemma agent_runs_http tr r : agent_runs (tr ++ [EvHttp r]) = agent_runs tr.
Proof. apply agent_runs_snoc. discriminate. Qed.

Lemma agent_runs_sleep tr s : agent_runs (tr ++ [EvSleep s]) = agent_runs tr.
Proof. apply agent_runs_snoc. discriminate. Qed.

Lemma quiet_database_execute tool q p retry op :
  keeps agent_runs (DatabaseTool._execute tool q p retry op).
Proof.
  unfold DatabaseTool._execute.
  apply keeps_bind.
  { apply keeps_log_event. intros tr. apply agent_runs_snoc. discriminate. }
  intros _. apply keeps_bind.
  { apply (keeps_retry_loop agent_runs agent_runs_http agent_runs_sleep). }
  intros [r | attempts last]; [apply keeps_ret|].
  apply keeps_bind; [apply keeps_query_meta|]. intros qm.
  apply keeps_init.
Qed.

Lemma quiet_list_bucket self : keeps agent_runs (ORBITAgent.list_bucket self).
Proof.
  unfold ORBITAgent.list_bucket, StorageTool._execute. simpl.
  apply keeps_try; [|intros e; apply keeps_init].
  apply (keeps_list_files agent_runs agent_runs_http).
Qed.

Lemma quiet_probe_ai self : keeps agent_runs (ORBITAgent.probe_ai self).
Proof.
  pose proof agent_runs_sleep as Hsleep.
  unfold ORBITAgent.probe_ai, AIAnalysisTool._mock_analysis.
  repeat first [keeps_step | apply keeps_init].
Qed.

Lemma quiet_probe_metadata self : keeps agent_runs (ORBITAgent.probe_metadata self).
Proof.
  pose proof agent_runs_sleep as Hsleep.
  unfold ORBITAgent.probe_metadata, MetadataEmbedTool._mock_embed,
    MetadataEmbedTool.embedded_fields.
  repeat first [keeps_step | apply keeps_init].
Qed.

Lemma quiet_health_check self : keeps agent_runs (ORBITAgent.health_check self).
Proof.
  unfold ORBITAgent.health_check.
  repeat first [ keeps_step | apply quiet_database_execute | apply quiet_list_bucket
               | apply quiet_probe_ai | apply quiet_probe_metadata ].
Qed.

Lemma quiet_prepare_workflow_context self :
  keeps agent_runs (ORBITAgent.prepare_workflow_context self).
Proof.
  unfold ORBITAgent.prepare_workflow_context.
  repeat first [ keeps_step | apply quiet_database_execute | apply quiet_list_bucket
               | apply keeps_context_make | apply keeps_py_get ].
Qed.
End Quiet.

Section Workflow.
Context `{Env}.
Variable build_workflow_prompt : WorkflowContext.t -> string.

(** C9. When the health check does not report "unhealthy" and the context
    then built counts 0 pending orders, [execute_workflow] returns the
    success result with the message "No pending orders to process", and no
    agent run has been started. *)
Theorem no_pending_orders_no_agent_run
        (self : ORBITAgent.t) (specific_order_id : option string) (w : World)
        (health_status : ORBITAgent.HealthStatus) (self1 : ORBITAgent.t) (w1 : World)
        (ctx : WorkflowContext.t) (self2 : ORBITAgent.t) (w2 : World) :
  ORBITAgent.health_check
    (ORBITAgent.set_session self (ExecutionStats.make (now w))
                            ("orbit_" +:+ str_int (int_of_float (now w)))) w
  = (Ret (health_status, self1), w1) ->
  ORBITAgent.overall health_status <> "unhealthy" ->
  ORBITAgent.prepare_workflow_context self1 w1 = (Ret (ctx, self2), w2) ->
  ORBITAgent.eq_zero (WorkflowContext.pending_orders_count ctx) = true ->
  ORBITAgent.execute_workflow build_workflow_prompt self specific_order_id w
  = (Ret (sdict [("success", VBool true);
                 ("message", VStr "No pending orders to process");
                 ("stats", ExecutionStats.to_dict (ORBITAgent.stats self2));
                 ("context", WorkflowContext.asdict ctx)],
          self2), w2)
  /\ agent_runs (trace w2) = agent_runs (trace w).
Proof.
  intros Hh Hne Hp Hz. split.
  - unfold ORBITAgent.execute_workflow.
    unfold bind at 1. unfold time_time at 1.
    unfold bind at 1. unfold try_except at 1.
    unfold ORBITAgent.workflow_body. unfold bind at 1.
    rewrite Hh.
    destruct (String.eqb_spec (ORBITAgent.overall health_status) "unhealthy")
      as [Heq | _]; [contradiction|].
    unfold bind at 1. rewrite Hp. rewrite Hz. reflexivity.
  - rewrite (quiet_prepare_workflow_context _ _ _ _ Hp).
    exact (quiet_health_check _ _ _ _ Hh).
Qed.
End Workflow.

(** C9 in a world whose services all answer and which has no pending
    order. *)
Lemma no_pending_orders_no_agent_run_witness :
  exists result self' w',
    @ORBITAgent.execute_workflow nothing_pending demo_prompt demo_agent None world0
    = (Ret (result, self'), w')
    /\ (exists d, result = VDict d
                  /\ dict_get "success" d = Some (VBool true)
                  /\ dict_get "message" d = Some (VStr "No pending orders to process"))
    /\ agent_runs (trace w') = [].
Proof.
  edestruct (@no_pending_orders_no_agent_run nothing_pending demo_prompt demo_agent
               None world0) as [E Hq].
  - vm_compute. reflexivity.
  - vm_compute. discriminate.
  - vm_compute. reflexivity.
  - vm_compute. reflexivity.
  - eexists. eexists. eexists. split; [exact E|]. split.
    + eexists. split; [reflexivity|]. split; reflexivity.
    + exact Hq.
Defined.

(** ** Faults do not escape the executor and the health check *)

Section NoFault.
Context `{Env}.

Lemma total_post {A} (m : M A) (P : A -> Prop) :
  total m -> post m P -> forall w, exists a w', m w = (Ret a, w') /\ P a.
Proof.
  intros Ht Hp w. destruct (Ht w) as (a & w' & E).
  exists a, w'. split; [exact E | exact (Hp _ _ _ E)].
Qed.

Lemma try_except_total_body {A} (m : M A) (h : string -> M A) w :
  total m -> try_except m h w = m w.
Proof.
  intros Ht. destruct (Ht w) as (a & w' & E). unfold try_except. rewrite E.
  reflexivity.
Qed.

Lemma total_init s d e m : total (Envelope.init s d e m).
Proof. intros w. eexists. eexists. reflexivity. Qed.

Lemma total_asyncio_sleep s : total (asyncio_sleep s).
Proof. intros w. eexists. eexists. reflexivity. Qed.

(** The fuel of the retry loop is exact: the loop is left without a result
    only after [n] more failed attempts. *)
Lemma retry_loop_exhausted tool n q p retry op attempts last :
  post (DatabaseTool.retry_loop tool n q p retry op attempts last)
       (fun ex => match ex with
                  | DatabaseTool.Exhausted a _ => a = attempts + Z.of_nat n
                  | DatabaseTool.Returned _ => True
                  end).
Proof.
  revert attempts last. induction n as [|n IH]; intros attempts last.
  - apply post_ret. simpl. lia.
  - cbn [DatabaseTool.retry_loop]. apply post_try.
    + apply post_bind_any. intros r. apply post_ret. exact I.
    + intros e. apply post_bind_any. intros _.
      intros w ex w' E. pose proof (IH _ _ _ _ _ E) as Hex.
      destruct ex; [exact I | lia].
Qed.

Lemma total_retry_loop tool n q p retry op attempts last :
  total (DatabaseTool.retry_loop tool n q p retry op attempts last).
Proof.
  revert attempts last. induction n as [|n IH]; intros attempts last.
  - apply total_ret.
  - cbn [DatabaseTool.retry_loop]. apply total_try. intros e.
    apply total_bind; [|intros _; apply IH].
    destruct ((attempts + 1 <? DatabaseTool.max_retries tool) && retry);
      [apply total_asyncio_sleep | apply total_ret].
Qed.

(** With a query text, [DatabaseTool._execute] always returns an envelope. *)
Lemma total_database_execute tool q p retry op :
  total (DatabaseTool._execute tool (Some q) p retry op).
Proof.
  unfold DatabaseTool._execute.
  apply total_bind; [intros w; eexists; eexists; reflexivity|]. intros _.
  apply total_bind; [apply total_retry_loop|].
  intros [r | attempts last]; [apply total_ret|].
  apply total_bind; [apply total_ret | intros qm; apply total_init].
Qed.

(** [StorageTool._execute] always returns an envelope. *)
Lemma total_storage_execute tool op b p c ct fp ex fo fe :
  total (StorageTool._execute tool op b p c ct fp ex fo fe).
Proof. unfold StorageTool._execute. apply total_try. intros e. apply total_init. Qed.

Lemma total_probe_ai self : total (ORBITAgent.probe_ai self).
Proof.
  unfold ORBITAgent.probe_ai.
  destruct (negb _ && _); [|apply total_ret].
  apply total_try. intros e. apply total_ret.
Qed.

Lemma total_probe_metadata self : total (ORBITAgent.probe_metadata self).
Proof.
  unfold ORBITAgent.probe_metadata.
  destruct (negb _ && _); [|apply total_ret].
  apply total_try. intros e. apply total_ret.
Qed.

(** The health check of the agent never reaches its outer handler: it
    returns the four components, and the overall status is their
    reduction. *)
Lemma agent_health_check_returns self w :
  exists hs self' w',
    ORBITAgent.health_check self w = (Ret (hs, self'), w')
    /\ ORBITAgent.hs_error hs = None
    /\ map fst (ORBITAgent.components hs)
       = ["database"; "storage"; "ai_analysis"; "metadata_embed"]
    /\ ORBITAgent.overall hs
       = ORBITAgent.determine_overall (map snd (ORBITAgent.components hs)).
Proof.
  unfold ORBITAgent.health_check. unfold bind at 1. unfold utcnow_iso at 1.
  match goal with
  | |- context [try_except ?m ?h w] =>
      assert (Hbody : total m);
      [| rewrite (try_except_total_body m h w Hbody);
         destruct (total_post m
                     (fun p => ORBITAgent.hs_error (fst p) = None
                               /\ map fst (ORBITAgent.components (fst p))
                                  = ["database"; "storage"; "ai_analysis";
                                     "metadata_embed"]
                               /\ ORBITAgent.overall (fst p)
                                  = ORBITAgent.determine_overall
                                      (map snd (ORBITAgent.components (fst p))))
                     Hbody) with (w := w) as ([hs self'] & w' & E & Hp) ]
  end.
  - apply total_bind; [apply total_database_execute|]. intros db_result.
    apply total_bind; [apply total_storage_execute|]. intros storage_result.
    apply total_bind; [apply total_probe_ai|]. intros [ai_healthy ai_details].
    apply total_bind; [apply total_probe_metadata|]. intros [md_healthy md_details].
    apply total_ret.
  - apply post_bind_any. intros db_result.
    apply post_bind_any. intros storage_result.
    apply post_bind_any. intros [ai_healthy ai_details].
    apply post_bind_any. intros [md_healthy md_details].
    apply post_ret. simpl. repeat split.
  - exists hs, self', w'. split; [exact E | exact Hp].
Qed.
End NoFault.

(** ** What the transaction coordinator does in general *)

Section Transactions.
Context `{Env}.
Variable tool : DatabaseTool.t.

Lemma executed_http tr r : executed (tr ++ [EvHttp r]) = executed tr.
Proof. apply executed_snoc. discriminate. Qed.

Lemma executed_sleep tr s : executed (tr ++ [EvSleep s]) = executed tr.
Proof. apply executed_snoc. discriminate. Qed.

(** One call of [DatabaseTool._execute] is one entry of [executed]. *)
Lemma executed_database_execute q p retry op w res w' :
  DatabaseTool._execute tool q p retry op w = (res, w') ->
  executed (trace w') = executed (trace w) ++ [q].
Proof.
  unfold DatabaseTool._execute. unfold bind at 1. unfold log_event at 1.
  intros E.
  match type of E with
  | bind ?m ?k ?w1 = _ =>
      assert (Hk : keeps executed (bind m k))
  end.
  { apply keeps_bind.
    - apply (keeps_retry_loop executed executed_http executed_sleep).
    - intros [r | attempts last]; [apply keeps_ret|].
      apply keeps_bind; [apply keeps_query_meta|]. intros qm. apply keeps_init. }
  rewrite (Hk _ _ _ E). simpl. unfold executed. rewrite omap_app. reflexivity.
Qed.

(** The transaction reports success as soon as BEGIN has been issued and
    every step has succeeded: the envelope of the COMMIT marker, [commit],
    is not examined. *)
Lemma commit_result_ignored queries w begin w1 results w2 commit w3 :
  DatabaseTool._execute tool (Some "BEGIN") None true "transaction_begin"
    (snd (new_uuid w)) = (Ret begin, w1) ->
  DatabaseTool.run_queries tool queries 0 [] w1 = (Ret results, w2) ->
  DatabaseTool._execute tool (Some "COMMIT") None true "transaction_commit" w2
  = (Ret commit, w3) ->
  exists r,
    DatabaseTool.execute_transaction tool queries w = (Ret r, w3)
    /\ success r = true /\ error r = None /\ data r = VList results.
Proof.
  intros Hb Hq Hc. unfold DatabaseTool.execute_transaction.
  unfold bind at 1. simpl in Hb. simpl.
  unfold bind at 1. unfold time_time at 1.
  unfold try_except at 1. unfold bind at 1. rewrite Hb.
  unfold bind at 1. rewrite Hq.
  unfold bind at 1. rewrite Hc.
  eexists. split; [reflexivity|]. simpl. auto.
Qed.

(** A transaction whose first step succeeds and whose second fails:
    whatever steps follow are not run, the result is the failure naming
    step 2 and its error, and ROLLBACK is entered twice. *)
Lemma second_step_failure qd1 qd2 queries s1 s2 w begin w1 r1 w2 r2 w3 :
  DatabaseTool.query_of qd1 = Some s1 ->
  DatabaseTool.query_of qd2 = Some s2 ->
  DatabaseTool._execute tool (Some "BEGIN") None true "transaction_begin"
    (snd (new_uuid w)) = (Ret begin, w1) ->
  DatabaseTool._execute tool (Some s1)
    (Some (default [] (DatabaseTool.q_params qd1))) false "query" w1
  = (Ret r1, w2) ->
  success r1 = true ->
  DatabaseTool._execute tool (Some s2)
    (Some (default [] (DatabaseTool.q_params qd2))) false "query" w2
  = (Ret r2, w3) ->
  success r2 = false ->
  exists r w',
    DatabaseTool.execute_transaction tool (qd1 :: qd2 :: queries) w = (Ret r, w')
    /\ success r = false
    /\ error r = Some ("Query 2 failed: " +:+ str_opt (error r2))
    /\ executed (trace w')
       = executed (trace w)
         ++ [Some "BEGIN"; Some s1; Some s2; Some "ROLLBACK"; Some "ROLLBACK"].
Proof.
  intros Hq1 Hq2 Hb H1 Hs1 H2 Hs2.
  destruct (total_database_execute tool "ROLLBACK" None true
              "transaction_rollback" w3) as (rb1 & w4 & E4).
  destruct (total_database_execute tool "ROLLBACK" None true
              "transaction_rollback" w4) as (rb2 & w5 & E5).
  unfold DatabaseTool.execute_transaction.
  unfold bind at 1. simpl in Hb. simpl.
  unfold bind at 1. unfold time_time at 1.
  unfold try_except at 1. unfold bind at 1. rewrite Hb.
  unfold bind at 1. cbn [DatabaseTool.run_queries].
  rewrite Hq1, Hq2.
  unfold bind at 1. rewrite H1, Hs1. cbn [negb].
  unfold bind at 1. rewrite H2, Hs2. cbn [negb].
  unfold bind at 1. rewrite E4. unfold raise at 1.
  unfold bind at 1. unfold try_except at 1. unfold bind at 1. rewrite E5.
  eexists. eexists. split; [reflexivity|]. simpl.
  split; [reflexivity|]. split; [reflexivity|].
  rewrite (executed_database_execute _ _ _ _ _ _ _ E5).
  rewrite (executed_database_execute _ _ _ _ _ _ _ E4).
  rewrite (executed_database_execute _ _ _ _ _ _ _ H2).
  rewrite (executed_database_execute _ _ _ _ _ _ _ H1).
  rewrite (executed_database_execute _ _ _ _ _ _ _ Hb).
  rewrite <- !app_assoc. reflexivity.
Qed.
End Transactions.

(** * Further properties *)

(** ** The retry loop in general *)

Lemma outcome_cases (o : HttpOutcome) :
  (exists e, fault_of o = Some e) \/ (exists rows, rows_of o = Some rows).
Proof.
  destruct o as [msg | r]; simpl; [left; eauto|].
  destruct (status_code r =? 200); simpl; [|left; eauto].
  destruct (json r); [left | right]; eauto.
Qed.

Lemma backoff_from_S a k :
  backoff_from a (S k) = inject_Z (2 ^ (a + 1)) :: backoff_from (a + 1) k.
Proof.
  unfold backoff_from. simpl. f_equal.
  rewrite <- seq_shift, map_map. apply map_ext. intros i.
  do 2 f_equal. lia.
Qed.

Lemma sleeps_app tr tr' : sleeps (tr ++ tr') = sleeps tr ++ sleeps tr'.
Proof. unfold sleeps. apply omap_app. Qed.

Section RetryProfile.
Context `{Env}.
Variable tool : DatabaseTool.t.
Variables (q : string) (params : option (list PyVal)) (op : string).

Lemma retry_loop_profile n :
  forall attempts last w,
    attempts + Z.of_nat n = DatabaseTool.max_retries tool ->
    exists ex w',
      DatabaseTool.retry_loop tool n (Some q) params true op attempts last w
      = (Ret ex, w')
      /\ loop_profile (DatabaseTool.max_retries tool) n attempts last w ex w'.
Proof.
  induction n as [|n IH]; intros attempts last w Hn.
  - exists (DatabaseTool.Exhausted attempts last), w. split; [reflexivity|].
    simpl. rewrite app_nil_r. repeat split; try lia. 
  - cbn [DatabaseTool.retry_loop]. unfold try_except at 1. unfold bind at 1.
    destruct (outcome_cases
                (respond (calls w) (DatabaseTool.rpc_request tool (Some q) params)))
      as [[e He] | [rows Hrows]].
    + rewrite (attempt_fault tool q params op attempts w e He).
      unfold bind at 1.
      destruct n as [|n'].
      * assert (Hlt : (attempts + 1 <? DatabaseTool.max_retries tool) = false)
          by (apply Z.ltb_ge; lia).
        rewrite Hlt. cbn [andb]. unfold ret at 1.
        destruct (IH (attempts + 1) (Some e) (snd (http
                     (DatabaseTool.rpc_request tool (Some q) params) w)))
          as (ex & w' & E & Hp); [lia|].
        exists ex, w'. split; [exact E|].
        simpl in E. inversion E; subst; clear E. simpl.
        rewrite sleeps_app. simpl. rewrite !app_nil_r.
        repeat split; try lia. eauto.
      * assert (Hlt : (attempts + 1 <? DatabaseTool.max_retries tool) = true)
          by (apply Z.ltb_lt; lia).
        rewrite Hlt. cbn [andb]. unfold asyncio_sleep at 1.
        match goal with
        | |- context [DatabaseTool.retry_loop _ _ _ _ _ _ _ _ ?w1] =>
            destruct (IH (attempts + 1) (Some e) w1) as (ex & w' & E & Hp); [lia|]
        end.
        exists ex, w'. split; [exact E|].
        unfold loop_profile in *. cbn [calls trace snd http] in Hp.
        rewrite !sleeps_app in Hp. cbn [sleeps omap] in Hp.
        change (sleeps [EvHttp (DatabaseTool.rpc_request tool (Some q) params)])
          with (@nil Q) in Hp.
        change (sleeps [EvSleep (inject_Z (2 ^ (attempts + 1)))])
          with [inject_Z (2 ^ (attempts + 1))] in Hp.
        rewrite app_nil_r in Hp.
        destruct ex as [r | a l].
        -- destruct Hp as (k & Hk & Hc & Hs & Hok & Ha).
           exists (S k). repeat split; try lia; try assumption.
           ++ rewrite Hs, backoff_from_S. rewrite <- !app_assoc. reflexivity.
           ++ rewrite Ha. do 2 f_equal. lia.
        -- destruct Hp as (Hc & Hs & Ha & Hl).
           repeat split; try lia; try assumption.
           rewrite Hs. cbn [pred]. rewrite backoff_from_S.
           rewrite <- !app_assoc. reflexivity.
    + destruct (attempt_rows tool q params op attempts w rows Hrows)
        as (r & Er & Hs & _ & _ & Ha).
      rewrite Er. unfold ret at 1.
      exists (DatabaseTool.Returned r). eexists. split; [reflexivity|].
      simpl. exists 0%nat. rewrite sleeps_app. simpl. rewrite !app_nil_r.
      repeat split; try lia; try assumption.
      rewrite Ha. do 2 f_equal. lia.
Qed.
End RetryProfile.

Section RetryBounds.
Context `{Env}.
Variable tool : DatabaseTool.t.
Variables (q : string) (params : option (list PyVal)) (op : string).

Local Abbreviation req := (DatabaseTool.rpc_request tool (Some q) params).

(** X1. For a query text and at least one allowed attempt,
    [DatabaseTool._execute] with retries returns an envelope after [k + 1]
    requests for some [k] below [max_retries]; it has then slept exactly
    2, 4, ..., [2^k] seconds, one backoff after each failed attempt but the
    last allowed one, the envelope records [k + 1] attempts, and a failure
    is returned only when all [max_retries] attempts were used. *)
Theorem retry_backoff_profile (w : World) :
  1 <= DatabaseTool.max_retries tool ->
  exists k r w',
    Z.of_nat k < DatabaseTool.max_retries tool
    /\ DatabaseTool._execute tool (Some q) params true op w = (Ret r, w')
    /\ calls w' = (calls w + S k)%nat
    /\ sleeps (trace w') = sleeps (trace w) ++ backoff_from 0 k
    /\ assoc_get "attempts" (metadata r) = Some (VInt (Z.of_nat k + 1))
    /\ (success r = false -> Z.of_nat k + 1 = DatabaseTool.max_retries tool).
Proof.
  intros Hmax. unfold DatabaseTool._execute, DatabaseTool.loop_limit.
  unfold bind at 1. unfold log_event at 1. unfold bind at 1.
  match goal with
  | |- context [DatabaseTool.retry_loop _ ?n _ _ _ _ _ _ ?w1] =>
      destruct (retry_loop_profile tool q params op n 0 None w1)
        as (ex & w' & E & Hp); [lia|]
  end.
  rewrite E. unfold loop_profile in Hp. cbn [calls trace] in Hp.
  rewrite sleeps_app in Hp.
  change (sleeps [EvExecute (Some q) op]) with (@nil Q) in Hp.
  rewrite app_nil_r in Hp.
  destruct ex as [r | a l].
  - destruct Hp as (k & Hk & Hc & Hs & Hok & Ha).
    exists k, r, w'. repeat split; try assumption; try lia.
    intros Hf. congruence.
  - destruct Hp as (Hc & Hs & Ha & Hl).
    exists (pred (Z.to_nat (DatabaseTool.max_retries tool))).
    eexists. eexists. split; [lia|]. split; [reflexivity|]. simpl.
    split; [lia|]. split.
    { rewrite Hs. reflexivity. }
    split; [|intros _; lia].
    rewrite Ha. do 2 f_equal. lia.
Qed.

(** X2. With [max_retries] at most 0 the retry loop of
    [DatabaseTool._execute] is never entered: no request is made, a query
    text yields the failure whose error is the text "None" (the string of
    the unset [last_error]) with 0 attempts, and a missing query text lets
    the [TypeError] of [len(None)] escape. *)
Theorem no_attempt_without_retries (query : option string) (w : World) :
  DatabaseTool.max_retries tool <= 0 ->
  match query with
  | Some text =>
      exists r,
        DatabaseTool._execute tool query params true op w
        = (Ret r, {| calls := calls w; uuids := uuids w; now := now w;
                     trace := trace w ++ [EvExecute query op] |})
        /\ success r = false
        /\ error r = Some "None"
        /\ assoc_get "attempts" (metadata r) = Some (VInt 0)
  | None =>
      DatabaseTool._execute tool query params true op w
      = (Raise "object of type 'NoneType' has no len()",
         {| calls := calls w; uuids := uuids w; now := now w;
            trace := trace w ++ [EvExecute query op] |})
  end.
Proof.
  intros Hmax. unfold DatabaseTool._execute, DatabaseTool.loop_limit.
  assert (Hn : Z.to_nat (DatabaseTool.max_retries tool) = 0%nat) by lia.
  rewrite Hn. destruct query as [text|]; simpl.
  - eexists. split; [reflexivity|]. simpl. auto.
  - reflexivity.
Qed.
End RetryBounds.

(** ** Transactions of any length *)

Section Grows.
Context `{Env}.

Lemma grows_same {A} (m : M A) :
  (forall w res w', m w = (res, w') -> trace w' = trace w) -> grows m.
Proof. intros Hm w res w' E. exists []. rewrite app_nil_r. eauto. Qed.

Lemma grows_ret {A} (a : A) : grows (ret a).
Proof. apply grows_same. intros w res w' E. inversion E; reflexivity. Qed.

Lemma grows_raise {A} e : grows (@raise A e).
Proof. apply grows_same. intros w res w' E. inversion E; reflexivity. Qed.

Lemma grows_bind {A B} (m : M A) (k : A -> M B) :
  grows m -> (forall a, grows (k a)) -> grows (bind m k).
Proof.
  intros Hm Hk w res w' E. unfold bind in E.
  destruct (m w) as [[a | e] w1] eqn:Em.
  - destruct (Hm _ _ _ Em) as (tr1 & H1). destruct (Hk _ _ _ _ E) as (tr2 & H2).
    exists (tr1 ++ tr2). rewrite H2, H1, app_assoc. reflexivity.
  - inversion E; subst. exact (Hm _ _ _ Em).
Qed.

Lemma grows_try {A} (m : M A) (h : string -> M A) :
  grows m -> (forall e, grows (h e)) -> grows (try_except m h).
Proof.
  intros Hm Hh w res w' E. unfold try_except in E.
  destruct (m w) as [[a | e] w1] eqn:Em.
  - inversion E; subst. exact (Hm _ _ _ Em).
  - destruct (Hm _ _ _ Em) as (tr1 & H1). destruct (Hh _ _ _ _ E) as (tr2 & H2).
    exists (tr1 ++ tr2). rewrite H2, H1, app_assoc. reflexivity.
Qed.

Lemma grows_step {A} (m : M A) :
  (forall w, exists e, trace (snd (m w)) = trace w ++ [e]) -> grows m.
Proof.
  intros Hm w res w' E. destruct (Hm w) as (e & He). rewrite E in He.
  exists [e]. exact He.
Qed.

Lemma grows_database_execute tool q p retry op :
  grows (DatabaseTool._execute tool q p retry op).
Proof.
  assert (Hinit : forall s d e m, grows (Envelope.init s d e m)).
  { intros. apply grows_same. intros w res w' E. inversion E; reflexivity. }
  assert (Hmeta : forall q', grows (DatabaseTool.query_meta q')).
  { intros [x|]; [apply grows_ret | apply grows_raise]. }
  assert (Htime : grows time_time).
  { apply grows_same. intros w res w' E. inversion E; reflexivity. }
  unfold DatabaseTool._execute.
  apply grows_bind; [apply grows_step; intros w; eexists; reflexivity|].
  intros _. apply grows_bind.
  - generalize (Z.to_nat (DatabaseTool.loop_limit tool retry)).
    generalize 0. generalize (@None string).
    intros last attempts n. revert last attempts.
    induction n as [|n IH]; intros last attempts; simpl; [apply grows_ret|].
    apply grows_try.
    + apply grows_bind; [|intros r; apply grows_ret].
      unfold DatabaseTool.attempt.
      apply grows_bind; [exact Htime|]. intros t0.
      apply grows_bind.
      { unfold client_request. apply grows_bind.
        - apply grows_step. intros w; eexists; reflexivity.
        - intros [msg | r]; [apply grows_raise | apply grows_ret]. }
      intros response. apply grows_bind; [exact Htime|]. intros t1.
      destruct (negb (status_code response =? 200)); [apply grows_raise|].
      apply grows_bind.
      { unfold response_json. destruct (json response);
          [apply grows_raise | apply grows_ret]. }
      intros d. apply grows_bind; [apply Hmeta | intros qm; apply Hinit].
    + intros e. apply grows_bind; [|intros _; apply IH].
      destruct ((attempts + 1 <? DatabaseTool.max_retries tool) && retry);
        [|apply grows_ret].
      apply grows_step. intros w; eexists; reflexivity.
  - intros [r | a l]; [apply grows_ret|].
    apply grows_bind; [apply Hmeta | intros qm; apply Hinit].
Qed.
End Grows.

Section TransactionSteps.
Context `{Env}.
Variable tool : DatabaseTool.t.

Lemma steps_succeed_length queries w rs w' :
  steps_succeed tool queries w rs w' -> length rs = length queries.
Proof. induction 1; simpl; congruence. Qed.

Lemma steps_succeed_executed queries w rs w' :
  steps_succeed tool queries w rs w' ->
  executed (trace w') = executed (trace w) ++ map DatabaseTool.query_of queries.
Proof.
  induction 1 as [w | qd rest text w r w1 rs w' Hq E Hs Hrest IH]; simpl.
  - rewrite app_nil_r. reflexivity.
  - rewrite IH. rewrite (executed_database_execute tool _ _ _ _ _ _ _ E).
    rewrite Hq. rewrite <- app_assoc. reflexivity.
Qed.

(** The loop over a prefix of succeeding steps. *)
Lemma run_queries_prefix prefix w rs w1 :
  steps_succeed tool prefix w rs w1 ->
  forall rest i acc,
    DatabaseTool.run_queries tool (prefix ++ rest) i acc w
    = DatabaseTool.run_queries tool rest (i + Z.of_nat (length prefix))
        (acc ++ map Envelope.to_dict rs) w1.
Proof.
  induction 1 as [w | qd more text w r w1 rs w' Hq E Hs Hrest IH];
    intros rest i acc.
  - simpl. rewrite Z.add_0_r, app_nil_r. reflexivity.
  - cbn [app DatabaseTool.run_queries]. rewrite Hq.
    unfold bind at 1. rewrite E, Hs. cbn [negb].
    rewrite IH. cbn [length map]. rewrite <- app_assoc.
    f_equal. lia.
Qed.

Lemma execute_transaction_unfold queries w :
  DatabaseTool.execute_transaction tool queries w
  = let w0 := snd (new_uuid w) in
    try_except
      (do! DatabaseTool._execute tool (Some "BEGIN") None true "transaction_begin" in
       let! results := DatabaseTool.run_queries tool queries 0 [] in
       do! DatabaseTool._execute tool (Some "COMMIT") None true "transaction_commit" in
       let! end_time := time_time in
       Envelope.init true (VList results) None
         (Some [("transaction_id", VStr (uuid4 (uuids w)));
                ("queries_executed", VInt (Z.of_nat (length queries)));
                ("duration_seconds", VFloat (py_round (end_time - now w)%Q 3))]))
      (fun error =>
         do! try_except
               (do! DatabaseTool._execute tool (Some "ROLLBACK") None true
                                          "transaction_rollback" in
                ret tt)
               (fun _ => ret tt) in
         Envelope.init false VNone (Some error)
           (Some [("transaction_id", VStr (uuid4 (uuids w)));
                  ("queries_attempted", VInt (Z.of_nat (length queries)))]))
      w0.
Proof. reflexivity. Qed.

(** X3. When BEGIN is issued and every step of a
    transaction succeeds, [execute_transaction] reports success with one
    result per step, in order, counts [len(queries)] queries, and has
    entered [_execute] for BEGIN, each step once in order, and COMMIT, and
    for nothing else. *)
Theorem transaction_commits_once queries w begin w1 rs w2 :
  DatabaseTool._execute tool (Some "BEGIN") None true "transaction_begin"
    (snd (new_uuid w)) = (Ret begin, w1) ->
  steps_succeed tool queries w1 rs w2 ->
  exists r w',
    DatabaseTool.execute_transaction tool queries w = (Ret r, w')
    /\ success r = true
    /\ data r = VList (map Envelope.to_dict rs)
    /\ length rs = length queries
    /\ assoc_get "queries_executed" (metadata r)
       = Some (VInt (Z.of_nat (length queries)))
    /\ executed (trace w')
       = executed (trace w) ++ [Some "BEGIN"]
         ++ map DatabaseTool.query_of queries ++ [Some "COMMIT"].
Proof.
  intros Hb Hsteps.
  destruct (total_database_execute tool "COMMIT" None true "transaction_commit" w2)
    as (commit & w3 & Ec).
  rewrite execute_transaction_unfold. cbv zeta.
  unfold try_except at 1. unfold bind at 1. rewrite Hb.
  unfold bind at 1.
  pose proof (run_queries_prefix queries w1 rs w2 Hsteps [] 0 []) as Hrun.
  rewrite app_nil_r in Hrun. rewrite Hrun. cbn [DatabaseTool.run_queries].
  unfold ret at 1. unfold bind at 1. rewrite Ec.
  eexists. eexists. split; [reflexivity|]. cbn [app].
  split; [reflexivity|]. split; [reflexivity|].
  split; [exact (steps_succeed_length _ _ _ _ Hsteps)|].
  split; [reflexivity|].
  cbn [trace]. rewrite (executed_database_execute tool _ _ _ _ _ _ _ Ec).
  rewrite (steps_succeed_executed _ _ _ _ Hsteps).
  rewrite (executed_database_execute tool _ _ _ _ _ _ _ Hb).
  rewrite <- !app_assoc. reflexivity.
Qed.

(** X4. When the steps before some step
    succeed and that step fails, [execute_transaction] returns the failure
    "Query i failed: ..." with [i] the one-based position of the step and
    the error of its envelope; the steps after it are never run, and
    ROLLBACK is entered twice, once at the failing step and once more in
    the handler. *)
Theorem transaction_stops_at_failure prefix qd rest text w begin w1 rs w2 r w3 :
  DatabaseTool._execute tool (Some "BEGIN") None true "transaction_begin"
    (snd (new_uuid w)) = (Ret begin, w1) ->
  steps_succeed tool prefix w1 rs w2 ->
  DatabaseTool.query_of qd = Some text ->
  DatabaseTool._execute tool (Some text)
    (Some (default [] (DatabaseTool.q_params qd))) false "query" w2
  = (Ret r, w3) ->
  success r = false ->
  exists result w',
    DatabaseTool.execute_transaction tool (prefix ++ qd :: rest) w
    = (Ret result, w')
    /\ success result = false
    /\ error result
       = Some ("Query " +:+ str_int (Z.of_nat (length prefix) + 1) +:+ " failed: "
               +:+ str_opt (error r))
    /\ assoc_get "queries_attempted" (metadata result)
       = Some (VInt (Z.of_nat (length (prefix ++ qd :: rest))))
    /\ executed (trace w')
       = executed (trace w) ++ [Some "BEGIN"]
         ++ map DatabaseTool.query_of prefix
         ++ [Some text; Some "ROLLBACK"; Some "ROLLBACK"].
Proof.
  intros Hb Hsteps Hq E Hs.
  destruct (total_database_execute tool "ROLLBACK" None true
              "transaction_rollback" w3) as (rb1 & w4 & E4).
  destruct (total_database_execute tool "ROLLBACK" None true
              "transaction_rollback" w4) as (rb2 & w5 & E5).
  rewrite execute_transaction_unfold. cbv zeta.
  unfold try_except at 1. unfold bind at 1. rewrite Hb.
  unfold bind at 1.
  rewrite (run_queries_prefix prefix w1 rs w2 Hsteps (qd :: rest) 0 []).
  cbn [DatabaseTool.run_queries]. rewrite Hq.
  unfold bind at 1. rewrite E, Hs. cbn [negb].
  unfold bind at 1. rewrite E4. unfold raise at 1.
  unfold bind at 1. unfold try_except at 1. unfold bind at 1. rewrite E5.
  eexists. eexists.
  split; [reflexivity|]. cbn [app].
  split; [reflexivity|]. split; [reflexivity|]. split; [reflexivity|].
  cbn [trace]. rewrite (executed_database_execute tool _ _ _ _ _ _ _ E5).
  rewrite (executed_database_execute tool _ _ _ _ _ _ _ E4).
  rewrite (executed_database_execute tool _ _ _ _ _ _ _ E).
  rewrite (steps_succeed_executed _ _ _ _ Hsteps).
  rewrite (executed_database_execute tool _ _ _ _ _ _ _ Hb).
  rewrite <- !app_assoc. reflexivity.
Qed.

(** A step without a query text: one request with a null query is made,
    and its answer is dropped. *)
Lemma step_without_query params op w :
  exists w',
    DatabaseTool._execute tool None params false op w
    = (Raise "object of type 'NoneType' has no len()", w')
    /\ trace w' = trace w ++ [EvExecute None op;
                              EvHttp (DatabaseTool.rpc_request tool None params)].
Proof.
  unfold DatabaseTool._execute, DatabaseTool.loop_limit.
  change (Z.to_nat 1) with 1%nat.
  cbv beta iota delta [DatabaseTool.retry_loop DatabaseTool.attempt bind
                         try_except log_event time_time client_request http ret
                         raise response_json DatabaseTool.query_meta].
  cbn [calls trace now uuids].
  destruct (respond (calls w) (DatabaseTool.rpc_request tool None params))
    as [msg | response].
  - rewrite andb_false_r. eexists. split; [reflexivity|].
    cbn [trace]. rewrite <- app_assoc. reflexivity.
  - cbv beta iota.
    destruct (negb (status_code response =? 200)).
    + rewrite andb_false_r. eexists. split; [reflexivity|].
      cbn [trace]. rewrite <- app_assoc. reflexivity.
    + destruct (json response); rewrite andb_false_r;
        (eexists; split; [reflexivity|]);
        cbn [trace]; rewrite <- app_assoc; reflexivity.
Qed.

(** X5. A step with neither [sql] nor [query]
    aborts the transaction with the [TypeError] of [len(None)] as its
    error; the request with a null query has been sent all the same, the
    steps after it are not run, and ROLLBACK is entered once. *)
Theorem transaction_step_without_query prefix qd rest w begin w1 rs w2 :
  DatabaseTool._execute tool (Some "BEGIN") None true "transaction_begin"
    (snd (new_uuid w)) = (Ret begin, w1) ->
  steps_succeed tool prefix w1 rs w2 ->
  DatabaseTool.query_of qd = None ->
  exists result w',
    DatabaseTool.execute_transaction tool (prefix ++ qd :: rest) w
    = (Ret result, w')
    /\ success result = false
    /\ error result = Some "object of type 'NoneType' has no len()"
    /\ executed (trace w')
       = executed (trace w) ++ [Some "BEGIN"]
         ++ map DatabaseTool.query_of prefix ++ [None; Some "ROLLBACK"]
    /\ In (EvHttp (DatabaseTool.rpc_request tool None
                     (Some (default [] (DatabaseTool.q_params qd)))))
          (trace w').
Proof.
  intros Hb Hsteps Hq.
  destruct (step_without_query (Some (default [] (DatabaseTool.q_params qd)))
              "query" w2) as (w3 & E & Htr).
  destruct (total_database_execute tool "ROLLBACK" None true
              "transaction_rollback" w3) as (rb & w4 & E4).
  rewrite execute_transaction_unfold. cbv zeta.
  unfold try_except at 1. unfold bind at 1. rewrite Hb.
  unfold bind at 1.
  rewrite (run_queries_prefix prefix w1 rs w2 Hsteps (qd :: rest) 0 []).
  cbn [DatabaseTool.run_queries]. rewrite Hq.
  unfold bind at 1. rewrite E.
  unfold bind at 1. unfold try_except at 1. unfold bind at 1. rewrite E4.
  eexists. eexists.
  split; [reflexivity|]. cbn [app].
  split; [reflexivity|]. split; [reflexivity|]. split.
  - cbn [trace]. rewrite (executed_database_execute tool _ _ _ _ _ _ _ E4).
    rewrite (executed_database_execute tool _ _ _ _ _ _ _ E).
    rewrite (steps_succeed_executed _ _ _ _ Hsteps).
    rewrite (executed_database_execute tool _ _ _ _ _ _ _ Hb).
    rewrite <- !app_assoc. reflexivity.
  - cbn [trace].
    destruct (grows_database_execute tool _ _ _ _ _ _ _ E4) as (tr & Hg).
    rewrite Hg, Htr. apply in_or_app. left. apply in_or_app. right.
    right. left. reflexivity.
Qed.
End TransactionSteps.

Lemma length_append (s1 s2 : string) :
  String.length (s1 +:+ s2) = (String.length s1 + String.length s2)%nat.
Proof. induction s1 as [|c s1 IH]; simpl; [reflexivity | rewrite IH; reflexivity]. Qed.

Lemma length_substring_0 (m : nat) (s : string) :
  String.length (String.substring 0 m s) = Nat.min m (String.length s).
Proof.
  revert m. induction s as [|c s IH]; intros [|m]; simpl; try reflexivity.
  rewrite IH. reflexivity.
Qed.

Lemma substring_0_append (m : nat) (s t : string) :
  (m <= String.length s)%nat ->
  String.substring 0 m (s +:+ t) = String.substring 0 m s.
Proof.
  revert m. induction s as [|c s IH]; intros [|m] Hm; simpl in *;
    try reflexivity; try lia.
  - destruct t; reflexivity.
  - rewrite IH by lia. reflexivity.
Qed.

Lemma substring_0_idem (m : nat) (s : string) :
  String.substring 0 m (String.substring 0 m s) = String.substring 0 m s.
Proof.
  revert m. induction s as [|c s IH]; intros [|m]; simpl; try reflexivity.
  rewrite IH. reflexivity.
Qed.

(** X6. The [query] entry of the metadata,
    [query[:100] + "..."] beyond 100 characters: it has 103 characters for
    a longer query and is the query itself otherwise, it starts with the
    same 100 characters as the query, and it is longer than the query
    exactly for queries of 101 and 102 characters. *)
Theorem truncate_query_length (q : string) :
  String.length (truncate_query q)
  = (if (100 <? String.length q)%nat then 103 else String.length q)%nat
  /\ String.substring 0 100 (truncate_query q) = String.substring 0 100 q
  /\ ((String.length q < String.length (truncate_query q))%nat
      <-> (String.length q = 101 \/ String.length q = 102)%nat).
Proof.
  unfold truncate_query.
  destruct (100 <? String.length q)%nat eqn:Hlen.
  - apply Nat.ltb_lt in Hlen.
    assert (Hl : String.length (String.substring 0 100 q +:+ "...") = 103%nat).
    { rewrite length_append, length_substring_0. simpl String.length. lia. }
    split; [exact Hl|]. split.
    + rewrite substring_0_append by (rewrite length_substring_0; lia).
      apply substring_0_idem.
    + rewrite Hl. lia.
  - apply Nat.ltb_ge in Hlen. split; [reflexivity|]. split; [reflexivity|]. lia.
Qed.

(** ** The ledger in general *)

Lemma set_todo_ids todo_id st ts l :
  map ProgressTracker.tid (ProgressTracker.set_todo todo_id st ts l)
  = map ProgressTracker.tid l.
Proof.
  induction l as [|td l IH]; simpl; [reflexivity|].
  destruct (decide (Some (ProgressTracker.tid td) = todo_id)); simpl;
    [reflexivity | rewrite IH; reflexivity].
Qed.

Lemma set_todo_bounds (P : Z -> Prop) todo_id st ts l :
  Forall (fun td => P (ProgressTracker.tid td)) l ->
  Forall (fun td => P (ProgressTracker.tid td))
         (ProgressTracker.set_todo todo_id st ts l).
Proof.
  induction 1 as [|td l Htd Hl IH]; simpl; [constructor|].
  destruct (decide (Some (ProgressTracker.tid td) = todo_id)); constructor; auto.
Qed.

Lemma find_set_same id st ts l td :
  ProgressTracker.find_todo (Some id) l = Some td ->
  ProgressTracker.find_todo (Some id) (ProgressTracker.set_todo (Some id) st ts l)
  = Some (restamp td st ts).
Proof.
  induction l as [|x l IH]; simpl; [discriminate|].
  destruct (decide (Some (ProgressTracker.tid x) = Some id)) as [Heq | Hne]; simpl.
  - intros Hx. inversion Hx; subst. rewrite decide_True by exact Heq. reflexivity.
  - intros Hx. rewrite decide_False by exact Hne. apply IH. exact Hx.
Qed.

Lemma find_set_other id j st ts l :
  j <> Some id ->
  ProgressTracker.find_todo j (ProgressTracker.set_todo (Some id) st ts l)
  = ProgressTracker.find_todo j l.
Proof.
  intros Hj. induction l as [|x l IH]; simpl; [reflexivity|].
  destruct (decide (Some (ProgressTracker.tid x) = Some id)) as [Heq | Hne]; simpl.
  - rewrite !decide_False by congruence. reflexivity.
  - destruct (decide (Some (ProgressTracker.tid x) = j)); [reflexivity | exact IH].
Qed.

Lemma find_todo_app_new id l td :
  (forall x, In x l -> ProgressTracker.tid x <> id) ->
  ProgressTracker.tid td = id ->
  ProgressTracker.find_todo (Some id) (l ++ [td]) = Some td.
Proof.
  intros Hl Htd. induction l as [|x l IH]; simpl.
  - rewrite decide_True by congruence. reflexivity.
  - rewrite decide_False.
    + apply IH. intros y Hy. apply Hl. right. exact Hy.
    + intros Heq. inversion Heq. apply (Hl x); [left; reflexivity | assumption].
Qed.

Lemma set_todo_app_new id st ts l td :
  (forall x, In x l -> ProgressTracker.tid x <> id) ->
  ProgressTracker.tid td = id ->
  ProgressTracker.set_todo (Some id) st ts (l ++ [td]) = l ++ [restamp td st ts].
Proof.
  intros Hl Htd. induction l as [|x l IH]; simpl.
  - rewrite decide_True by congruence. reflexivity.
  - rewrite decide_False.
    + rewrite IH; [reflexivity|]. intros y Hy. apply Hl. right. exact Hy.
    + intros Heq. inversion Heq. apply (Hl x); [left; reflexivity | assumption].
Qed.

Section LedgerOps.
Context `{Env}.

(** X7. [ProgressTrackerTool._execute]
    returns an envelope for every action and all arguments, in every state
    of the ledger, and leaves the world as it is (it only reads the clock);
    when the envelope reports failure the ledger is unchanged. *)
Theorem progress_tracker_is_pure (ledger : ProgressTracker.t) (action : string)
        (content : option string) (todo_id : option Z) (status : option string)
        (stat_update : option (gmap string PyVal)) (w : World) :
  exists r ledger',
    ProgressTracker._execute ledger action content todo_id status stat_update w
    = (Ret (r, ledger'), w)
    /\ (success r = false -> ledger' = ledger).
Proof.
  unfold ProgressTracker._execute.
  destruct (String.eqb action "add_todo");
    [eexists; eexists; split; [reflexivity | simpl; discriminate]|].
  destruct (String.eqb action "update_todo").
  { unfold ProgressTracker._update_todo.
    destruct (ProgressTracker.find_todo todo_id (ProgressTracker.todos ledger));
      eexists; eexists; (split; [reflexivity | simpl; congruence]). }
  destruct (String.eqb action "list_todos");
    [eexists; eexists; split; [reflexivity | simpl; discriminate]|].
  destruct (String.eqb action "get_progress");
    [eexists; eexists; split; [reflexivity | simpl; discriminate]|].
  destruct (String.eqb action "update_stats").
  { unfold ProgressTracker._update_stats, try_except, bind at 1.
    destruct (default ∅ stat_update !! "started_at") as [v|].
    - destruct ((default ∅ stat_update ∪ ProgressTracker.workflow_stats ledger)
                  !! "started_at") as [v'|].
      + destruct (truthy v'); simpl;
          eexists; eexists; (split; [reflexivity | simpl; discriminate]).
      + simpl. eexists; eexists; (split; [reflexivity | reflexivity]).
    - simpl. eexists; eexists; (split; [reflexivity | simpl; discriminate]). }
  destruct (String.eqb action "reset");
    [eexists; eexists; split; [reflexivity | simpl; discriminate]|].
  eexists; eexists; split; [reflexivity | reflexivity].
Qed.

(** X8. The ids of the ledger stay well formed under every
    action: if [next_id] is positive and the ids of the todos are distinct,
    positive and below [next_id], this holds again after
    [ProgressTrackerTool._execute], whatever the action and its
    arguments. *)
Theorem ledger_ids_stay_distinct (ledger : ProgressTracker.t) (action : string)
        (content : option string) (todo_id : option Z) (status : option string)
        (stat_update : option (gmap string PyVal)) (w w' : World)
        (r : ToolResult) (ledger' : ProgressTracker.t) :
  ledger_wf ledger ->
  ProgressTracker._execute ledger action content todo_id status stat_update w
  = (Ret (r, ledger'), w') ->
  ledger_wf ledger'.
Proof.
  intros (Hpos & Hnd & Hb) E.
  assert (Hsame : forall l, ProgressTracker.todos l = ProgressTracker.todos ledger ->
                            ProgressTracker.next_id l = ProgressTracker.next_id ledger ->
                            ledger_wf l).
  { intros l Ht Hn. unfold ledger_wf. rewrite Ht, Hn. auto. }
  unfold ProgressTracker._execute in E.
  destruct (String.eqb action "add_todo").
  { simpl in E. inversion E; subst; clear E. unfold ledger_wf. simpl.
    split; [lia|]. split.
    - rewrite map_app. simpl. apply NoDup_app. split; [exact Hnd|]. split.
      + intros x Hx Hx'. apply list_elem_of_singleton in Hx'. subst x.
        apply list_elem_of_In, List.in_map_iff in Hx.
        destruct Hx as (td & Htd & Hin).
        rewrite List.Forall_forall in Hb. specialize (Hb td Hin).
        simpl in Hb. lia.
      + apply NoDup_singleton.
    - apply Forall_app. split.
      + eapply Forall_impl; [exact Hb|]. simpl. intros; lia.
      + constructor; [|constructor]. simpl. lia. }
  destruct (String.eqb action "update_todo").
  { unfold ProgressTracker._update_todo in E.
    destruct (ProgressTracker.find_todo todo_id (ProgressTracker.todos ledger)).
    - simpl in E. inversion E; subst; clear E. unfold ledger_wf. simpl.
      rewrite set_todo_ids. split; [exact Hpos|]. split; [exact Hnd|].
      apply (set_todo_bounds (fun i => 1 <= i < ProgressTracker.next_id ledger)).
      exact Hb.
    - simpl in E. inversion E; subst; clear E. apply Hsame; reflexivity. }
  destruct (String.eqb action "list_todos");
    [simpl in E; inversion E; subst; apply Hsame; reflexivity|].
  destruct (String.eqb action "get_progress");
    [simpl in E; inversion E; subst; apply Hsame; reflexivity|].
  destruct (String.eqb action "update_stats").
  { unfold ProgressTracker._update_stats, try_except, bind at 1 in E.
    destruct (default ∅ stat_update !! "started_at") as [v|].
    - destruct ((default ∅ stat_update ∪ ProgressTracker.workflow_stats ledger)
                  !! "started_at") as [v'|].
      + destruct (truthy v'); simpl in E; inversion E; subst;
          apply Hsame; reflexivity.
      + simpl in E. inversion E; subst. apply Hsame; reflexivity.
    - simpl in E. inversion E; subst. apply Hsame; reflexivity. }
  destruct (String.eqb action "reset").
  { simpl in E. inversion E; subst. unfold ledger_wf. simpl.
    split; [lia|]. split; constructor. }
  simpl in E. inversion E; subst. apply Hsame; reflexivity.
Qed.

(** X9. In a well-formed ledger a todo that [add_todo]
    has just added is the one [update_todo] changes when given the id that
    was returned: the update succeeds, returns that todo with the new
    status, and the ledger is the old list followed by the updated todo. *)
Theorem added_todo_can_be_updated (ledger : ProgressTracker.t)
        (content status new_status : option string) (w : World) :
  ledger_wf ledger ->
  exists r1 ledger1 r2 ledger2 td,
    ProgressTracker._execute ledger "add_todo" content None status None w
    = (Ret (r1, ledger1), w)
    /\ data r1 = ProgressTracker.todo_dict td
    /\ ProgressTracker.tid td = ProgressTracker.next_id ledger
    /\ ProgressTracker.todos ledger1 = ProgressTracker.todos ledger ++ [td]
    /\ ProgressTracker._execute ledger1 "update_todo" None
         (Some (ProgressTracker.tid td)) new_status None w
       = (Ret (r2, ledger2), w)
    /\ success r2 = true
    /\ data r2 = ProgressTracker.todo_dict (restamp td new_status (isoformat (now w)))
    /\ ProgressTracker.todos ledger2
       = ProgressTracker.todos ledger ++ [restamp td new_status (isoformat (now w))].
Proof.
  intros (Hpos & Hnd & Hb).
  assert (Hfresh : forall x, In x (ProgressTracker.todos ledger) ->
                             ProgressTracker.tid x <> ProgressTracker.next_id ledger).
  { intros x Hx. rewrite List.Forall_forall in Hb.
    specialize (Hb x Hx). simpl in Hb. lia. }
  set (td := {| ProgressTracker.tid := ProgressTracker.next_id ledger;
                ProgressTracker.content := content;
                ProgressTracker.status :=
                  Some (match status with
                        | Some s => if String.eqb s "" then "pending" else s
                        | None => "pending"
                        end);
                ProgressTracker.created_at := isoformat (now w);
                ProgressTracker.updated_at := isoformat (now w) |}).
  pose proof (find_todo_app_new _ _ td Hfresh eq_refl) as Hfind.
  pose proof (set_todo_app_new _ new_status (isoformat (now w)) _ td Hfresh eq_refl)
    as Hset.
  eexists. exists {| ProgressTracker.todos := ProgressTracker.todos ledger ++ [td];
                     ProgressTracker.next_id := ProgressTracker.next_id ledger + 1;
                     ProgressTracker.workflow_stats :=
                       ProgressTracker.workflow_stats ledger |}.
  eexists. eexists. exists td.
  split; [reflexivity|]. split; [reflexivity|]. split; [reflexivity|].
  split; [reflexivity|].
  unfold ProgressTracker._execute, ProgressTracker._update_todo.
  cbn [String.eqb Ascii.eqb Bool.eqb ProgressTracker.todos ProgressTracker.tid td].
  rewrite Hfind.
  cbv beta iota delta [try_except bind utcnow_iso Envelope.init ret].
  cbn [ProgressTracker.todos ProgressTracker.next_id
       ProgressTracker.workflow_stats].
  rewrite Hset.
  split; [reflexivity|]. split; [reflexivity|]. split; reflexivity.
Qed.

(** X10. [update_todo] on an id that the ledger
    holds succeeds and returns the first todo with that id, with the new
    status and the current time as [updated_at]; the ids and their order,
    [next_id] and the workflow counters are unchanged, and every other id
    still finds the todo it found before. *)
Theorem update_todo_changes_one_entry (ledger : ProgressTracker.t) (id : Z)
        (td : ProgressTracker.Todo)
        (content status : option string) (stat_update : option (gmap string PyVal))
        (w : World) :
  ProgressTracker.find_todo (Some id) (ProgressTracker.todos ledger) = Some td ->
  exists r ledger',
    ProgressTracker._execute ledger "update_todo" content (Some id) status
                             stat_update w = (Ret (r, ledger'), w)
    /\ success r = true
    /\ data r = ProgressTracker.todo_dict (restamp td status (isoformat (now w)))
    /\ map ProgressTracker.tid (ProgressTracker.todos ledger')
       = map ProgressTracker.tid (ProgressTracker.todos ledger)
    /\ ProgressTracker.next_id ledger' = ProgressTracker.next_id ledger
    /\ ProgressTracker.workflow_stats ledger' = ProgressTracker.workflow_stats ledger
    /\ ProgressTracker.find_todo (Some id) (ProgressTracker.todos ledger')
       = Some (restamp td status (isoformat (now w)))
    /\ (forall other, other <> Some id ->
          ProgressTracker.find_todo other (ProgressTracker.todos ledger')
          = ProgressTracker.find_todo other (ProgressTracker.todos ledger)).
Proof.
  intros Hfind.
  unfold ProgressTracker._execute, ProgressTracker._update_todo. simpl.
  rewrite Hfind. simpl.
  eexists. eexists. split; [reflexivity|]. simpl.
  split; [reflexivity|]. split; [reflexivity|].
  split; [apply set_todo_ids|]. split; [reflexivity|]. split; [reflexivity|].
  split; [apply find_set_same; exact Hfind|].
  intros other Hother. apply find_set_other. exact Hother.
Qed.

(** X11. In the progress report the counts of
    completed, in-progress and pending todos are never negative and
    together never exceed [total_todos], which is the length of the list;
    they add up to it exactly when every todo has one of those three
    statuses. *)
Theorem progress_counts_bounded (ledger : ProgressTracker.t) (w : World) :
  exists r completed in_progress pending total,
    ProgressTracker._execute ledger "get_progress" None None None None w
    = (Ret (r, ledger), w)
    /\ reported_int "completed" r = Some completed
    /\ reported_int "in_progress" r = Some in_progress
    /\ reported_int "pending" r = Some pending
    /\ reported_int "total_todos" r = Some total
    /\ total = Z.of_nat (length (ProgressTracker.todos ledger))
    /\ 0 <= completed /\ 0 <= in_progress /\ 0 <= pending
    /\ completed + in_progress + pending <= total
    /\ (completed + in_progress + pending = total
        <-> Forall known_status (ProgressTracker.todos ledger)).
Proof.
  unfold ProgressTracker._execute, ProgressTracker._get_progress. simpl.
  eexists. eexists. eexists. eexists. eexists.
  split; [reflexivity|]. unfold reported_int. simpl.
  split; [reflexivity|]. split; [reflexivity|]. split; [reflexivity|].
  split; [reflexivity|]. split; [reflexivity|].
  unfold ProgressTracker._get_status_counts. rewrite !count_of_fold. simpl.
  generalize (ProgressTracker.todos ledger). intros l.
  assert (Hl : 0 <= Z.of_nat (length (filter (fun td => ProgressTracker.status td = Some "completed") l))
               /\ 0 <= Z.of_nat (length (filter (fun td => ProgressTracker.status td = Some "in_progress") l))
               /\ 0 <= Z.of_nat (length (filter (fun td => ProgressTracker.status td = Some "pending") l))) by lia.
  destruct Hl as (H1 & H2 & H3).
  split; [lia|]. split; [lia|]. split; [lia|].
  clear H1 H2 H3.
  induction l as [|td l IH].
  - simpl. split; [lia|]. split; [intros _; constructor | intros _; reflexivity].
  - rewrite !filter_cons.
    destruct IH as [IHle IHeq].
    destruct (decide (ProgressTracker.status td = Some "completed")) as [Hc|Hc];
      destruct (decide (ProgressTracker.status td = Some "in_progress")) as [Hi|Hi];
      destruct (decide (ProgressTracker.status td = Some "pending")) as [Hp|Hp];
      try congruence; cbn [length]; (split; [lia|]);
      rewrite Forall_cons; unfold known_status at 1;
      split.
    all: try (intros Hsum; split; [tauto | apply IHeq; lia]).
    all: try (intros [_ Hall]; apply IHeq in Hall; lia).
    + intros Hsum. exfalso. lia.
    + intros [[?|[?|?]] _]; congruence.
Qed.

(** X12. [get_progress] always reports a
    [percent_complete] between 0 and 100. *)
Theorem progress_percent_in_range (ledger : ProgressTracker.t) (w : World) :
  exists r v q,
    ProgressTracker._execute ledger "get_progress" None None None None w
    = (Ret (r, ledger), w)
    /\ reported_percent r = Some v
    /\ is_number v q
    /\ (0 <= q <= 100)%Q.
Proof.
  unfold ProgressTracker._execute, ProgressTracker._get_progress. simpl.
  unfold reported_percent. simpl. rewrite completed_counted.
  unfold ProgressTracker.percent_complete.
  destruct (0 <? Z.of_nat (length (ProgressTracker.todos ledger))) eqn:Hpos.
  - eexists. eexists. eexists. split; [reflexivity|]. split; [reflexivity|].
    split; [simpl; reflexivity|].
    apply Z.ltb_lt in Hpos.
    assert (Hc : 0 <= completed_count (ProgressTracker.todos ledger)
                 <= Z.of_nat (length (ProgressTracker.todos ledger))).
    { unfold completed_count. split; [lia|].
      apply inj_le. apply length_filter. }
    set (c := completed_count (ProgressTracker.todos ledger)) in *.
    set (t := Z.of_nat (length (ProgressTracker.todos ledger))) in *.
    pose proof (percent_double c t Hc Hpos) as Hd. cbv zeta in Hd.
    destruct Hd as (Hrange & _). exact Hrange.
  - eexists. eexists. exists 0%Q. split; [reflexivity|]. split; [reflexivity|].
    split; [simpl; reflexivity|]. unfold Qle; simpl; lia.
Qed.
End LedgerOps.

(** ** Statistics and the workflow in general *)

Lemma count_call_fold calls :
  forall s,
    let s' := fold_left ORBITAgent.count_call calls s in
    ExecutionStats.orders_processed s <= ExecutionStats.orders_processed s'
    /\ ExecutionStats.images_processed s <= ExecutionStats.images_processed s'
    /\ (ExecutionStats.orders_processed s' - ExecutionStats.orders_processed s)
       + (ExecutionStats.images_processed s' - ExecutionStats.images_processed s)
       <= Z.of_nat (length (database_calls calls))
    /\ ExecutionStats.errors_encountered s'
       = ExecutionStats.errors_encountered s + Z.of_nat (length (failed_calls calls))
    /\ ExecutionStats.started_at s' = ExecutionStats.started_at s
    /\ ExecutionStats.ended_at s' = ExecutionStats.ended_at s.
Proof.
  induction calls as [|call calls IH]; intros s; cbn zeta.
  - simpl. repeat split; lia.
  - cbn [fold_left]. specialize (IH (ORBITAgent.count_call s call)).
    cbn zeta in IH. destruct IH as (H1 & H2 & H3 & H4 & H5 & H6).
    unfold database_calls, failed_calls in *. rewrite !filter_cons.
    assert (Hc :
      ExecutionStats.orders_processed s
      <= ExecutionStats.orders_processed (ORBITAgent.count_call s call)
      /\ ExecutionStats.images_processed s
         <= ExecutionStats.images_processed (ORBITAgent.count_call s call)
      /\ (ExecutionStats.orders_processed (ORBITAgent.count_call s call)
          - ExecutionStats.orders_processed s)
         + (ExecutionStats.images_processed (ORBITAgent.count_call s call)
            - ExecutionStats.images_processed s)
         <= (if decide (tool_name call = "database_query") then 1 else 0)
      /\ ExecutionStats.errors_encountered (ORBITAgent.count_call s call)
         = ExecutionStats.errors_encountered s
           + (if decide (result_success call = Some false) then 1 else 0)
      /\ ExecutionStats.started_at (ORBITAgent.count_call s call)
         = ExecutionStats.started_at s
      /\ ExecutionStats.ended_at (ORBITAgent.count_call s call)
         = ExecutionStats.ended_at s).
    { unfold ORBITAgent.count_call.
      destruct (String.eqb_spec (tool_name call) "database_query") as [Hn | Hn].
      - rewrite decide_True by exact Hn.
        destruct (contains "UPDATE orders SET processing_stage" (arguments call));
          [|destruct (contains "UPDATE images SET processing_status" (arguments call))];
          destruct (result_success call) as [[|]|]; simpl;
          repeat split; try lia;
          try (rewrite decide_True by reflexivity; lia);
          try (rewrite decide_False by discriminate; lia).
      - rewrite decide_False by exact Hn.
        destruct (result_success call) as [[|]|]; simpl;
          repeat split; try lia;
          try (rewrite decide_True by reflexivity; lia);
          try (rewrite decide_False by discriminate; lia). }
    destruct Hc as (C1 & C2 & C3 & C4 & C5 & C6).
    destruct (decide (tool_name call = "database_query"));
      destruct (decide (result_success call = Some false));
      cbn [length]; repeat split; try lia; congruence.
Qed.

(** X13. [ExecutionStats.update_completion] is idempotent:
    applying it twice gives the same record as applying it once. *)
Theorem update_completion_idempotent (s : ExecutionStats.t) :
  ExecutionStats.update_completion (ExecutionStats.update_completion s)
  = ExecutionStats.update_completion s.
Proof.
  unfold ExecutionStats.update_completion.
  destruct (ExecutionStats.ended_at s) as [ended|] eqn:He; simpl.
  - destruct (0 <? ExecutionStats.orders_processed s),
             (0 <? ExecutionStats.images_processed s),
             (0 <? ExecutionStats.orders_processed s
                   + ExecutionStats.images_processed s); reflexivity.
  - rewrite He. reflexivity.
Qed.

Lemma rate_formula_bounds (t e : Z) :
  0 < t -> 0 <= e ->
  (inject_Z (t - e) / inject_Z t * 100 <= 100)%Q
  /\ ((0 <= inject_Z (t - e) / inject_Z t * 100)%Q <-> e <= t).
Proof.
  intros Ht He. unfold Qle, Qdiv, Qmult, Qinv, inject_Z. simpl.
  destruct t as [|p|p]; try lia. simpl. split; [nia|]. split; nia.
Qed.

(** X14. In a run the error counter is never negative
    and the success rate never exceeds 100; once the run has ended with at
    least one operation, the rate [update_completion] derives is negative
    exactly when more errors than operations were counted. *)
Theorem success_rate_at_most_100 (s : ExecutionStats.t) :
  stats_reachable s ->
  0 <= ExecutionStats.errors_encountered s
  /\ (ExecutionStats.success_rate s <= 100)%Q
  /\ (forall ended,
        ExecutionStats.ended_at s = Some ended ->
        0 < total_operations s ->
        ((0 <= ExecutionStats.success_rate (ExecutionStats.update_completion s))%Q
         <-> ExecutionStats.errors_encountered s <= total_operations s)).
Proof.
  intros Hs.
  assert (Hinv : 0 <= ExecutionStats.errors_encountered s
                 /\ (ExecutionStats.success_rate s <= 100)%Q).
  { induction Hs as [t0 | s orders images errors Hs IH Ho Hi He | s t1 Hs IH | s Hs IH];
      simpl.
    - split; [lia | unfold Qle; simpl; lia].
    - destruct IH. split; [lia | assumption].
    - exact IH.
    - destruct IH as [IH1 IH2]. unfold ExecutionStats.update_completion.
      destruct (ExecutionStats.ended_at s); simpl; [|auto].
      split; [exact IH1|].
      destruct (0 <? ExecutionStats.orders_processed s
                     + ExecutionStats.images_processed s) eqn:Hpos; [|exact IH2].
      apply Z.ltb_lt in Hpos.
      exact (proj1 (rate_formula_bounds _ _ Hpos IH1)). }
  destruct Hinv as [Herr Hrate]. split; [exact Herr|]. split; [exact Hrate|].
  intros ended Hended Hpos. unfold ExecutionStats.update_completion.
  rewrite Hended. simpl. fold (total_operations s).
  assert (Hb : (0 <? total_operations s) = true) by (apply Z.ltb_lt; exact Hpos).
  rewrite Hb. exact (proj2 (rate_formula_bounds _ _ Hpos Herr)).
Qed.

Section AgentRuns.
Context `{Env}.
Variable build_workflow_prompt : WorkflowContext.t -> string.

Lemma probe_ai_healthy self w :
  exists w', ORBITAgent.probe_ai self w = (Ret (true, []), w')
             /\ executed (trace w') = executed (trace w)
             /\ calls w' = calls w.
Proof.
  unfold ORBITAgent.probe_ai.
  destruct (negb _ && _).
  - eexists. split; [reflexivity|]. simpl. split; [|reflexivity].
    apply executed_snoc. discriminate.
  - eexists. split; [reflexivity|]. split; reflexivity.
Qed.

Lemma probe_metadata_healthy self w :
  exists w', ORBITAgent.probe_metadata self w = (Ret (true, []), w')
             /\ executed (trace w') = executed (trace w)
             /\ calls w' = calls w.
Proof.
  unfold ORBITAgent.probe_metadata.
  destruct (negb _ && _).
  - eexists. split; [reflexivity|]. simpl. split; [|reflexivity].
    apply executed_snoc. discriminate.
  - eexists. split; [reflexivity|]. split; reflexivity.
Qed.

Lemma executed_list_bucket self : keeps executed (ORBITAgent.list_bucket self).
Proof.
  unfold ORBITAgent.list_bucket, StorageTool._execute. simpl.
  apply keeps_try; [|intros e; apply keeps_init].
  apply (keeps_list_files executed executed_http).
Qed.

Lemma health_check_cases self w :
  exists hs w' db st,
    ORBITAgent.health_check self w
    = (Ret (hs, ORBITAgent.set_is_healthy self
                  (String.eqb (ORBITAgent.overall hs) "healthy")), w')
    /\ ORBITAgent.components hs
       = [("database", status_of db); ("storage", status_of st);
          ("ai_analysis", "healthy"); ("metadata_embed", "healthy")]
    /\ ORBITAgent.overall hs = (if db && st then "healthy" else "degraded")
    /\ ORBITAgent.hs_error hs = None
    /\ agent_runs (trace w') = agent_runs (trace w)
    /\ executed (trace w')
       = executed (trace w) ++ [Some "SELECT 1 as health_check"].
Proof.
  destruct (ORBITAgent.health_check self w) as [res w'] eqn:E.
  pose proof (quiet_health_check self _ _ _ E) as Hq.
  revert E. unfold ORBITAgent.health_check.
  unfold bind at 1. unfold utcnow_iso at 1. unfold try_except at 1.
  unfold bind at 1.
  destruct (total_database_execute (ORBITAgent.database (ORBITAgent.config self))
              "SELECT 1 as health_check" None true "health_check" w)
    as (db_result & w1 & E1).
  rewrite E1. unfold bind at 1.
  destruct (total_storage_execute (ORBITAgent.storage (ORBITAgent.config self))
              "list_files" (ORBITAgent.storage_bucket (ORBITAgent.config self))
              None None None None 3600 "" None w1) as (st_result & w2 & E2).
  unfold ORBITAgent.list_bucket at 1. rewrite E2.
  unfold bind at 1.
  destruct (probe_ai_healthy self w2) as (w3 & E3 & X3 & _). rewrite E3.
  unfold bind at 1.
  destruct (probe_metadata_healthy self w3) as (w4 & E4 & X4 & _). rewrite E4.
  unfold ret at 1. intros E. inversion E; subst res w'; clear E.
  match goal with
  | |- exists hs w' db st, (Ret (?h, _), ?w0) = _ /\ _ =>
      exists h, w0, (success db_result), (success st_result)
  end.
  split; [reflexivity|]. cbn [ORBITAgent.components ORBITAgent.overall
                              ORBITAgent.hs_error].
  split; [reflexivity|]. split; [|split; [reflexivity | split; [exact Hq|]]].
  - unfold ORBITAgent.determine_overall.
    destruct (success db_result), (success st_result); reflexivity.
  - rewrite X4, X3. rewrite (executed_list_bucket self _ _ _ E2).
    exact (executed_database_execute _ _ _ _ _ _ _ _ E1).
Qed.

(** X15. The health check of the agent always returns: its
    probes of the analysis and of the embedding service are mock calls that
    always succeed, so the overall status is never "unhealthy"; it is
    "healthy" exactly when the database and the storage probe are, and the
    agent's [is_healthy] flag is set exactly then. *)
Theorem agent_health_never_unhealthy (self : ORBITAgent.t) (w : World) :
  exists hs self' w' db st,
    ORBITAgent.health_check self w = (Ret (hs, self'), w')
    /\ ORBITAgent.components hs
       = [("database", db); ("storage", st);
          ("ai_analysis", "healthy"); ("metadata_embed", "healthy")]
    /\ ORBITAgent.overall hs <> "unhealthy"
    /\ (ORBITAgent.overall hs = "healthy"
        <-> db = "healthy" /\ st = "healthy")
    /\ (ORBITAgent.is_healthy self' = true <-> ORBITAgent.overall hs = "healthy").
Proof.
  destruct (health_check_cases self w)
    as (hs & w' & db & st & E & Hc & Ho & _ & _ & _).
  exists hs. eexists. exists w', (status_of db), (status_of st).
  split; [exact E|]. split; [exact Hc|]. rewrite Ho. simpl.
  destruct db, st; simpl; repeat split; try discriminate; try reflexivity;
    try (intros [? ?]; discriminate).
Qed.

Lemma prepare_context_returns self w :
  exists ctx w',
    ORBITAgent.prepare_workflow_context self w
    = (Ret (ctx, ORBITAgent.set_context self ctx), w')
    /\ agent_runs (trace w') = agent_runs (trace w)
    /\ executed (trace w') = executed (trace w) ++ [Some ORBITAgent.pending_query].
Proof.
  destruct (ORBITAgent.prepare_workflow_context self w) as [res w'] eqn:E.
  pose proof (quiet_prepare_workflow_context self _ _ _ E) as Hq.
  revert E. unfold ORBITAgent.prepare_workflow_context.
  unfold bind at 1.
  match goal with
  | |- context [try_except ?m ?h w] =>
      assert (Ht : total (try_except m h));
      [|assert (Hx : forall res1 w1, try_except m h w = (res1, w1) ->
                       executed (trace w1)
                       = executed (trace w) ++ [Some ORBITAgent.pending_query])]
  end.
  { apply total_try. intros e. unfold WorkflowContext.make.
    intros w0. simpl. eexists. eexists. reflexivity. }
  { intros res1 w1. unfold try_except at 1. unfold bind at 1.
    destruct (total_database_execute (ORBITAgent.database (ORBITAgent.config self))
                ORBITAgent.pending_query None true "query" w) as (db & w0 & E0).
    rewrite E0. rewrite <- (executed_database_execute _ _ _ _ _ _ _ _ E0).
    match goal with
    | |- (let (_, _) := ?k w0 in _) = _ -> _ =>
        assert (Hk : keeps executed k);
        [|destruct (k w0) as [[c | e] w2] eqn:Ek; pose proof (Hk _ _ _ Ek) as Hw2]
    end.
    - pose proof executed_http as Hhttp. pose proof executed_sleep as Hsleep.
      repeat first [ keeps_step | apply executed_list_bucket
                   | apply keeps_context_make | apply keeps_py_get ].
    - intros E1; inversion E1; subst. exact Hw2.
    - intros E1. rewrite <- Hw2.
      assert (Hm : keeps executed
                     (WorkflowContext.make (VInt 0) false "" (Some e) "initialization"))
        by apply keeps_context_make.
      exact (Hm _ _ _ E1). }
  destruct (Ht w) as (ctx & w1 & E1). rewrite E1.
  unfold ret at 1. intros E. inversion E; subst.
  exists ctx, w'. split; [reflexivity|]. split; [exact Hq | exact (Hx _ _ E1)].
Qed.

Lemma process_agent_result_returns self tool_calls w :
  exists progress',
    ORBITAgent._process_agent_result self tool_calls w
    = (Ret (ORBITAgent.set_progress
              (ORBITAgent.set_stats self
                 (fold_left ORBITAgent.count_call (default [] tool_calls)
                            (ORBITAgent.stats self)))
              progress'), w)
    /\ ProgressTracker.todos progress'
       = ProgressTracker.todos (ORBITAgent.progress self)
    /\ (let s' := fold_left ORBITAgent.count_call (default [] tool_calls)
                            (ORBITAgent.stats self) in
        ProgressTracker.workflow_stats progress' !! "orders_processed"
        = Some (VInt (ExecutionStats.orders_processed s'))
        /\ ProgressTracker.workflow_stats progress' !! "images_processed"
           = Some (VInt (ExecutionStats.images_processed s'))
        /\ ProgressTracker.workflow_stats progress' !! "errors"
           = Some (VInt (ExecutionStats.errors_encountered s'))
        /\ ProgressTracker.workflow_stats progress' !! "started_at"
           = ProgressTracker.workflow_stats (ORBITAgent.progress self)
               !! "started_at").
Proof.
  unfold ORBITAgent._process_agent_result.
  set (s' := fold_left ORBITAgent.count_call (default [] tool_calls)
                       (ORBITAgent.stats self)).
  unfold ProgressTracker._execute, ProgressTracker._update_stats.
  cbn [String.eqb Ascii.eqb Bool.eqb default].
  set (updates := <["orders_processed" := VInt (ExecutionStats.orders_processed s')]>
                    (<["images_processed" := VInt (ExecutionStats.images_processed s')]>
                       (<["errors" := VInt (ExecutionStats.errors_encountered s')]> ∅))).
  assert (Hnone : updates !! "started_at" = None).
  { unfold updates. rewrite !lookup_insert_ne by discriminate. apply lookup_empty. }
  unfold id. rewrite Hnone.
  eexists. split; [reflexivity|]. cbn [ProgressTracker.todos ProgressTracker.workflow_stats].
  split; [reflexivity|]. cbv zeta. unfold updates.
  split; [|split; [|split]].
  - apply lookup_union_Some_l. apply lookup_insert_eq.
  - apply lookup_union_Some_l. rewrite lookup_insert_ne by discriminate.
    apply lookup_insert_eq.
  - apply lookup_union_Some_l. rewrite !lookup_insert_ne by discriminate.
    apply lookup_insert_eq.
  - apply lookup_union_r. exact Hnone.
Qed.
End AgentRuns.

Section Runs.
Context `{Env}.
Variable build_workflow_prompt : WorkflowContext.t -> string.

Lemma trace_agent_run tr prompt effects :
  executed (tr ++ EvAgentRun prompt :: map effect_event effects)
  = executed tr ++ tool_queries effects
  /\ agent_runs (tr ++ EvAgentRun prompt :: map effect_event effects)
     = agent_runs tr ++ [prompt].
Proof.
  unfold executed, agent_runs, tool_queries. rewrite !omap_app. simpl. split.
  - reflexivity.
  - f_equal. f_equal. induction effects as [|fx effects IH]; [reflexivity|].
    destruct fx; simpl; exact IH.
Qed.

Lemma workflow_cases self specific_order_id w :
  exists result self' w' added,
    ORBITAgent.execute_workflow build_workflow_prompt self specific_order_id w
    = (Ret (result, self'), w')
    /\ (executed (trace w') = executed (trace w) ++ added
        /\ workflow_queries (build_workflow_prompt (ORBITAgent.context self'))
             (WorkflowContext.pending_orders_count (ORBITAgent.context self'))
             added)
    /\ ((result_field "success" result = Some (VBool true)
         /\ result_field "message" result
            = Some (VStr "No pending orders to process")
         /\ ORBITAgent.eq_zero
              (WorkflowContext.pending_orders_count (ORBITAgent.context self'))
            = true
         /\ ORBITAgent.stats self' = ExecutionStats.make (now w)
         /\ agent_runs (trace w') = agent_runs (trace w))
        \/ (ORBITAgent.eq_zero
              (WorkflowContext.pending_orders_count (ORBITAgent.context self'))
            = false
            /\ agent_runs (trace w')
               = agent_runs (trace w)
                 ++ [build_workflow_prompt (ORBITAgent.context self')]
            /\ run_outcome (ORBITAgent.timeout_seconds (ORBITAgent.config self))
                 (ExecutionStats.make (now w))
                 (agent_run (build_workflow_prompt (ORBITAgent.context self')))
                 result (ORBITAgent.stats self') (now w'))).
Proof.
  unfold ORBITAgent.execute_workflow.
  unfold bind at 1. unfold time_time at 1. unfold bind at 1.
  unfold try_except at 1. unfold ORBITAgent.workflow_body. unfold bind at 1.
  set (self0 := ORBITAgent.set_session self (ExecutionStats.make (now w))
                  ("orbit_" +:+ str_int (int_of_float (now w)))).
  destruct (health_check_cases self0 w)
    as (hs & w1 & db & st & E1 & _ & Ho & _ & Hq1 & Hx1).
  rewrite E1.
  assert (Hgate : String.eqb (ORBITAgent.overall hs) "unhealthy" = false).
  { rewrite Ho. destruct (db && st); reflexivity. }
  rewrite Hgate. unfold bind at 1.
  set (self1 := ORBITAgent.set_is_healthy self0
                  (String.eqb (ORBITAgent.overall hs) "healthy")).
  destruct (prepare_context_returns self1 w1) as (ctx & w2 & E2 & Hq2 & Hx2).
  rewrite E2.
  assert (Hx : executed (trace w2)
               = executed (trace w)
                 ++ [Some "SELECT 1 as health_check"; Some ORBITAgent.pending_query])
    by (rewrite Hx2, Hx1, <- app_assoc; reflexivity).
  destruct (ORBITAgent.eq_zero (WorkflowContext.pending_orders_count ctx)) eqn:Hz.
  - unfold ret at 1. unfold ret at 1.
    eexists. eexists. eexists. eexists. split; [reflexivity|].
    split.
    { split; [exact Hx|]. exists []. split; [reflexivity|].
      cbn [ORBITAgent.context ORBITAgent.set_context]. rewrite Hz. reflexivity. }
    left.
    split; [reflexivity|]. split; [reflexivity|]. split; [exact Hz|].
    split; [reflexivity|]. rewrite Hq2. exact Hq1.
  - unfold bind at 1.
    match goal with
    | |- context [ProgressTracker._execute ?p ?a ?c ?i ?s ?u w2] =>
        assert (Hadd : exists r p', ProgressTracker._execute p a c i s u w2
                                    = (Ret (r, p'), w2))
          by (eexists; eexists; reflexivity);
        destruct Hadd as (r & p' & Hadd); rewrite Hadd
    end.
    unfold bind at 1. unfold run_agent at 1. cbv zeta.
    set (self3 := ORBITAgent.set_progress (ORBITAgent.set_context self1 ctx) p').
    destruct (trace_agent_run (trace w2) (build_workflow_prompt ctx)
                (agent_effects (build_workflow_prompt ctx) (calls w2)))
      as (Hte & Hta).
    assert (Hadded : workflow_queries (build_workflow_prompt ctx)
                       (WorkflowContext.pending_orders_count ctx)
                       ([Some "SELECT 1 as health_check"; Some ORBITAgent.pending_query]
                        ++ tool_queries (agent_effects (build_workflow_prompt ctx)
                                                       (calls w2)))).
    { eexists. split; [reflexivity|]. rewrite Hz. eexists. reflexivity. }
    destruct (agent_run (build_workflow_prompt ctx)) as [value calls | msg |] eqn:Hrun.
    + unfold bind at 1.
      match goal with
      | |- context [ORBITAgent._process_agent_result self3 calls ?w3] =>
          destruct (process_agent_result_returns self3 calls w3)
            as (progress' & E3 & _)
      end.
      rewrite E3. unfold bind at 1. unfold time_time at 1.
      unfold ret at 1. unfold ret at 1.
      eexists. eexists. eexists. eexists. split; [reflexivity|].
      split; [split; [cbn [trace]; rewrite Hte, Hx, <- app_assoc; reflexivity
                     | exact Hadded]|].
      right.
      cbn [ORBITAgent.context ORBITAgent.set_stats ORBITAgent.set_progress
           ORBITAgent.stats self3 ORBITAgent.set_context trace now].
      split; [exact Hz|]. split; [rewrite Hta, Hq2, Hq1; reflexivity|].
      rewrite Hrun. unfold run_outcome.
      split; [reflexivity|]. split; [reflexivity|]. split; reflexivity.
    + unfold ret at 1. unfold bind at 1. unfold time_time at 1. unfold ret at 1.
      eexists. eexists. eexists. eexists. split; [reflexivity|].
      split; [split; [cbn [trace]; rewrite Hte, Hx, <- app_assoc; reflexivity
                     | exact Hadded]|].
      right.
      cbn [ORBITAgent.context ORBITAgent.set_stats ORBITAgent.set_progress
           ORBITAgent.stats self3 ORBITAgent.set_context trace now].
      split; [exact Hz|]. split; [rewrite Hta, Hq2, Hq1; reflexivity|].
      rewrite Hrun. unfold run_outcome.
      split; [reflexivity|]. split; reflexivity.
    + unfold ret at 1. unfold bind at 1. unfold time_time at 1. unfold ret at 1.
      eexists. eexists. eexists. eexists. split; [reflexivity|].
      split; [split; [cbn [trace]; rewrite Hte, Hx, <- app_assoc; reflexivity
                     | exact Hadded]|].
      right.
      cbn [ORBITAgent.context ORBITAgent.set_stats ORBITAgent.set_progress
           ORBITAgent.stats self3 ORBITAgent.set_context trace now].
      split; [exact Hz|]. split; [rewrite Hta, Hq2, Hq1; reflexivity|].
      rewrite Hrun. unfold run_outcome.
      split; [reflexivity|]. split; reflexivity.
Qed.

Lemma snoc_not_same {A} (l : list A) (x : A) : l ++ [x] <> l.
Proof.
  intros Heq. rewrite <- (app_nil_r l) in Heq at 2.
  apply app_inv_head in Heq. discriminate.
Qed.

(** X16. [execute_workflow] returns a
    result dict with a boolean [success] in every world. It starts at most
    one agent run, with the prompt built from the context it has stored,
    and none exactly when that context counts 0 pending orders; a failure
    is reported only after an agent run was started. Before the run the
    database tool is entered exactly twice, for the health query and the
    pending-order query; every later entry is one that the tools of the
    agent made during the run, so there is none when no run was started. *)
Theorem workflow_starts_at_most_one_run (self : ORBITAgent.t)
        (specific_order_id : option string) (w : World) :
  exists result self' w' ok,
    ORBITAgent.execute_workflow build_workflow_prompt self specific_order_id w
    = (Ret (result, self'), w')
    /\ result_field "success" result = Some (VBool ok)
    /\ (agent_runs (trace w') = agent_runs (trace w)
        \/ agent_runs (trace w')
           = agent_runs (trace w)
             ++ [build_workflow_prompt (ORBITAgent.context self')])
    /\ (agent_runs (trace w') = agent_runs (trace w)
        <-> ORBITAgent.eq_zero
              (WorkflowContext.pending_orders_count (ORBITAgent.context self'))
            = true)
    /\ (ok = false -> agent_runs (trace w') <> agent_runs (trace w))
    /\ exists later,
        executed (trace w')
        = executed (trace w)
          ++ [Some "SELECT 1 as health_check"; Some ORBITAgent.pending_query]
          ++ later
        /\ (agent_runs (trace w') = agent_runs (trace w) -> later = [])
        /\ (agent_runs (trace w') <> agent_runs (trace w) ->
            exists requests,
              later = tool_queries
                        (agent_effects
                           (build_workflow_prompt (ORBITAgent.context self'))
                           requests)).
Proof.
  destruct (workflow_cases self specific_order_id w)
    as (result & self' & w' & added & E & (Hx & later & -> & Hlater)
        & [(Hs & _ & Hz & _ & Hq) | (Hz & Hq & Ho)]).
  - rewrite Hz in Hlater.
    exists result, self', w', true. split; [exact E|]. split; [exact Hs|].
    split; [left; exact Hq|]. split; [tauto|]. split; [discriminate|].
    exists later. split; [exact Hx|]. split; [intros _; exact Hlater|].
    intros Hne. contradiction.
  - rewrite Hz in Hlater.
    assert (Hne : agent_runs (trace w') <> agent_runs (trace w))
      by (rewrite Hq; apply snoc_not_same).
    assert (Hok : exists ok, result_field "success" result = Some (VBool ok)).
    { unfold run_outcome in Ho.
      destruct (agent_run _); destruct Ho as (Hs & _); eauto. }
    destruct Hok as (ok & Hok).
    exists result, self', w', ok. split; [exact E|]. split; [exact Hok|].
    split; [right; exact Hq|]. split; [|split; [intros _; exact Hne|]].
    + split; [intros Heq; contradiction | intros Ht; congruence].
    + exists later. split; [exact Hx|]. split; [intros Heq; contradiction|].
      intros _. exact Hlater.
Qed.

(** X17. Whenever [execute_workflow] reports failure,
    the agent run was started and either timed out or raised, and the
    error is the timeout message or the agent's fault; the statistics then
    count exactly one error and no order or image, have [ended_at] and the
    duration set, and keep the success rate 0. *)
Theorem workflow_failure_accounting (self : ORBITAgent.t)
        (specific_order_id : option string) (w w' : World)
        (result : PyVal) (self' : ORBITAgent.t) :
  ORBITAgent.execute_workflow build_workflow_prompt self specific_order_id w
  = (Ret (result, self'), w') ->
  result_field "success" result = Some (VBool false) ->
  exists prompt,
    agent_runs (trace w') = agent_runs (trace w) ++ [prompt]
    /\ (agent_run prompt = AgentTimedOut
        /\ result_field "error" result
           = Some (VStr ("Workflow timed out after "
                         +:+ str_int (ORBITAgent.timeout_seconds (ORBITAgent.config self))
                         +:+ " seconds"))
        \/ exists msg, agent_run prompt = AgentRaised msg
                       /\ result_field "error" result = Some (VStr msg))
    /\ ExecutionStats.errors_encountered (ORBITAgent.stats self') = 1
    /\ ExecutionStats.orders_processed (ORBITAgent.stats self') = 0
    /\ ExecutionStats.images_processed (ORBITAgent.stats self') = 0
    /\ ExecutionStats.ended_at (ORBITAgent.stats self') = Some (now w')
    /\ ExecutionStats.total_duration_seconds (ORBITAgent.stats self')
       = (now w' - now w)%Q
    /\ ExecutionStats.success_rate (ORBITAgent.stats self') = 0%Q.
Proof.
  intros E Hfail.
  destruct (workflow_cases self specific_order_id w)
    as (result0 & self0 & w0 & added & E0 & _ & Hcases).
  rewrite E in E0. inversion E0; subst result0 self0 w0; clear E0.
  destruct Hcases as [(Hs & _) | (Hz & Hq & Ho)]; [congruence|].
  exists (build_workflow_prompt (ORBITAgent.context self')).
  split; [exact Hq|]. unfold run_outcome in Ho.
  destruct (agent_run (build_workflow_prompt (ORBITAgent.context self')))
    as [value calls | msg |].
  - destruct Ho as (Hs & _). congruence.
  - destruct Ho as (_ & He & ->). split; [right; eauto|].
    repeat split; reflexivity.
  - destruct Ho as (_ & He & ->). split; [left; auto|].
    repeat split; reflexivity.
Qed.

(** X18. When the agent run returns, [execute_workflow]
    reports success whatever the tool calls reported, and hands the agent's
    result on; the orders and images counted together are at most the
    number of calls to the database tool, and the errors counted are the
    calls whose result reports failure. *)
Theorem workflow_completed_run_counters (self : ORBITAgent.t)
        (specific_order_id : option string) (w w' : World)
        (result : PyVal) (self' : ORBITAgent.t)
        (value : PyVal) (tool_calls : option (list ToolCall)) :
  ORBITAgent.execute_workflow build_workflow_prompt self specific_order_id w
  = (Ret (result, self'), w') ->
  agent_runs (trace w') <> agent_runs (trace w) ->
  agent_run (build_workflow_prompt (ORBITAgent.context self'))
  = AgentReturned value tool_calls ->
  result_field "success" result = Some (VBool true)
  /\ result_field "agent_result" result = Some value
  /\ 0 <= ExecutionStats.orders_processed (ORBITAgent.stats self')
  /\ 0 <= ExecutionStats.images_processed (ORBITAgent.stats self')
  /\ ExecutionStats.orders_processed (ORBITAgent.stats self')
     + ExecutionStats.images_processed (ORBITAgent.stats self')
     <= Z.of_nat (length (database_calls (default [] tool_calls)))
  /\ ExecutionStats.errors_encountered (ORBITAgent.stats self')
     = Z.of_nat (length (failed_calls (default [] tool_calls)))
  /\ ExecutionStats.ended_at (ORBITAgent.stats self') = Some (now w').
Proof.
  intros E Hrun Hret.
  destruct (workflow_cases self specific_order_id w)
    as (result0 & self0 & w0 & added & E0 & _ & Hcases).
  rewrite E in E0. inversion E0; subst result0 self0 w0; clear E0.
  destruct Hcases as [(_ & _ & _ & _ & Hq) | (Hz & Hq & Ho)]; [contradiction|].
  unfold run_outcome in Ho. rewrite Hret in Ho.
  destruct Ho as (Hs & _ & Hv & Hstats).
  split; [exact Hs|]. split; [exact Hv|]. rewrite Hstats.
  pose proof (count_call_fold (default [] tool_calls) (ExecutionStats.make (now w)))
    as Hc. cbn zeta in Hc.
  destruct Hc as (H1 & H2 & H3 & H4 & H5 & H6).
  set (s1 := fold_left ORBITAgent.count_call (default [] tool_calls)
                       (ExecutionStats.make (now w))) in *.
  unfold ExecutionStats.update_completion.
  cbn [ExecutionStats.ended_at ExecutionStats.set_ended_at
       ExecutionStats.orders_processed ExecutionStats.images_processed
       ExecutionStats.errors_encountered].
  simpl in H1, H2, H3, H4.
  repeat split; try lia.
Qed.

(** X19. On tool calls that carry a name, arguments and at
    most a dict as result, [_process_agent_result] never raises and leaves
    the world as it is; it adds one error per tool call whose result
    reports failure, and copies the three counters into the
    [workflow_stats] of the progress ledger, whose [started_at] and todos
    are unchanged. *)
Theorem agent_result_mirrored_in_ledger (self : ORBITAgent.t)
        (tool_calls : option (list ToolCall)) (w : World) :
  exists self',
    ORBITAgent._process_agent_result self tool_calls w = (Ret self', w)
    /\ ExecutionStats.errors_encountered (ORBITAgent.stats self')
       = ExecutionStats.errors_encountered (ORBITAgent.stats self)
         + Z.of_nat (length (failed_calls (default [] tool_calls)))
    /\ ProgressTracker.workflow_stats (ORBITAgent.progress self') !! "orders_processed"
       = Some (VInt (ExecutionStats.orders_processed (ORBITAgent.stats self')))
    /\ ProgressTracker.workflow_stats (ORBITAgent.progress self') !! "images_processed"
       = Some (VInt (ExecutionStats.images_processed (ORBITAgent.stats self')))
    /\ ProgressTracker.workflow_stats (ORBITAgent.progress self') !! "errors"
       = Some (VInt (ExecutionStats.errors_encountered (ORBITAgent.stats self')))
    /\ ProgressTracker.workflow_stats (ORBITAgent.progress self') !! "started_at"
       = ProgressTracker.workflow_stats (ORBITAgent.progress self) !! "started_at"
    /\ ProgressTracker.todos (ORBITAgent.progress self')
       = ProgressTracker.todos (ORBITAgent.progress self).
Proof.
  destruct (process_agent_result_returns self tool_calls w)
    as (progress' & E & Ht & Hm). cbv zeta in Hm.
  destruct Hm as (Ho & Hi & He & Hs).
  pose proof (count_call_fold (default [] tool_calls) (ORBITAgent.stats self)) as Hc.
  cbn zeta in Hc. destruct Hc as (_ & _ & _ & H4 & _).
  eexists. split; [exact E|]. simpl.
  split; [exact H4|]. split; [exact Ho|]. split; [exact Hi|].
  split; [exact He|]. split; [exact Hs | exact Ht].
Qed.

(** X20. When the pending-order query fails,
    [prepare_workflow_context] still returns a context with 0 pending
    orders and no error message, which is the context of a system without
    pending work. *)
Theorem pending_query_failure_is_masked (self : ORBITAgent.t) (w w1 : World)
        (db_result : ToolResult) :
  DatabaseTool._execute (ORBITAgent.database (ORBITAgent.config self))
    (Some ORBITAgent.pending_query) None true "query" w = (Ret db_result, w1) ->
  success db_result = false ->
  exists ctx w',
    ORBITAgent.prepare_workflow_context self w
    = (Ret (ctx, ORBITAgent.set_context self ctx), w')
    /\ WorkflowContext.pending_orders_count ctx = VInt 0
    /\ WorkflowContext.error_message ctx = None
    /\ ORBITAgent.eq_zero (WorkflowContext.pending_orders_count ctx) = true.
Proof.
  intros E Hfail. unfold ORBITAgent.prepare_workflow_context.
  unfold bind at 1. unfold try_except at 1. unfold bind at 1.
  rewrite E, Hfail. cbn [andb]. unfold bind at 1. unfold ret at 1.
  unfold bind at 1.
  destruct (total_storage_execute (ORBITAgent.storage (ORBITAgent.config self))
              "list_files" (ORBITAgent.storage_bucket (ORBITAgent.config self))
              None None None None 3600 "" None w1) as (st_result & w2 & E2).
  unfold ORBITAgent.list_bucket at 1. rewrite E2.
  unfold bind at 1. unfold utcnow_iso at 1. unfold WorkflowContext.make.
  unfold bind at 1.
  destruct (String.eqb (isoformat (now w2)) "");
    (eexists; eexists; split; [reflexivity|]; simpl;
     split; [|split]; reflexivity).
Qed.
End Runs.

(** ** The protocol bridge and the storage adapter *)

Section Silent.
Context `{Env}.

Lemma silent_ret {A} (a : A) : silent (ret a).
Proof. intros w res w' E. inversion E; reflexivity. Qed.

Lemma silent_raise {A} e : silent (@raise A e).
Proof. intros w res w' E. inversion E; reflexivity. Qed.

Lemma silent_bind {A B} (m : M A) (k : A -> M B) :
  silent m -> (forall a, silent (k a)) -> silent (bind m k).
Proof.
  intros Hm Hk w res w' E. unfold bind in E.
  destruct (m w) as [[a | e] w1] eqn:Em.
  - rewrite (Hk a _ _ _ E). exact (Hm _ _ _ Em).
  - inversion E; subst. exact (Hm _ _ _ Em).
Qed.

Lemma silent_try {A} (m : M A) (h : string -> M A) :
  silent m -> (forall e, silent (h e)) -> silent (try_except m h).
Proof.
  intros Hm Hh w res w' E. unfold try_except in E.
  destruct (m w) as [[a | e] w1] eqn:Em.
  - inversion E; subst. exact (Hm _ _ _ Em).
  - rewrite (Hh e _ _ _ E). exact (Hm _ _ _ Em).
Qed.

Lemma silent_time_time : silent time_time.
Proof. intros w res w' E. inversion E; reflexivity. Qed.

Lemma silent_utcnow_iso : silent utcnow_iso.
Proof. intros w res w' E. inversion E; reflexivity. Qed.

Lemma silent_init s d e m : silent (Envelope.init s d e m).
Proof. intros w res w' E. inversion E; reflexivity. Qed.

Lemma silent_create_tool_result s d e m : silent (Envelope.create_tool_result s d e m).
Proof. intros w res w' E. inversion E; reflexivity. Qed.

Lemma total_create_tool_result s d e m : total (Envelope.create_tool_result s d e m).
Proof. intros w. eexists. eexists. reflexivity. Qed.

Lemma silent_response_json r : silent (response_json r).
Proof.
  unfold response_json. destruct (json r); [apply silent_raise | apply silent_ret].
Qed.

Lemma silent_py_get v k d : silent (py_get v k d).
Proof. destruct v; simpl; first [apply silent_ret | apply silent_raise]. Qed.

Lemma silent_py_iter v : silent (py_iter v).
Proof. destruct v; simpl; first [apply silent_ret | apply silent_raise]. Qed.

Lemma silent_mapM {A B} (f : A -> M B) l :
  (forall a, silent (f a)) -> silent (mapM f l).
Proof.
  intros Hf. induction l as [|a l IH]; simpl; [apply silent_ret|].
  apply silent_bind; [apply Hf|]. intros b.
  apply silent_bind; [exact IH|]. intros bs. apply silent_ret.
Qed.

Lemma silent_filterM {A} (f : A -> M bool) l :
  (forall a, silent (f a)) -> silent (filterM f l).
Proof.
  intros Hf. induction l as [|a l IH]; simpl; [apply silent_ret|].
  apply silent_bind; [apply Hf|]. intros b.
  apply silent_bind; [exact IH|]. intros bs. apply silent_ret.
Qed.

Lemma silent_has_extension ext f : silent (StorageTool.has_extension ext f).
Proof.
  unfold StorageTool.has_extension.
  apply silent_bind; [apply silent_py_get|].
  intros []; first [apply silent_ret | apply silent_raise].
Qed.

Lemma silent_process_file folder f : silent (StorageTool.process_file folder f).
Proof.
  unfold StorageTool.process_file.
  repeat (apply silent_bind; [apply silent_py_get | intros ?]).
  apply silent_ret.
Qed.

(** An operation that makes its one request first and whose handler
    returns: it returns, and the world is the one after that request. *)
Lemma one_request {A} req (k : Response -> M A) (h : string -> M A) w :
  (forall r, silent (k r)) -> (forall e, silent (h e)) -> (forall e, total (h e)) ->
  exists a, try_except (bind (client_request req) k) h w = (Ret a, snd (http req w)).
Proof.
  intros Hk Hs Ht. unfold try_except, bind, client_request, bind.
  change (http req w) with (Ret (respond (calls w) req), snd (http req w)).
  cbv beta iota. set (w1 := snd (http req w)).
  destruct (respond (calls w) req) as [msg | r].
  - unfold raise. destruct (Ht msg w1) as (a & w' & E).
    pose proof (Hs _ _ _ _ E) as Hw. subst w'. exists a. exact E.
  - unfold ret. destruct (k r w1) as [[a | e] w2] eqn:Ek.
    + pose proof (Hk _ _ _ _ Ek) as Hw. subst w2. exists a. reflexivity.
    + pose proof (Hk _ _ _ _ Ek) as Hw. subst w2.
      destruct (Ht e w1) as (a & w' & E).
      pose proof (Hs _ _ _ _ E) as Hw. subst w'. exists a. exact E.
Qed.
End Silent.

Section Bridge.
Context `{Env}.
Variable srv : MCPServer.t.

(** X21. The tool [database_execute_sql] of the bridge makes
    exactly one request and returns an envelope in every case: success with
    the rows and their count when the request is answered 200 with JSON,
    and otherwise the failure "Database error: ..." for another status and
    "SQL execution failed: ..." for every other fault. *)
Theorem mcp_sql_single_request (query : string) (params : option (list PyVal))
        (w : World) :
  exists r,
    MCPServer.database_execute_sql srv query params w
    = (Ret r, snd (http (sql_request srv query params) w))
    /\ error r = mcp_sql_error (respond (calls w) (sql_request srv query params))
    /\ (success r = true
        <-> mcp_sql_error (respond (calls w) (sql_request srv query params)) = None)
    /\ (forall rows,
          rows_of (respond (calls w) (sql_request srv query params)) = Some rows ->
          success r = true /\ data r = rows
          /\ assoc_get "row_count" (metadata r)
             = Some (VInt (DatabaseTool.row_count rows))).
Proof.
  unfold MCPServer.database_execute_sql.
  fold (sql_request srv query params).
  unfold try_except, bind, client_request, bind. simpl.
  destruct (respond (calls w) (sql_request srv query params)) as [msg | response]; simpl.
  - eexists. split; [reflexivity|]. simpl. split; [reflexivity|].
    split; [split; discriminate|]. discriminate.
  - destruct (status_code response =? 200) eqn:Hst; simpl.
    + unfold response_json. destruct (json response) as [msg | v]; simpl.
      * eexists. split; [reflexivity|]. simpl. split; [reflexivity|].
        split; [split; discriminate|]. discriminate.
      * eexists. split; [reflexivity|]. simpl. split; [reflexivity|].
        split; [split; reflexivity|]. intros rows Hr. inversion Hr; subst.
        auto.
    + eexists. split; [reflexivity|]. simpl. split; [reflexivity|].
      split; [split; discriminate|]. discriminate.
Qed.

Lemma mcp_sql_returns query params w :
  exists r,
    MCPServer.database_execute_sql srv query params w
    = (Ret r, snd (http (sql_request srv query params) w)).
Proof.
  unfold MCPServer.database_execute_sql. fold (sql_request srv query params).
  apply one_request.
  - intros r. destruct (negb (status_code r =? 200));
      [apply silent_create_tool_result|].
    apply silent_bind; [apply silent_response_json|].
    intros d. apply silent_create_tool_result.
  - intros e. apply silent_create_tool_result.
  - intros e. apply total_create_tool_result.
Qed.

Lemma mcp_list_files_returns bucket_name folder_path ext w :
  exists r,
    MCPServer.storage_list_files srv bucket_name folder_path ext w
    = (Ret r, snd (http (list_request srv bucket_name folder_path) w)).
Proof.
  unfold MCPServer.storage_list_files.
  fold (list_request srv bucket_name folder_path).
  apply one_request.
  - intros r. destruct (negb (status_code r =? 200));
      [apply silent_create_tool_result|].
    apply silent_bind; [apply silent_response_json|]. intros files.
    apply silent_bind.
    { destruct (nonempty ext); [|apply silent_ret].
      apply silent_bind; [apply silent_py_iter|]. intros l.
      apply silent_bind;
        [apply silent_filterM; intros ?; apply silent_has_extension|].
      intros kept. apply silent_ret. }
    intros files'. apply silent_bind; [apply silent_py_iter|]. intros l.
    apply silent_bind;
      [apply silent_mapM; intros ?; apply silent_process_file|].
    intros processed. apply silent_create_tool_result.
  - intros e. apply silent_create_tool_result.
  - intros e. apply total_create_tool_result.
Qed.

(** X22. The tool [workflow_health_check] of the bridge always
    reports success after exactly two requests, the database probe and the
    storage probe; it checks three components, and as the third is a
    constant the overall status is "healthy" or "degraded", never
    "unhealthy". *)
Theorem mcp_health_check_always_succeeds (w : World) :
  exists r w' overall,
    MCPServer.workflow_health_check srv w = (Ret r, w')
    /\ success r = true
    /\ error r = None
    /\ assoc_get "components_checked" (metadata r) = Some (VInt 3)
    /\ result_field "overall" (data r) = Some (VStr overall)
    /\ (overall = "healthy" \/ overall = "degraded")
    /\ trace w'
       = trace w ++ [EvHttp (sql_request srv "SELECT 1 as health_check" None);
                     EvHttp (list_request srv "orbit-images" "")]
    /\ calls w' = (calls w + 2)%nat.
Proof.
  unfold MCPServer.workflow_health_check, MCPServer.health_components.
  unfold try_except at 1. unfold bind at 1. unfold utcnow_iso at 1.
  unfold bind at 1. unfold bind at 1. unfold try_except at 1. unfold bind at 1.
  destruct (mcp_sql_returns "SELECT 1 as health_check" None w) as (db & E1).
  rewrite E1. unfold ret at 1. unfold bind at 1.
  unfold try_except at 1. unfold bind at 1.
  destruct (mcp_list_files_returns "orbit-images" "" None
              (snd (http (sql_request srv "SELECT 1 as health_check" None) w)))
    as (st & E2).
  rewrite E2. unfold ret at 1.
  eexists. eexists.
  exists (MCPServer.determine_overall
            [status_of (success db); status_of (success st); "healthy"]).
  split; [reflexivity|]. simpl.
  split; [reflexivity|]. split; [reflexivity|]. split; [reflexivity|].
  split; [reflexivity|]. split.
  - unfold MCPServer.determine_overall.
    destruct (success db), (success st); simpl; auto.
  - split; [rewrite <- app_assoc; reflexivity | lia].
Qed.

(** X23. When the pending-order query of
    [get_workflow_context] fails, the tool returns that failure with its
    error and no data, after this one request: the storage is not
    probed. *)
Theorem mcp_context_reports_database_failure (w : World) (e : string) :
  mcp_sql_error (respond (calls w) (sql_request srv MCPServer.pending_query None))
  = Some e ->
  exists r,
    MCPServer.get_workflow_context srv w
    = (Ret r, snd (http (sql_request srv MCPServer.pending_query None) w))
    /\ success r = false
    /\ error r = Some e
    /\ data r = VNone.
Proof.
  intros He. unfold MCPServer.get_workflow_context.
  unfold try_except at 1. unfold bind at 1.
  unfold MCPServer.database_execute_sql.
  fold (sql_request srv MCPServer.pending_query None).
  unfold try_except, bind, client_request, bind.
  change (http (sql_request srv MCPServer.pending_query None) w)
    with (Ret (respond (calls w) (sql_request srv MCPServer.pending_query None)),
          snd (http (sql_request srv MCPServer.pending_query None) w)).
  cbv beta iota.
  set (w1 := snd (http (sql_request srv MCPServer.pending_query None) w)).
  unfold mcp_sql_error in He.
  destruct (respond (calls w) (sql_request srv MCPServer.pending_query None))
    as [msg | response].
  - inversion He; subst. eexists. split; [reflexivity|]. simpl. auto.
  - unfold ret at 1. cbv beta iota.
    destruct (negb (status_code response =? 200)).
    + inversion He; subst. eexists. split; [reflexivity|]. simpl. auto.
    + unfold response_json. destruct (json response) as [msg | v];
        [|discriminate].
      inversion He; subst. eexists. split; [reflexivity|]. simpl. auto.
Qed.

(** One round of the signing loop is one request. *)
Lemma mcp_sign_one_calls bucket_name expires_in file_path w res w' :
  MCPServer.sign_one srv bucket_name expires_in file_path w = (res, w') ->
  calls w' = S (calls w).
Proof.
  unfold MCPServer.sign_one. unfold bind at 1. unfold client_request at 1.
  unfold bind at 1.
  match goal with
  | |- context [http ?r w] =>
      change (http r w) with (Ret (respond (calls w) r), snd (http r w));
      set (w1 := snd (http r w));
      assert (Hc : calls w1 = S (calls w)) by reflexivity;
      destruct (respond (calls w) r) as [msg | response]
  end.
  - cbv beta iota. unfold raise. intros E; inversion E; subst. exact Hc.
  - cbv beta iota. unfold ret at 1.
    assert (Hs : silent
              (if status_code response =? 200
               then let! data := response_json response in
                    let! signed := py_get data "signedURL" VNone in
                    let! ts := utcnow_iso in
                    ret (sdict [("path", VStr file_path); ("signed_url", signed);
                                ("expires_at", VStr ts);
                                ("expires_in", VInt expires_in)],
                         truthy signed)
               else ret (sdict [("path", VStr file_path);
                                ("error",
                                 VStr ("Failed to create signed URL: "
                                       +:+ str_int (status_code response)));
                                ("signed_url", VNone)],
                         false))).
    { destruct (status_code response =? 200); [|apply silent_ret].
      apply silent_bind; [apply silent_response_json|]. intros d.
      apply silent_bind; [apply silent_py_get|]. intros sg.
      apply silent_bind; [apply silent_utcnow_iso|]. intros ts.
      apply silent_ret. }
    intros E. rewrite (Hs _ _ _ E). exact Hc.
Qed.

Lemma mcp_sign_all bucket_name expires_in paths :
  forall w,
    match mapM (MCPServer.sign_one srv bucket_name expires_in) paths w with
    | (Ret urls, w') =>
        length urls = length paths
        /\ calls w' = (calls w + length paths)%nat
    | (Raise _, w') =>
        (calls w < calls w' <= calls w + length paths)%nat
    end.
Proof.
  induction paths as [|p paths IH]; intros w; simpl.
  - split; [reflexivity | lia].
  - unfold bind at 1.
    destruct (MCPServer.sign_one srv bucket_name expires_in p w)
      as [[u | e] w1] eqn:E1;
      pose proof (mcp_sign_one_calls _ _ _ _ _ _ E1) as Hc; [|lia].
    unfold bind at 1. specialize (IH w1).
    destruct (mapM (MCPServer.sign_one srv bucket_name expires_in) paths w1)
      as [[us | e] w2]; [|lia].
    simpl. destruct IH as [Hl Hcalls]. split; lia.
Qed.

(** X24. [storage_create_signed_urls] of the bridge always
    returns an envelope. On success it has made one request per path, holds
    one entry per path, and counts between 0 and that many signed URLs; on
    failure it has stopped at the faulty request and returns no entry at
    all, also for the paths signed before. *)
Theorem mcp_signed_urls_all_or_nothing (bucket_name : string)
        (file_paths : list string) (expires_in : Z) (w : World) :
  exists r w',
    MCPServer.storage_create_signed_urls srv bucket_name file_paths expires_in w
    = (Ret r, w')
    /\ (success r = true ->
        calls w' = (calls w + length file_paths)%nat
        /\ (exists urls, data r = VList urls /\ length urls = length file_paths)
        /\ assoc_get "url_count" (metadata r)
           = Some (VInt (Z.of_nat (length file_paths)))
        /\ exists signed,
             assoc_get "successful_urls" (metadata r) = Some (VInt signed)
             /\ 0 <= signed <= Z.of_nat (length file_paths))
    /\ (success r = false ->
        data r = VNone
        /\ (calls w < calls w' <= calls w + length file_paths)%nat
        /\ exists e, error r = Some ("Signed URL creation failed: " +:+ e)).
Proof.
  unfold MCPServer.storage_create_signed_urls.
  unfold try_except at 1. unfold bind at 1.
  pose proof (mcp_sign_all bucket_name expires_in file_paths w) as Hall.
  destruct (mapM (MCPServer.sign_one srv bucket_name expires_in) file_paths w)
    as [[urls | e] w1].
  - destruct Hall as [Hl Hc].
    eexists. eexists. split; [reflexivity|]. simpl. split; [|discriminate].
    intros _. split; [exact Hc|]. split.
    { exists (map fst urls). split; [reflexivity|]. rewrite length_map. exact Hl. }
    split; [rewrite Hl; reflexivity|].
    eexists. split; [reflexivity|]. split; [lia|].
    rewrite <- Hl. apply inj_le. apply length_filter.
  - eexists. eexists. split; [reflexivity|]. simpl. split; [discriminate|].
    intros _. split; [reflexivity|]. split; [exact Hall|]. eauto.
Qed.
End Bridge.

(** ** HealthAggregator: the two health checks *)

Lemma all_healthy_forall statuses :
  forallb (fun status => String.eqb status "healthy") statuses = true
  <-> Forall (fun status => status = "healthy") statuses.
Proof.
  rewrite forallb_forall, List.Forall_forall. split; intros Hall s Hs.
  - apply String.eqb_eq. apply Hall. exact Hs.
  - apply String.eqb_eq. apply Hall. exact Hs.
Qed.

Lemma some_healthy_exists statuses :
  existsb (fun status => String.eqb status "healthy") statuses = true
  <-> Exists (fun status => status = "healthy") statuses.
Proof.
  rewrite existsb_exists, List.Exists_exists. split; intros (s & Hs & Heq); exists s.
  - split; [exact Hs | apply String.eqb_eq; exact Heq].
  - split; [exact Hs | apply String.eqb_eq; exact Heq].
Qed.

Lemma determine_overall_reduces statuses :
  reduces_to statuses (ORBITAgent.determine_overall statuses).
Proof.
  unfold reduces_to, ORBITAgent.determine_overall.
  destruct (forallb _ statuses) eqn:Hall.
  - apply all_healthy_forall in Hall. split; [reflexivity|]. split.
    + intros Hne Hnone. destruct statuses as [|s rest]; [contradiction|].
      inversion Hall; subst. inversion Hnone; subst. contradiction.
    + intros _ Hbad. apply List.Exists_exists in Hbad. destruct Hbad as (s & Hs & Hb).
      rewrite List.Forall_forall in Hall. exfalso. apply Hb. apply Hall. exact Hs.
  - assert (Hnot : ~ Forall (fun status => status = "healthy") statuses).
    { intros Hf. apply all_healthy_forall in Hf. congruence. }
    split; [intros Hf; contradiction|].
    destruct (existsb _ statuses) eqn:Hany.
    + apply some_healthy_exists in Hany. split; [|reflexivity].
      intros _ Hnone. apply List.Exists_exists in Hany. destruct Hany as (s & Hs & Hh).
      rewrite List.Forall_forall in Hnone. exfalso. exact (Hnone s Hs Hh).
    + split; [reflexivity|]. intros Hgood. apply some_healthy_exists in Hgood.
      congruence.
Qed.

Lemma mcp_determine_overall_reduces statuses :
  reduces_to statuses (MCPServer.determine_overall statuses).
Proof. exact (determine_overall_reduces statuses). Qed.

Section HealthReduction.
Context `{Env}.

Lemma health_check_probes self w :
  exists db_result w1 storage_result w2 hs w',
    DatabaseTool._execute (ORBITAgent.database (ORBITAgent.config self))
      (Some "SELECT 1 as health_check") None true "health_check" w
    = (Ret db_result, w1)
    /\ ORBITAgent.list_bucket self w1 = (Ret storage_result, w2)
    /\ ORBITAgent.health_check self w
       = (Ret (hs, ORBITAgent.set_is_healthy self
                     (String.eqb (ORBITAgent.overall hs) "healthy")), w')
    /\ ORBITAgent.components hs
       = [("database", status_of (success db_result));
          ("storage", status_of (success storage_result));
          ("ai_analysis", "healthy"); ("metadata_embed", "healthy")]
    /\ ORBITAgent.overall hs
       = ORBITAgent.determine_overall (map snd (ORBITAgent.components hs)).
Proof.
  unfold ORBITAgent.health_check.
  unfold bind at 1. unfold utcnow_iso at 1. unfold try_except at 1.
  unfold bind at 1.
  destruct (total_database_execute (ORBITAgent.database (ORBITAgent.config self))
              "SELECT 1 as health_check" None true "health_check" w)
    as (db_result & w1 & E1).
  rewrite E1. unfold bind at 1.
  destruct (total_storage_execute (ORBITAgent.storage (ORBITAgent.config self))
              "list_files" (ORBITAgent.storage_bucket (ORBITAgent.config self))
              None None None None 3600 "" None w1) as (st_result & w2 & E2).
  fold (ORBITAgent.list_bucket self) in E2. rewrite E2.
  unfold bind at 1.
  destruct (probe_ai_healthy self w2) as (w3 & E3 & _). rewrite E3.
  unfold bind at 1.
  destruct (probe_metadata_healthy self w3) as (w4 & E4 & _). rewrite E4.
  unfold ret at 1.
  exists db_result, w1, st_result, w2.
  match goal with
  | |- exists hs w', _ /\ _ /\ (Ret (?h, _), ?w0) = _ /\ _ => exists h, w0
  end.
  split; [reflexivity|]. split; [exact E2|]. split; [reflexivity|].
  split; reflexivity.
Qed.

Lemma mcp_health_check_probes srv w :
  exists db_result w1 storage_result w2 r w' ts,
    MCPServer.database_execute_sql srv "SELECT 1 as health_check" None w
    = (Ret db_result, w1)
    /\ MCPServer.storage_list_files srv "orbit-images" "" None w1
       = (Ret storage_result, w2)
    /\ MCPServer.workflow_health_check srv w = (Ret r, w')
    /\ data r
       = sdict [("timestamp", VStr ts);
                ("overall",
                 VStr (MCPServer.determine_overall
                         [status_of (success db_result);
                          status_of (success storage_result); "healthy"]));
                ("components",
                 sdict [("database", VStr (status_of (success db_result)));
                        ("storage", VStr (status_of (success storage_result)));
                        ("edge_functions", VStr "healthy")])].
Proof.
  unfold MCPServer.workflow_health_check, MCPServer.health_components.
  unfold try_except at 1. unfold bind at 1. unfold utcnow_iso at 1.
  unfold bind at 1. unfold bind at 1. unfold try_except at 1. unfold bind at 1.
  destruct (mcp_sql_returns srv "SELECT 1 as health_check" None w) as (db & E1).
  rewrite E1. unfold ret at 1. unfold bind at 1.
  unfold try_except at 1. unfold bind at 1.
  destruct (mcp_list_files_returns srv "orbit-images" "" None
              (snd (http (sql_request srv "SELECT 1 as health_check" None) w)))
    as (st & E2).
  rewrite E2. unfold ret at 1.
  exists db. eexists. exists st. eexists. eexists. eexists. eexists.
  split; [reflexivity|]. split; [exact E2|]. split; [reflexivity|]. reflexivity.
Qed.

(** C6. The health check of the agent and the tool [workflow_health_check]
    of the bridge both return; each maps its database probe and its storage
    probe to "healthy" exactly when the envelope of the probe reports
    success, and adds components that are always "healthy" (two in the
    agent, one in the bridge). The overall status each reports is the
    reduction of its components: "healthy" if all are healthy, "unhealthy"
    if none is, "degraded" for a mix; so the two report the same overall
    status whenever their probes fare the same. The two reductions do this
    for every list of probe results. *)
Theorem health_reduction (self : ORBITAgent.t) (srv : MCPServer.t) (w wm : World) :
  exists db_result w1 storage_result w2 hs self' w'
         mcp_db_result wm1 mcp_storage_result wm2 r wm' mcp_overall,
    (DatabaseTool._execute (ORBITAgent.database (ORBITAgent.config self))
       (Some "SELECT 1 as health_check") None true "health_check" w
     = (Ret db_result, w1)
     /\ ORBITAgent.list_bucket self w1 = (Ret storage_result, w2)
     /\ ORBITAgent.health_check self w = (Ret (hs, self'), w')
     /\ ORBITAgent.components hs
        = [("database", status_of (success db_result));
           ("storage", status_of (success storage_result));
           ("ai_analysis", "healthy"); ("metadata_embed", "healthy")]
     /\ reduces_to (map snd (ORBITAgent.components hs)) (ORBITAgent.overall hs))
    /\ (MCPServer.database_execute_sql srv "SELECT 1 as health_check" None wm
        = (Ret mcp_db_result, wm1)
        /\ MCPServer.storage_list_files srv "orbit-images" "" None wm1
           = (Ret mcp_storage_result, wm2)
        /\ MCPServer.workflow_health_check srv wm = (Ret r, wm')
        /\ result_field "components" (data r)
           = Some (sdict [("database", VStr (status_of (success mcp_db_result)));
                          ("storage", VStr (status_of (success mcp_storage_result)));
                          ("edge_functions", VStr "healthy")])
        /\ result_field "overall" (data r) = Some (VStr mcp_overall)
        /\ reduces_to [status_of (success mcp_db_result);
                       status_of (success mcp_storage_result); "healthy"]
                      mcp_overall)
    /\ (success db_result = success mcp_db_result ->
        success storage_result = success mcp_storage_result ->
        ORBITAgent.overall hs = mcp_overall)
    /\ (forall ok, status_of ok = "healthy" <-> ok = true)
    /\ (forall probes : list (string * ToolResult),
          reduces_to (component_statuses probes)
                     (ORBITAgent.determine_overall (component_statuses probes))
          /\ reduces_to (component_statuses probes)
                        (MCPServer.determine_overall (component_statuses probes))).
Proof.
  destruct (health_check_probes self w)
    as (db_result & w1 & storage_result & w2 & hs & w' & E1 & E2 & E & Hc & Ho).
  destruct (mcp_health_check_probes srv wm)
    as (mdb & wm1 & mst & wm2 & r & wm' & ts & M1 & M2 & M & Hd).
  exists db_result, w1, storage_result, w2, hs. eexists. exists w'.
  exists mdb, wm1, mst, wm2, r, wm'. eexists.
  split; [|split; [|split; [|split]]].
  - split; [exact E1|]. split; [exact E2|]. split; [exact E|]. split; [exact Hc|].
    rewrite Ho. apply determine_overall_reduces.
  - split; [exact M1|]. split; [exact M2|]. split; [exact M|].
    rewrite Hd. split; [reflexivity|]. split; [reflexivity|].
    apply mcp_determine_overall_reduces.
  - intros Hdb Hst. rewrite Ho, Hc, Hdb, Hst.
    destruct (success mdb), (success mst); reflexivity.
  - intros ok. destruct ok; simpl; split; congruence.
  - intros probes. split;
      [apply determine_overall_reduces | apply mcp_determine_overall_reduces].
Qed.
End HealthReduction.

(** C6 in a world whose database answers 500 to every attempt of the agent
    (the storage answers): "degraded"; and for the bridge in a world in
    which both probes answer: "healthy". *)
Lemma health_reduction_witness :
  exists hs self' w' r wm',
    @ORBITAgent.health_check database_down demo_agent world0 = (Ret (hs, self'), w')
    /\ ORBITAgent.components hs
       = [("database", "unhealthy"); ("storage", "healthy");
          ("ai_analysis", "healthy"); ("metadata_embed", "healthy")]
    /\ ORBITAgent.overall hs = "degraded"
    /\ @MCPServer.workflow_health_check nothing_pending demo_srv world0 = (Ret r, wm')
    /\ result_field "overall" (data r) = Some (VStr "healthy").
Proof.
  destruct (@health_reduction database_down demo_agent demo_srv world0 world0)
    as (db_result & w1 & storage_result & w2 & hs & self' & w'
        & _ & _ & _ & _ & _ & _ & _
        & (E1 & E2 & E & Hc & Hall & Hnone & Hmix) & _).
  destruct (@health_reduction nothing_pending demo_agent demo_srv world0 world0)
    as (_ & _ & _ & _ & _ & _ & _
        & mdb & wm1 & mst & wm2 & r & wm' & mo
        & _ & (M1 & M2 & M & _ & Hmo & Hmall & _) & _).
  assert (Hdb : success db_result = false).
  { vm_compute in E1. inversion E1; subst. reflexivity. }
  assert (Hst : success storage_result = true).
  { vm_compute in E1. inversion E1; subst w1 db_result.
    vm_compute in E2. inversion E2; subst. reflexivity. }
  assert (Hmdb : success mdb = true).
  { vm_compute in M1. inversion M1; subst. reflexivity. }
  assert (Hmst : success mst = true).
  { vm_compute in M1. inversion M1; subst wm1 mdb.
    vm_compute in M2. inversion M2; subst. reflexivity. }
  rewrite Hdb, Hst in Hc. simpl in Hc.
  exists hs, self', w', r, wm'.
  split; [exact E|]. split; [exact Hc|]. split.
  - apply Hmix; rewrite Hc; simpl.
    + apply Exists_cons_tl. apply Exists_cons_hd. reflexivity.
    + apply Exists_cons_hd. discriminate.
  - split; [exact M|]. rewrite Hmo. f_equal. f_equal. apply Hmall.
    rewrite Hmdb, Hmst. simpl. repeat constructor.
Defined.

Section Storage.
Context `{Env}.
Variable tool : StorageTool.t.

(** X25. The storage operations [list_files],
    [download_file], [delete_file] and [verify_file] return an envelope
    after exactly one request, which is not repeated; a fault of the
    transport is reported as the failure with its message. *)
Theorem storage_one_request_per_operation (operation bucket : string)
        (path content content_type : option string)
        (file_paths : option (list string)) (expires_in : Z)
        (folder_path : string) (file_extension : option string)
        (req : HttpRequest) (w : World) :
  storage_request tool operation bucket path folder_path = Some req ->
  exists r,
    StorageTool._execute tool operation bucket path content content_type
                         file_paths expires_in folder_path file_extension w
    = (Ret r, snd (http req w))
    /\ (forall msg, respond (calls w) req = Failed msg ->
                    success r = false /\ error r = Some msg).
Proof.
  unfold storage_request, StorageTool._execute. intros Hreq.
  assert (Hfail : forall (k : Response -> M ToolResult) r,
             try_except (bind (client_request req) k)
                        (fun error => Envelope.init false VNone (Some error) None) w
             = (Ret r, snd (http req w)) ->
             forall msg, respond (calls w) req = Failed msg ->
                         success r = false /\ error r = Some msg).
  { intros k r E msg Hmsg. revert E.
    unfold try_except, bind, client_request, bind.
    change (http req w) with (Ret (respond (calls w) req), snd (http req w)).
    cbv beta iota. rewrite Hmsg. unfold raise.
    intros E. inversion E; subst. split; reflexivity. }
  destruct (String.eqb operation "list_files") eqn:H1.
  { inversion Hreq; subst req; clear Hreq.
    match goal with
    | |- exists r, try_except ?m ?h w = _ /\ _ =>
        unfold StorageTool._list_files;
        match goal with
        | |- exists r, try_except (bind (client_request ?rq) ?k) _ w = _ /\ _ =>
            destruct (one_request rq k h w) as (r & E)
        end
    end.
    - intros r. destruct (negb (status_code r =? 200)); [apply silent_raise|].
      apply silent_bind; [apply silent_response_json|]. intros files.
      apply silent_bind.
      { destruct (nonempty file_extension); [|apply silent_ret].
        apply silent_bind; [apply silent_py_iter|]. intros l.
        apply silent_bind;
          [apply silent_filterM; intros ?; apply silent_has_extension|].
        intros kept. apply silent_ret. }
      intros files'. apply silent_bind; [apply silent_py_iter|]. intros l.
      apply silent_bind;
        [apply silent_mapM; intros ?; apply silent_process_file|].
      intros processed. apply silent_init.
    - intros e. apply silent_init.
    - intros e. apply total_init.
    - exists r. split; [exact E|]. eapply Hfail. exact E. }
  destruct (String.eqb_spec operation "create_signed_urls") as [-> | _];
    [discriminate Hreq|].
  destruct (String.eqb_spec operation "upload_file") as [-> | _];
    [discriminate Hreq|].
  destruct (String.eqb operation "download_file") eqn:H2.
  { inversion Hreq; subst req; clear Hreq.
    unfold StorageTool._download_file.
    match goal with
    | |- exists r, try_except (bind (client_request ?rq) ?k) ?h w = _ /\ _ =>
        destruct (one_request rq k h w) as (r & E)
    end.
    - intros r. destruct (negb (status_code r =? 200));
        [apply silent_raise | apply silent_init].
    - intros e. apply silent_init.
    - intros e. apply total_init.
    - exists r. split; [exact E|]. eapply Hfail. exact E. }
  destruct (String.eqb operation "delete_file") eqn:H3.
  { inversion Hreq; subst req; clear Hreq.
    unfold StorageTool._delete_file.
    match goal with
    | |- exists r, try_except (bind (client_request ?rq) ?k) ?h w = _ /\ _ =>
        destruct (one_request rq k h w) as (r & E)
    end.
    - intros r. destruct (negb (status_code r =? 200));
        [apply silent_raise | apply silent_init].
    - intros e. apply silent_init.
    - intros e. apply total_init.
    - exists r. split; [exact E|]. eapply Hfail. exact E. }
  destruct (String.eqb operation "verify_file") eqn:H4; [|discriminate Hreq].
  inversion Hreq; subst req; clear Hreq.
  unfold StorageTool._verify_file.
  match goal with
  | |- exists r, try_except (bind (client_request ?rq) ?k) ?h w = _ /\ _ =>
      destruct (one_request rq k h w) as (r & E)
  end.
  - intros r. apply silent_bind; [|intros size; apply silent_init].
    destruct (status_code r =? 200); [|apply silent_ret].
    destruct (header_get "content-length" (headers r)); [|apply silent_ret].
    destruct (int_of_str s); [apply silent_raise | apply silent_ret].
  - intros e. apply silent_init.
  - intros e. apply total_init.
  - exists r. split; [exact E|]. eapply Hfail. exact E.
Qed.

End Storage.

(** ** Monitoring *)

Lemma numbers_snoc_none l e : MonitoringTool.numbers (l ++ [(None, e)]) = None.
Proof.
  induction l as [|[[q|] x] l IH]; simpl; try reflexivity.
  rewrite IH. reflexivity.
Qed.

Lemma summarize_with_null name l e :
  exists msg, MonitoringTool.summarize name (l ++ [(None, e)]) = Raise msg.
Proof.
  unfold MonitoringTool.summarize.
  destruct (l ++ [(None, e)]) as [|x rest] eqn:Hl.
  - destruct l; discriminate.
  - rewrite <- Hl, numbers_snoc_none. eexists. reflexivity.
Qed.

Lemma summaries_with_null name e ms :
  exists msg,
    MonitoringTool.summaries (MonitoringTool.add_metric name (None, e) ms)
    = Raise msg.
Proof.
  induction ms as [|[k l] ms IH].
  - simpl. eexists. reflexivity.
  - cbn [MonitoringTool.add_metric].
    destruct (decide (k = name)) as [-> | Hne]; cbn [MonitoringTool.summaries].
    + destruct (summarize_with_null name l e) as (msg & ->). eauto.
    + destruct (MonitoringTool.summarize k l) as [s | msg]; [|eauto].
      destruct IH as (msg & ->). eauto.
Qed.

Section Monitoring.
Context `{Env}.

(** X26. An [alert] action without severity
    returns a failure envelope, but the alert is stored all the same: the
    list of alerts has grown by the alert with a null severity, while logs
    and metrics are unchanged. *)
Theorem alert_without_severity_is_stored (self : MonitoringTool.t)
        (level message metric_name : option string) (metric_value : option Q)
        (metric_unit : option string) (w : World) :
  exists r self' alert,
    MonitoringTool._execute self "alert" level message metric_name metric_value
                            metric_unit None w = (Ret (r, self'), w)
    /\ success r = false
    /\ error r = Some "'NoneType' object has no attribute 'upper'"
    /\ MonitoringTool.alerts self' = MonitoringTool.alerts self ++ [alert]
    /\ result_field "severity" alert = Some VNone
    /\ result_field "message" alert = Some (opt_str message)
    /\ MonitoringTool.logs self' = MonitoringTool.logs self
    /\ MonitoringTool.metrics self' = MonitoringTool.metrics self.
Proof.
  unfold MonitoringTool._execute, MonitoringTool._create_alert. simpl.
  eexists. eexists. eexists. split; [reflexivity|]. simpl.
  repeat split; reflexivity.
Qed.

(** X27. A [metric] action without a value succeeds
    and stores the entry, and the report that follows fails, without
    data. *)
Theorem metric_without_value_breaks_reports (self : MonitoringTool.t)
        (level message metric_name metric_unit alert_severity : option string)
        (w : World) :
  exists r1 self1 r2,
    MonitoringTool._execute self "metric" level message metric_name None
                            metric_unit alert_severity w = (Ret (r1, self1), w)
    /\ success r1 = true
    /\ MonitoringTool._execute self1 "report" level message metric_name None
                               metric_unit alert_severity w = (Ret (r2, self1), w)
    /\ success r2 = false
    /\ data r2 = VNone.
Proof.
  destruct (summaries_with_null metric_name
              (sdict [("timestamp", VStr (isoformat (now w)));
                      ("value", VNone); ("unit", opt_str metric_unit)])
              (MonitoringTool.metrics self)) as (msg & Hs).
  unfold MonitoringTool._execute at 1. unfold MonitoringTool._record_metric.
  cbn [String.eqb Ascii.eqb Bool.eqb].
  eexists. eexists. eexists. split; [reflexivity|]. split; [reflexivity|].
  unfold MonitoringTool._execute, MonitoringTool._generate_report.
  cbn [String.eqb Ascii.eqb Bool.eqb MonitoringTool.metrics].
  rewrite Hs.
  split; [reflexivity|]. split; reflexivity.
Qed.
End Monitoring.

(** ** The workflow executor *)

(** X28. [ORBITConfig.validate] reports no error exactly when the
    address and the key of the service are set and either mock mode is on
    or both the analysis and the embedding endpoint are set; it reports at
    most four errors, at most two of them in mock mode, and none twice. *)
Theorem validate_accepts_exactly (c : ORBITAgent.ORBITConfig) :
  (Config.validate c = []
   <-> ORBITAgent.supabase_url c <> ""
       /\ ORBITAgent.supabase_service_key c <> ""
       /\ (ORBITAgent.mock_mode c = true
           \/ nonempty (ORBITAgent.gemini_endpoint c) = true
              /\ nonempty (ORBITAgent.metadata_endpoint c) = true))
  /\ (length (Config.validate c) <= 4)%nat
  /\ (ORBITAgent.mock_mode c = true -> (length (Config.validate c) <= 2)%nat)
  /\ NoDup (Config.validate c).
Proof.
  unfold Config.validate.
  destruct (String.eqb_spec (ORBITAgent.supabase_url c) "") as [Hu | Hu];
    destruct (String.eqb_spec (ORBITAgent.supabase_service_key c) "") as [Hk | Hk];
    destruct (ORBITAgent.mock_mode c);
    destruct (nonempty (ORBITAgent.gemini_endpoint c));
    destruct (nonempty (ORBITAgent.metadata_endpoint c)); simpl;
    (split; [split; [try discriminate; intros _; repeat split; auto
                    | intros (H1 & H2 & H3); try contradiction; try reflexivity;
                      destruct H3 as [H3 | [H3 H4]]; discriminate]
            |split; [lia | split; [intros; try lia; discriminate|]]]);
    repeat (apply NoDup_cons; split;
            [rewrite ?list_elem_of_In; simpl; intuition discriminate|]);
    apply NoDup_nil_2.
Qed.

Section Executor.
Context `{Env}.
Variable build_workflow_prompt : WorkflowContext.t -> string.
Variable new_agent : ORBITAgent.ORBITConfig -> M ORBITAgent.t.
Variable model_name : string.

(** X29. With an invalid configuration and no agent yet,
    [execute_full_workflow] returns the failure of [initialize], which
    lists the configuration errors; the agent is not built, the executor
    is unchanged and so is the world: no request is made. *)
Theorem invalid_config_stops_executor (self : ORBITWorkflowExecutor.t)
        (order_id : option string) (w : World) :
  ORBITWorkflowExecutor.agent self = None ->
  Config.validate (ORBITWorkflowExecutor.config self) <> [] ->
  exists result,
    ORBITWorkflowExecutor.execute_full_workflow build_workflow_prompt new_agent
      model_name self order_id w = (Ret (result, self), w)
    /\ result_field "success" result = Some (VBool false)
    /\ result_field "error" result
       = Some (VStr ("Configuration errors: "
                     +:+ String.concat ", "
                           (Config.validate (ORBITWorkflowExecutor.config self))))
    /\ result_field "config_errors" result
       = Some (VList (map VStr (Config.validate (ORBITWorkflowExecutor.config self)))).
Proof.
  intros Hagent Hbad.
  unfold ORBITWorkflowExecutor.execute_full_workflow. rewrite Hagent.
  unfold ORBITWorkflowExecutor.initialize.
  destruct (Config.validate (ORBITWorkflowExecutor.config self)) as [|e errors];
    [contradiction|].
  eexists. split; [reflexivity|]. split; [reflexivity|]. split; reflexivity.
Qed.

(** X30. With a valid configuration and no
    agent yet, [execute_full_workflow] builds the agent and runs the health
    check twice before anything else, once in [initialize] and once in
    [execute_workflow]: the database tool is entered for the health query
    twice and then for the pending-order query, and at most one agent run
    is started. Every later entry into the database tool is one that the
    tools of the agent made during that run, so there is none when no run
    was started. *)
Theorem first_run_checks_health_twice (self : ORBITWorkflowExecutor.t)
        (order_id : option string) (w w0 : World) (a : ORBITAgent.t) :
  ORBITWorkflowExecutor.agent self = None ->
  Config.validate (ORBITWorkflowExecutor.config self) = [] ->
  new_agent (ORBITWorkflowExecutor.config self) w = (Ret a, w0) ->
  exists result self' a' w',
    ORBITWorkflowExecutor.execute_full_workflow build_workflow_prompt new_agent
      model_name self order_id w = (Ret (result, self'), w')
    /\ ORBITWorkflowExecutor.agent self' = Some a'
    /\ (exists later,
          executed (trace w')
          = executed (trace w0)
            ++ [Some "SELECT 1 as health_check"; Some "SELECT 1 as health_check";
                Some ORBITAgent.pending_query]
            ++ later
          /\ (agent_runs (trace w') = agent_runs (trace w0) -> later = [])
          /\ (agent_runs (trace w') <> agent_runs (trace w0) ->
              exists requests,
                later = tool_queries
                          (agent_effects
                             (build_workflow_prompt (ORBITAgent.context a'))
                             requests)))
    /\ (agent_runs (trace w') = agent_runs (trace w0)
        \/ exists prompt, agent_runs (trace w') = agent_runs (trace w0) ++ [prompt]).
Proof.
  intros Hagent Hok Hnew.
  unfold ORBITWorkflowExecutor.execute_full_workflow. rewrite Hagent.
  unfold ORBITWorkflowExecutor.initialize. rewrite Hok.
  unfold bind at 1. unfold bind at 1. unfold try_except at 1. unfold bind at 1.
  rewrite Hnew. unfold bind at 1.
  destruct (health_check_cases a w0)
    as (hs & w1 & db & st & E1 & _ & _ & _ & Hq1 & Hx1).
  rewrite E1. unfold ret at 1.
  cbn [ORBITWorkflowExecutor.init_succeeded sdict map fst snd dict_get
       String.eqb Ascii.eqb Bool.eqb truthy negb].
  unfold ret at 1. cbn [ORBITWorkflowExecutor.agent].
  unfold try_except at 1. unfold bind at 1.
  match goal with
  | |- context [ORBITAgent.execute_workflow _ ?a1 order_id w1] =>
      destruct (workflow_cases build_workflow_prompt a1 order_id w1)
        as (result & a' & w' & added & E & (Hx & later & -> & Hlater) & Hcases)
  end.
  rewrite E. unfold ret at 1.
  eexists. eexists. exists a', w'. split; [reflexivity|].
  split; [reflexivity|].
  destruct Hcases as [(_ & _ & Hz & _ & Hq) | (Hz & Hq & _)];
    rewrite Hz in Hlater; rewrite Hq1 in Hq.
  - split; [|left; exact Hq].
    exists later. split; [rewrite Hx, Hx1, <- app_assoc; reflexivity|].
    split; [intros _; exact Hlater | intros Hne; contradiction].
  - split; [|right; eexists; exact Hq].
    exists later. split; [rewrite Hx, Hx1, <- app_assoc; reflexivity|].
    split; [|intros _; exact Hlater].
    intros Heq. rewrite Hq in Heq. exfalso. exact (snoc_not_same _ _ Heq).
Qed.
End Executor.

(** ** Worked instances *)

(** X1 on a query whose first attempt is answered 500: two requests and
    one backoff of two seconds. *)
Lemma retry_backoff_profile_witness :
  exists k r w',
    @DatabaseTool._execute flaky demo_db (Some "SELECT 1") None true "query" world0
    = (Ret r, w')
    /\ calls w' = S k
    /\ sleeps (trace w') = backoff_from 0 k
    /\ (success r = false -> Z.of_nat k + 1 = 3).
Proof.
  destruct (@retry_backoff_profile flaky demo_db "SELECT 1" None "query" world0)
    as (k & r & w' & _ & E & Hc & Hs & _ & Hf); [simpl; lia|].
  exists k, r, w'. split; [exact E|]. split; [exact Hc|]. split; [exact Hs | exact Hf].
Defined.

(** X2 on a tool with [max_retries = 0]. *)
Lemma no_attempt_without_retries_witness :
  exists r w',
    @DatabaseTool._execute offline unretried_db (Some "SELECT 1") None true "query"
       world0 = (Ret r, w')
    /\ calls w' = 0%nat
    /\ error r = Some "None".
Proof.
  destruct (@no_attempt_without_retries offline unretried_db None "query"
              (Some "SELECT 1") world0) as (r & E & _ & He & _); [simpl; lia|].
  exists r. eexists. split; [exact E|]. split; [reflexivity | exact He].
Defined.

(** X3 on a transaction of two steps that succeed. *)
Lemma transaction_commits_once_witness :
  exists r w',
    @DatabaseTool.execute_transaction all_answered demo_db
       [complete_order; insert_image] world0 = (Ret r, w')
    /\ success r = true
    /\ executed (trace w')
       = [Some "BEGIN";
          Some "UPDATE orders SET processing_stage = 'completed' WHERE id = 1";
          Some "INSERT INTO images (order_id) VALUES (1)";
          Some "COMMIT"].
Proof.
  edestruct (@transaction_commits_once all_answered demo_db
               [complete_order; insert_image] world0)
    as (r & w' & E & Hs & _ & _ & _ & Hx).
  - vm_compute. reflexivity.
  - eapply steps_cons; [reflexivity | vm_compute; reflexivity | reflexivity |].
    eapply steps_cons; [reflexivity | vm_compute; reflexivity | reflexivity |].
    apply steps_nil.
  - exists r, w'. split; [exact E|]. split; [exact Hs | exact Hx].
Defined.

(** X4 on a transaction whose second step is answered 500. *)
Lemma transaction_stops_at_failure_witness :
  exists r w',
    @DatabaseTool.execute_transaction second_fails demo_db
       [complete_order; insert_image; complete_order] world0 = (Ret r, w')
    /\ success r = false
    /\ executed (trace w')
       = [Some "BEGIN";
          Some "UPDATE orders SET processing_stage = 'completed' WHERE id = 1";
          Some "INSERT INTO images (order_id) VALUES (1)";
          Some "ROLLBACK"; Some "ROLLBACK"].
Proof.
  edestruct (@transaction_stops_at_failure second_fails demo_db [complete_order]
               insert_image [complete_order]
               "INSERT INTO images (order_id) VALUES (1)" world0)
    as (r & w' & E & Hs & _ & _ & Hx).
  - vm_compute. reflexivity.
  - eapply steps_cons; [reflexivity | vm_compute; reflexivity | reflexivity |].
    apply steps_nil.
  - reflexivity.
  - vm_compute. reflexivity.
  - reflexivity.
  - exists r, w'. split; [exact E|]. split; [exact Hs | exact Hx].
Defined.

(** X5 on a transaction whose first step names no query. *)
Lemma transaction_step_without_query_witness :
  exists r w',
    @DatabaseTool.execute_transaction all_answered demo_db
       [untitled; complete_order] world0 = (Ret r, w')
    /\ error r = Some "object of type 'NoneType' has no len()"
    /\ executed (trace w') = [Some "BEGIN"; None; Some "ROLLBACK"].
Proof.
  edestruct (@transaction_step_without_query all_answered demo_db [] untitled
               [complete_order] world0)
    as (r & w' & E & _ & He & Hx & _).
  - vm_compute. reflexivity.
  - apply steps_nil.
  - reflexivity.
  - exists r, w'. split; [exact E|]. split; [exact He | exact Hx].
Defined.

(** X6 on a short query, which is kept. *)
Lemma truncate_query_length_witness :
  String.length (truncate_query "SELECT 1") = 8%nat
  /\ ~ (String.length "SELECT 1" < String.length (truncate_query "SELECT 1"))%nat.
Proof.
  destruct (truncate_query_length "SELECT 1") as (Hl & _ & Hlonger).
  split; [exact Hl|]. intros Hlt. apply Hlonger in Hlt.
  destruct Hlt as [Hlt | Hlt]; discriminate Hlt.
Defined.

(** X7 on an update of a todo the ledger does not hold. *)
Lemma progress_tracker_is_pure_witness :
  exists r ledger',
    @ProgressTracker._execute offline four_todos "update_todo" None (Some 9)
       (Some "completed") None world0 = (Ret (r, ledger'), world0)
    /\ (success r = false -> ledger' = four_todos).
Proof.
  exact (@progress_tracker_is_pure offline four_todos "update_todo" None (Some 9)
           (Some "completed") None world0).
Defined.

Lemma four_todos_wf : ledger_wf four_todos.
Proof.
  unfold ledger_wf. simpl. split; [lia|]. split.
  - repeat (apply NoDup_cons_2; [rewrite list_elem_of_In; simpl; lia|]).
    apply NoDup_nil_2.
  - repeat constructor; simpl; lia.
Qed.

(** X8 on a fifth todo added to a ledger of four. *)
Lemma ledger_ids_stay_distinct_witness :
  exists r ledger',
    @ProgressTracker._execute offline four_todos "add_todo" (Some "embed metadata")
       None None None world0 = (Ret (r, ledger'), world0)
    /\ ledger_wf ledger'.
Proof.
  eexists. eexists. split; [vm_compute; reflexivity|].
  eapply (@ledger_ids_stay_distinct offline four_todos "add_todo"
            (Some "embed metadata") None None None world0).
  - exact four_todos_wf.
  - vm_compute. reflexivity.
Defined.

(** X9 on that ledger. *)
Lemma added_todo_can_be_updated_witness :
  exists r1 ledger1 r2 ledger2 td,
    @ProgressTracker._execute offline four_todos "add_todo" (Some "embed metadata")
       None None None world0 = (Ret (r1, ledger1), world0)
    /\ ProgressTracker.tid td = 5
    /\ @ProgressTracker._execute offline ledger1 "update_todo" None (Some 5)
         (Some "completed") None world0 = (Ret (r2, ledger2), world0)
    /\ success r2 = true.
Proof.
  destruct (@added_todo_can_be_updated offline four_todos (Some "embed metadata")
              None (Some "completed") world0 four_todos_wf)
    as (r1 & l1 & r2 & l2 & td & E1 & _ & Hid & _ & E2 & Hs & _).
  exists r1, l1, r2, l2, td. split; [exact E1|]. split; [exact Hid|].
  split; [|exact Hs]. rewrite Hid in E2. exact E2.
Defined.

(** X10 on the third of four todos. *)
Lemma update_todo_changes_one_entry_witness :
  exists r ledger',
    @ProgressTracker._execute offline four_todos "update_todo" None (Some 3)
       (Some "completed") None world0 = (Ret (r, ledger'), world0)
    /\ success r = true
    /\ ProgressTracker.find_todo (Some 4) (ProgressTracker.todos ledger')
       = Some (todo 4 "in_progress").
Proof.
  destruct (@update_todo_changes_one_entry offline four_todos 3 (todo 3 "pending")
              None (Some "completed") None world0 eq_refl)
    as (r & l' & E & Hs & _ & _ & _ & _ & _ & Hother).
  exists r, l'. split; [exact E|]. split; [exact Hs|].
  rewrite (Hother (Some 4)) by discriminate. reflexivity.
Defined.

(** X11 on four todos with the three known statuses. *)
Lemma progress_counts_bounded_witness :
  exists r completed in_progress pending,
    @ProgressTracker._execute offline four_todos "get_progress" None None None None
       world0 = (Ret (r, four_todos), world0)
    /\ reported_int "completed" r = Some completed
    /\ reported_int "in_progress" r = Some in_progress
    /\ reported_int "pending" r = Some pending
    /\ completed + in_progress + pending = 4.
Proof.
  destruct (@progress_counts_bounded offline four_todos world0)
    as (r & c & i & p & t & E & Hc & Hi & Hp & _ & Ht & _ & _ & _ & _ & Hall).
  exists r, c, i, p. split; [exact E|]. split; [exact Hc|]. split; [exact Hi|].
  split; [exact Hp|]. rewrite (proj2 Hall); [rewrite Ht; reflexivity|].
  repeat (apply List.Forall_cons;
          [unfold known_status; simpl;
           first [left; reflexivity | right; left; reflexivity
                 | right; right; reflexivity]|]).
  apply List.Forall_nil.
Defined.

(** X14 on the finished run of four operations and one error. *)
Lemma success_rate_at_most_100_witness :
  0 <= ExecutionStats.errors_encountered finished_run
  /\ (0 <= ExecutionStats.success_rate (ExecutionStats.update_completion finished_run))%Q.
Proof.
  assert (Hrun : stats_reachable finished_run).
  { apply reach_end. apply reach_count; [apply reach_make | lia | lia | lia]. }
  destruct (success_rate_at_most_100 finished_run Hrun) as (He & _ & Hrate).
  split; [exact He|].
  apply (Hrate 70%Q eq_refl); [reflexivity | vm_compute; discriminate].
Defined.

(** X15 in a world whose services all answer. *)
Lemma agent_health_never_unhealthy_witness :
  exists hs self' w',
    @ORBITAgent.health_check nothing_pending demo_agent world0
    = (Ret (hs, self'), w')
    /\ ORBITAgent.overall hs <> "unhealthy"
    /\ (ORBITAgent.is_healthy self' = true <-> ORBITAgent.overall hs = "healthy").
Proof.
  destruct (@agent_health_never_unhealthy nothing_pending demo_agent world0)
    as (hs & self' & w' & db & st & E & _ & Hne & _ & Hflag).
  exists hs, self', w'. split; [exact E|]. split; [exact Hne | exact Hflag].
Defined.

(** The effects scripted for the agent run of [agent_done] are what the
    two tools do when they are called in that world. *)
Lemma update_and_download_by_the_tools :
  exists r1 w1 r2 w2,
    @DatabaseTool._execute agent_done (ORBITAgent.database demo_config)
       (Some "UPDATE orders SET processing_stage = 'completed' WHERE id = 1")
       None true "query" before_run = (Ret r1, w1)
    /\ @StorageTool._execute agent_done (ORBITAgent.storage demo_config)
         "download_file" "orbit-images" (Some "a.jpg") None None None 3600 "" None w1
       = (Ret r2, w2)
    /\ success r1 = true
    /\ success r2 = false
    /\ trace w2 = map effect_event update_and_download
    /\ calls w2 = (calls before_run + requests_of update_and_download)%nat.
Proof.
  eexists. eexists. eexists. eexists.
  split; [vm_compute; reflexivity|].
  split; [vm_compute; reflexivity|].
  split; [reflexivity|]. split; [reflexivity|]. split; reflexivity.
Qed.

(** X16 in a world with two pending orders whose agent updates one order:
    one run, and the update is the third entry into the database tool. *)
Lemma workflow_starts_at_most_one_run_witness :
  exists result self' w',
    @ORBITAgent.execute_workflow agent_done demo_prompt demo_agent None world0
    = (Ret (result, self'), w')
    /\ result_field "success" result = Some (VBool true)
    /\ agent_runs (trace w') = ["Process 2 pending orders"]
    /\ executed (trace w')
       = [Some "SELECT 1 as health_check"; Some ORBITAgent.pending_query;
          Some "UPDATE orders SET processing_stage = 'completed' WHERE id = 1"].
Proof.
  destruct (@workflow_starts_at_most_one_run agent_done demo_prompt demo_agent
              None world0)
    as (result & self' & w' & ok & E & Hs & Hruns & Hzero & _ & later & Hx & _ & Hl).
  assert (Hctx : WorkflowContext.pending_orders_count (ORBITAgent.context self')
                 = VInt 2).
  { vm_compute in E. inversion E; subst. reflexivity. }
  assert (Hok : ok = true).
  { vm_compute in E. inversion E; subst. vm_compute in Hs. congruence. }
  assert (Hne : agent_runs (trace w') <> agent_runs (trace world0)).
  { intros Heq. apply Hzero in Heq. rewrite Hctx in Heq. discriminate Heq. }
  destruct Hruns as [Hq | Hq]; [contradiction|].
  destruct (Hl Hne) as (requests & ->).
  exists result, self', w'. split; [exact E|]. split; [rewrite Hs, Hok; reflexivity|].
  split; [rewrite Hq; unfold demo_prompt; rewrite Hctx; reflexivity | exact Hx].
Defined.

(** X17 in a world with two pending orders whose agent run raises. *)
Lemma workflow_failure_accounting_witness :
  exists result self' w',
    @ORBITAgent.execute_workflow agent_down demo_prompt demo_agent None world0
    = (Ret (result, self'), w')
    /\ agent_runs (trace w') = ["Process 2 pending orders"]
    /\ result_field "error" result = Some (VStr "agent unavailable")
    /\ ExecutionStats.errors_encountered (ORBITAgent.stats self') = 1.
Proof.
  destruct (@ORBITAgent.execute_workflow agent_down demo_prompt demo_agent None world0)
    as [[[result self'] | e] w'] eqn:E; [|vm_compute in E; discriminate E].
  assert (Hfail : result_field "success" result = Some (VBool false)).
  { vm_compute in E. inversion E; subst. reflexivity. }
  assert (Herr : result_field "error" result = Some (VStr "agent unavailable")).
  { vm_compute in E. inversion E; subst. reflexivity. }
  assert (Hruns : agent_runs (trace w') = ["Process 2 pending orders"]).
  { vm_compute in E. inversion E; subst. reflexivity. }
  destruct (@workflow_failure_accounting agent_down demo_prompt demo_agent None
              world0 w' result self' E Hfail)
    as (prompt & _ & _ & Hcount & _).
  exists result, self', w'. split; [reflexivity|]. split; [exact Hruns|].
  split; [exact Herr | exact Hcount].
Defined.

(** X18 in a world with two pending orders whose agent run returns. *)
Lemma workflow_completed_run_counters_witness :
  exists result self' w',
    @ORBITAgent.execute_workflow agent_done demo_prompt demo_agent None world0
    = (Ret (result, self'), w')
    /\ result_field "success" result = Some (VBool true)
    /\ ExecutionStats.errors_encountered (ORBITAgent.stats self') = 1
    /\ ExecutionStats.orders_processed (ORBITAgent.stats self')
       + ExecutionStats.images_processed (ORBITAgent.stats self') <= 1.
Proof.
  destruct (@ORBITAgent.execute_workflow agent_done demo_prompt demo_agent None world0)
    as [[[result self'] | e] w'] eqn:E; [|vm_compute in E; discriminate E].
  assert (Hruns : agent_runs (trace w') <> agent_runs (trace world0)).
  { vm_compute in E. inversion E; subst. discriminate. }
  edestruct (@workflow_completed_run_counters agent_done demo_prompt demo_agent None
               world0 w' result self') as (Hs & _ & _ & _ & Hops & Herr & _).
  - exact E.
  - exact Hruns.
  - reflexivity.
  - exists result, self', w'. split; [reflexivity|]. split; [exact Hs|].
    split; [exact Herr | exact Hops].
Defined.

(** X20 in a world whose database answers 500 to every attempt. *)
Lemma pending_query_failure_is_masked_witness :
  exists ctx w',
    @ORBITAgent.prepare_workflow_context database_down demo_agent world0
    = (Ret (ctx, ORBITAgent.set_context demo_agent ctx), w')
    /\ WorkflowContext.pending_orders_count ctx = VInt 0
    /\ WorkflowContext.error_message ctx = None.
Proof.
  edestruct (@pending_query_failure_is_masked database_down demo_agent world0)
    as (ctx & w' & E & Hc & He & _).
  - vm_compute. reflexivity.
  - reflexivity.
  - exists ctx, w'. split; [exact E|]. split; [exact Hc | exact He].
Defined.

(** X21 in a world without services. *)
Lemma mcp_sql_single_request_witness :
  exists r w',
    @MCPServer.database_execute_sql offline demo_srv "SELECT 1" None world0
    = (Ret r, w')
    /\ calls w' = 1%nat
    /\ error r = Some "SQL execution failed: connection refused"
    /\ success r <> true.
Proof.
  destruct (@mcp_sql_single_request offline demo_srv "SELECT 1" None world0)
    as (r & E & He & Hs & _).
  exists r. eexists. split; [exact E|]. split; [reflexivity|].
  split; [exact He|]. intros Hok. apply Hs in Hok. discriminate Hok.
Defined.

(** X23 in a world without services. *)
Lemma mcp_context_reports_database_failure_witness :
  exists r w',
    @MCPServer.get_workflow_context offline demo_srv world0 = (Ret r, w')
    /\ calls w' = 1%nat
    /\ success r = false
    /\ error r = Some "SQL execution failed: connection refused".
Proof.
  destruct (@mcp_context_reports_database_failure offline demo_srv world0
              "SQL execution failed: connection refused" eq_refl)
    as (r & E & Hs & He & _).
  exists r. eexists. split; [exact E|]. split; [reflexivity|].
  split; [exact Hs | exact He].
Defined.

(** X24 on two paths of which the second is refused: success, two
    entries. *)
Lemma mcp_signed_urls_all_or_nothing_witness :
  exists r w',
    @MCPServer.storage_create_signed_urls signing demo_srv "orbit-images"
       ["a.jpg"; "b.jpg"] 3600 world0 = (Ret r, w')
    /\ success r = true
    /\ calls w' = 2%nat
    /\ assoc_get "url_count" (metadata r) = Some (VInt 2).
Proof.
  destruct (@mcp_signed_urls_all_or_nothing signing demo_srv "orbit-images"
              ["a.jpg"; "b.jpg"] 3600 world0) as (r & w' & E & Hok & _).
  assert (Hs : success r = true).
  { vm_compute in E. inversion E; subst. reflexivity. }
  destruct (Hok Hs) as (Hc & _ & Hn & _).
  exists r, w'. split; [exact E|]. split; [exact Hs|]. split; [exact Hc | exact Hn].
Defined.

(** X25 on [verify_file] in a world without services. *)
Lemma storage_one_request_per_operation_witness :
  exists r w',
    @StorageTool._execute offline demo_storage "verify_file" "orbit-images"
       (Some "a.jpg") None None None 3600 "" None world0 = (Ret r, w')
    /\ calls w' = 1%nat
    /\ success r = false
    /\ error r = Some "connection refused".
Proof.
  edestruct (@storage_one_request_per_operation offline demo_storage "verify_file"
               "orbit-images" (Some "a.jpg") None None None 3600 "" None)
    as (r & E & Hf).
  - reflexivity.
  - exists r. eexists. split; [exact E|]. split; [reflexivity|].
    apply (Hf "connection refused"). reflexivity.
Defined.

(** X28 on the demonstration configuration, which is in mock mode. *)
Lemma validate_accepts_exactly_witness :
  Config.validate demo_config = []
  /\ (length (Config.validate unconfigured) <= 4)%nat.
Proof.
  split.
  - apply (proj2 (proj1 (validate_accepts_exactly demo_config))).
    split; [discriminate|]. split; [discriminate|]. left. reflexivity.
  - exact (proj1 (proj2 (validate_accepts_exactly unconfigured))).
Defined.

(** X29 on a configuration without the address of the service. *)
Lemma invalid_config_stops_executor_witness :
  exists result,
    @ORBITWorkflowExecutor.execute_full_workflow offline demo_prompt
       (@demo_new_agent offline) "gemini-1.5-flash"
       {| ORBITWorkflowExecutor.config := unconfigured;
          ORBITWorkflowExecutor.agent := None |} None world0
    = (Ret (result, {| ORBITWorkflowExecutor.config := unconfigured;
                       ORBITWorkflowExecutor.agent := None |}), world0)
    /\ result_field "success" result = Some (VBool false)
    /\ result_field "error" result
       = Some (VStr "Configuration errors: SUPABASE_URL is required, GEMINI_ENDPOINT is required when not in mock mode, METADATA_ENDPOINT is required when not in mock mode").
Proof.
  destruct (@invalid_config_stops_executor offline demo_prompt
              (@demo_new_agent offline) "gemini-1.5-flash"
              {| ORBITWorkflowExecutor.config := unconfigured;
                 ORBITWorkflowExecutor.agent := None |} None world0 eq_refl)
    as (result & E & Hs & He & _); [discriminate|].
  exists result. split; [exact E|]. split; [exact Hs | exact He].
Defined.

(** X30 in a world that answers both health checks and has two pending
    orders, of which the agent updates one. *)
Lemma first_run_checks_health_twice_witness :
  exists result self' w',
    @ORBITWorkflowExecutor.execute_full_workflow first_run demo_prompt
       (@demo_new_agent first_run) "gemini-1.5-flash"
       {| ORBITWorkflowExecutor.config := demo_config;
          ORBITWorkflowExecutor.agent := None |} None world0
    = (Ret (result, self'), w')
    /\ agent_runs (trace w') = ["Process 2 pending orders"]
    /\ executed (trace w')
       = [Some "SELECT 1 as health_check"; Some "SELECT 1 as health_check";
          Some ORBITAgent.pending_query;
          Some "UPDATE orders SET processing_stage = 'completed' WHERE id = 1"].
Proof.
  edestruct (@first_run_checks_health_twice first_run demo_prompt
               (@demo_new_agent first_run) "gemini-1.5-flash"
               {| ORBITWorkflowExecutor.config := demo_config;
                  ORBITWorkflowExecutor.agent := None |} None world0)
    as (result & self' & a' & w' & E & _ & (later & Hx & _ & Hl) & _).
  - reflexivity.
  - reflexivity.
  - reflexivity.
  - assert (Hruns : agent_runs (trace w') = ["Process 2 pending orders"]).
    { vm_compute in E. inversion E; subst. reflexivity. }
    destruct Hl as (requests & ->); [rewrite Hruns; discriminate|].
    exists result, self', w'. split; [exact E|]. split; [exact Hruns | exact Hx].
Defined.
